(** * Sora Prompt Queue: coordination and scheduling core

    A shallow embedding of the scheduling logic of the browser extension:
    the background service worker (response classifier, credential store,
    controller election) and the content script (queue, admission checks,
    submission and error handling), together with the properties stated
    about them.

    Conventions of the embedding.
    - JavaScript values that cross a message or storage boundary are kept as
      [JValue]; numbers are integers ([Z]).  Where the code computes with a
      number taken from a response, the result is rounded as a double is
      ([roundDouble]); the clock, counters and constants stay in the range
      in which doubles are exact.  A conversion that throws [TypeError] is a
      result [None].  Strings are [string]: one character per code unit,
      code units 0..255.
    - [Date.now()] is an argument [now] of every handler; one handler run
      reads one clock value.
    - An [async] function is split at its [await]: the synchronous prefix is
      a function on the machine state, the rest is a continuation kept in the
      machine's list of pending submissions and run by a later event.
    - Rendering, notifications and logging have no effect on the modelled
      state and are left out; the state change hidden in [updateUI] is kept.
    - A storage write of the instance is visible at once.  A write of
      another context to the queue key, a change notification that arrives
      after the key has been written again, and the invalidation of the
      extension context are events of their own; the runs without them are
      the [Calm] ones. *)

From Stdlib Require Import ZArith Lia List Bool Ascii String.
From stdpp Require Import base gmap strings list pretty.

Open Scope Z_scope.

(** ** JavaScript values *)

Module JS.

#[local] Set Warnings "-register-all".

Inductive JValue :=
| JUndefined
| JNull
| JBool (b : bool)
| JNum (n : Z)
| JStr (s : string)
| JArr (elems : list JValue)
| JObj (fields : list (string * JValue)).

(** Own-property lookup in a parsed object. *)
Fixpoint assoc (k : string) (fields : list (string * JValue)) : JValue :=
  match fields with
  | [] => JUndefined
  | (k', v) :: rest => if String.eqb k k' then v else assoc k rest
  end.

(** [v.k] for a value [v] that is neither [null] nor [undefined].  The
    property names read by the program are never numeric and never
    [length], so primitives and arrays answer [undefined]. *)
Definition prop (v : JValue) (k : string) : JValue :=
  match v with
  | JObj fields => assoc k fields
  | _ => JUndefined
  end.

(** [v?.k] *)
Definition optProp (v : JValue) (k : string) : JValue :=
  match v with
  | JUndefined | JNull => JUndefined
  | _ => prop v k
  end.

(** ToBoolean *)
Definition truthy (v : JValue) : bool :=
  match v with
  | JUndefined | JNull => false
  | JBool b => b
  | JNum n => negb (n =? 0)
  | JStr s => negb (String.eqb s "")
  | JArr _ | JObj _ => true
  end.

(** [a || b] *)
Definition jor (a b : JValue) : JValue := if truthy a then a else b.

(** [a === b] against a primitive literal. *)
Definition strictEqStr (v : JValue) (s : string) : bool :=
  match v with JStr s' => String.eqb s' s | _ => false end.

Definition strictEqNum (v : JValue) (n : Z) : bool :=
  match v with JNum n' => n' =? n | _ => false end.

Definition strictEqBool (v : JValue) (b : bool) : bool :=
  match v with JBool b' => Bool.eqb b' b | _ => false end.

(** [Object.prototype.hasOwnProperty] on a parsed object. *)
Definition hasOwn (k : string) (fields : list (string * JValue)) : bool :=
  existsb (fun kv => String.eqb (fst kv) k) fields.

(** ToString, as applied by [RegExp.prototype.test] to its argument; [None]
    stands for the TypeError of ToPrimitive.  A parsed object holds no
    function, so an own property [toString] is not callable: the conversion
    then falls through [valueOf], which answers the object itself, and
    throws.  Without that property the inherited [toString] answers
    ["[object Object]"].  An array is joined, [null] and [undefined]
    elements as the empty string, and throws when an element does.  An
    integer below 10^21 in absolute value prints in decimal notation. *)
Fixpoint ToString (v : JValue) : option string :=
  match v with
  | JUndefined => Some "undefined"
  | JNull => Some "null"
  | JBool true => Some "true"
  | JBool false => Some "false"
  | JNum n => Some (pretty n)
  | JStr s => Some s
  | JArr elems =>
      (fix join (l : list JValue) : option string :=
         match l with
         | [] => Some ""
         | x :: l' =>
             match match x with
                   | JUndefined | JNull => Some ""
                   | _ => ToString x
                   end with
             | None => None
             | Some sx =>
                 match l' with
                 | [] => Some sx
                 | _ :: _ =>
                     match join l' with
                     | None => None
                     | Some rest => Some (sx +:+ "," +:+ rest)
                     end
                 end
             end
         end) elems
  | JObj fields => if hasOwn "toString" fields then None else Some "[object Object]"
  end.

(** A value that is not an object: ToPrimitive leaves it as it is. *)
Definition isPrimitive (v : JValue) : bool :=
  match v with
  | JArr _ | JObj _ => false
  | _ => true
  end.

(** The double nearest to an integer, ties to even: the result of an
    addition or a multiplication of doubles whose exact value is that
    integer.  Integers up to 2^53 in absolute value are doubles; beyond
    2^1024 the result would be infinite, which [JValue] does not hold. *)
Definition roundDouble (z : Z) : Z :=
  let a := Z.abs z in
  if a <=? 2 ^ 53 then z
  else
    let e := Z.log2 a - 52 in
    let q := a / 2 ^ e in
    let r := a mod 2 ^ e in
    let half := 2 ^ (e - 1) in
    let q' := if r <? half then q
              else if half <? r then q + 1
              else if Z.even q then q else q + 1 in
    Z.sgn z * (q' * 2 ^ e).

Section Numeric.

(** StringToNumber is not modelled; every statement below holds for any
    choice of it.  The outer [None] of [ToNumber] stands for the TypeError
    of ToPrimitive, the inner one for NaN. *)
Variable StringToNumber : string -> option Z.

Definition ToNumber (v : JValue) : option (option Z) :=
  match v with
  | JUndefined => Some None
  | JNull => Some (Some 0)
  | JBool true => Some (Some 1)
  | JBool false => Some (Some 0)
  | JNum n => Some (Some n)
  | JStr s => Some (StringToNumber s)
  | JArr _ | JObj _ => option_map StringToNumber (ToString v)
  end.

(** [v > 0] *)
Definition gtZero (v : JValue) : option bool :=
  option_map (fun n => match n with
                       | Some n => 0 <? n
                       | None => false
                       end) (ToNumber v).

End Numeric.

(** Object spread [{...a, ...b}]: a key keeps its first position and takes
    its last value. *)
Fixpoint setField (k : string) (v : JValue) (fields : list (string * JValue))
  : list (string * JValue) :=
  match fields with
  | [] => [(k, v)]
  | (k', v') :: rest =>
      if String.eqb k k' then (k', v) :: rest else (k', v') :: setField k v rest
  end.

Definition spread (base over : list (string * JValue)) : list (string * JValue) :=
  fold_left (fun acc kv => setField (fst kv) (snd kv) acc) over base.

Definition ownFields (v : JValue) : list (string * JValue) :=
  match v with JObj fields => fields | _ => [] end.

(** *** [String.prototype.trim] *)

(** WhiteSpace and LineTerminator code units below 256. *)
Definition isSpace (c : ascii) : bool :=
  let n := N_of_ascii c in
  ((9 <=? n) && (n <=? 13) || (n =? 32) || (n =? 160))%N.

Fixpoint trimStart (s : string) : string :=
  match s with
  | EmptyString => EmptyString
  | String c s' => if isSpace c then trimStart s' else s
  end.

Fixpoint trimEnd (s : string) : string :=
  match s with
  | EmptyString => EmptyString
  | String c s' =>
      match trimEnd s' with
      | EmptyString => if isSpace c then EmptyString else String c EmptyString
      | r => String c r
      end
  end.

Definition trim (s : string) : string := trimEnd (trimStart s).

(** Empty or made of white space only. *)
Fixpoint allSpace (s : string) : bool :=
  match s with
  | EmptyString => true
  | String c s' => isSpace c && allSpace s'
  end.

(** *** [toLowerCase], [includes], [length], [typeof] *)

(** Lower case of a code unit below 256: the ASCII capitals and the Latin-1
    capitals (192..222 without the multiplication sign) move up by 32. *)
Definition lower (c : ascii) : ascii :=
  let n := N_of_ascii c in
  if ((65 <=? n) && (n <=? 90) || (192 <=? n) && (n <=? 222) && negb (n =? 215))%N
  then ascii_of_N (n + 32) else c.

Fixpoint toLowerCase (s : string) : string :=
  match s with
  | EmptyString => EmptyString
  | String c s' => String (lower c) (toLowerCase s')
  end.

(** [s.includes(t)] *)
Fixpoint includes (s t : string) : bool :=
  String.prefix t s ||
  match s with
  | EmptyString => false
  | String _ s' => includes s' t
  end.

(** [v.length] for a value [v] that is neither [null] nor [undefined]. *)
Definition lengthOf (v : JValue) : JValue :=
  match v with
  | JStr s => JNum (Z.of_nat (String.length s))
  | JArr elems => JNum (Z.of_nat (length elems))
  | JObj fields => assoc "length" fields
  | _ => JUndefined
  end.

(** [typeof v] *)
Definition typeOf (v : JValue) : string :=
  match v with
  | JUndefined => "undefined"
  | JBool _ => "boolean"
  | JNum _ => "number"
  | JStr _ => "string"
  | JNull | JArr _ | JObj _ => "object"
  end.

End JS.
Export JS.

(** ** Regular expressions

    The four patterns of [parse429Response] use literals, [?], [.] and [*]
    under the [i] flag.  [test] is the unanchored search of
    [RegExp.prototype.test], computed with derivatives. *)

Module Regex.

Inductive regex :=
| Void
| Eps
| Chr (c : ascii)
| Dot
| Alt (r1 r2 : regex)
| Seq (r1 r2 : regex)
| Star (r : regex).

(** Canonicalize of the [i] flag on the ASCII letters.  The pattern
    characters are ASCII, and a code unit of 128 or more never canonicalizes
    to an ASCII one, so this decides every comparison the patterns make. *)
Definition canon (c : ascii) : ascii :=
  let n := N_of_ascii c in
  if ((97 <=? n) && (n <=? 122))%N then ascii_of_N (n - 32) else c.

Definition chrMatch (c d : ascii) : bool := Ascii.eqb (canon c) (canon d).

(** [.] rejects the line terminators (LF and CR below 256). *)
Definition dotMatch (d : ascii) : bool :=
  let n := N_of_ascii d in negb ((n =? 10) || (n =? 13))%N.

Fixpoint nullable (r : regex) : bool :=
  match r with
  | Void => false
  | Eps => true
  | Chr _ => false
  | Dot => false
  | Alt r1 r2 => nullable r1 || nullable r2
  | Seq r1 r2 => nullable r1 && nullable r2
  | Star _ => true
  end.

Fixpoint deriv (d : ascii) (r : regex) : regex :=
  match r with
  | Void => Void
  | Eps => Void
  | Chr c => if chrMatch c d then Eps else Void
  | Dot => if dotMatch d then Eps else Void
  | Alt r1 r2 => Alt (deriv d r1) (deriv d r2)
  | Seq r1 r2 =>
      if nullable r1
      then Alt (Seq (deriv d r1) r2) (deriv d r2)
      else Seq (deriv d r1) r2
  | Star r1 => Seq (deriv d r1) (Star r1)
  end.

(** Some prefix of [s] is in the language of [r]. *)
Fixpoint matchPrefix (r : regex) (s : string) : bool :=
  nullable r ||
  match s with
  | EmptyString => false
  | String d s' => matchPrefix (deriv d r) s'
  end.

(** [/r/i.test(s)]: some substring of [s] is in the language of [r]. *)
Fixpoint test (r : regex) (s : string) : bool :=
  matchPrefix r s ||
  match s with
  | EmptyString => false
  | String _ s' => test r s'
  end.

Fixpoint lit (s : string) : regex :=
  match s with
  | EmptyString => Eps
  | String c s' => Seq (Chr c) (lit s')
  end.

Definition opt (r : regex) : regex := Alt r Eps.

(** [w] is [p] up to the case of the ASCII letters. *)
Fixpoint ciEqual (p w : string) : bool :=
  match p, w with
  | EmptyString, EmptyString => true
  | String c p', String d w' => chrMatch c d && ciEqual p' w'
  | _, _ => false
  end.

(** The language of a pattern, stated without reference to the matcher. *)
Inductive Matches : regex -> string -> Prop :=
| MEps : Matches Eps ""
| MChr c d : chrMatch c d = true -> Matches (Chr c) (String d "")
| MDot d : dotMatch d = true -> Matches Dot (String d "")
| MAltL r1 r2 s : Matches r1 s -> Matches (Alt r1 r2) s
| MAltR r1 r2 s : Matches r2 s -> Matches (Alt r1 r2) s
| MSeq r1 r2 s1 s2 : Matches r1 s1 -> Matches r2 s2 -> Matches (Seq r1 r2) (s1 +:+ s2)
| MStarNil r : Matches (Star r) ""
| MStarCons r s1 s2 : Matches r s1 -> Matches (Star r) s2 -> Matches (Star r) (s1 +:+ s2).

(** [s] contains a substring in the language of [r]. *)
Definition Found (r : regex) (s : string) : Prop :=
  exists pre mid post, s = pre +:+ mid +:+ post /\ Matches r mid.

(** [/you already have 3 generations? in progress/i] *)
Definition reInProgress : regex :=
  Seq (lit "you already have 3 generation")
      (Seq (opt (Chr "s")) (lit " in progress")).

(** [/you can only generate 3 videos? at a time/i] *)
Definition reAtATime : regex :=
  Seq (lit "you can only generate 3 video")
      (Seq (opt (Chr "s")) (lit " at a time")).

(** [/too many concurrent/i] *)
Definition reTooMany : regex := lit "too many concurrent".

(** [/maximum.*concurrent.*generations/i] *)
Definition reMaximum : regex :=
  Seq (lit "maximum")
      (Seq (Star Dot)
           (Seq (lit "concurrent") (Seq (Star Dot) (lit "generations")))).

(** *** The phrasings, spelled out

    What the four patterns accept, written without the matcher and without
    its case folding. *)

(** Every code unit below 256. *)
Definition allAscii : list ascii := List.map ascii_of_nat (List.seq 0 256).

(** The same character, or the two cases of one ASCII letter. *)
Definition sameLetter (c d : ascii) : bool :=
  let a := N_of_ascii c in
  let b := N_of_ascii d in
  ((a =? b)
   || ((65 <=? a) && (a <=? 90) && (b =? a + 32))
   || ((97 <=? a) && (a <=? 122) && (b =? a - 32)))%N.

(** [w] is [p] up to letter case. *)
Fixpoint sameText (p w : string) : bool :=
  match p, w with
  | EmptyString, EmptyString => true
  | String c p', String d w' => sameLetter c d && sameText p' w'
  | _, _ => false
  end.

(** [s] contains [p], letter case ignored. *)
Definition Contains (p s : string) : Prop :=
  exists pre mid post, s = pre +:+ mid +:+ post /\ sameText p mid = true.

(** No line feed and no carriage return. *)
Fixpoint oneLine (s : string) : bool :=
  match s with
  | EmptyString => true
  | String c s' =>
      negb ((N_of_ascii c =? 10) || (N_of_ascii c =? 13))%N && oneLine s'
  end.

(** [s] contains [a], then [b], then [c], letter case ignored, with no line
    break between them. *)
Definition ContainsInOrder (a b c s : string) : Prop :=
  exists pre wa gap1 wb gap2 wc post,
    s = pre +:+ wa +:+ gap1 +:+ wb +:+ gap2 +:+ wc +:+ post
    /\ sameText a wa = true /\ oneLine gap1 = true
    /\ sameText b wb = true /\ oneLine gap2 = true
    /\ sameText c wc = true.

(** The message has one of the phrasings of a concurrency limit. *)
Inductive Phrasing (s : string) : Prop :=
| PhInProgress :
    Contains "you already have 3 generation in progress" s
    \/ Contains "you already have 3 generations in progress" s -> Phrasing s
| PhAtATime :
    Contains "you can only generate 3 video at a time" s
    \/ Contains "you can only generate 3 videos at a time" s -> Phrasing s
| PhTooMany : Contains "too many concurrent" s -> Phrasing s
| PhMaximum : ContainsInOrder "maximum" "concurrent" "generations" s -> Phrasing s.

End Regex.
Export Regex.

(** ** Background service worker *)

Module Background.

(** [chrome.storage.session] and [chrome.storage.local]. *)
Record Storage := mkStorage {
  session : gmap string JValue;
  local : gmap string JValue
}.

Definition TOKEN : string := "capturedToken".
Definition DEVICE_ID : string := "capturedDeviceId".
Definition LANGUAGE : string := "capturedLanguage".
Definition TOKEN_CAPTURED_AT : string := "tokenCapturedAt".
Definition CONTROLLER_TAB : string := "controllerTabId".
Definition CONTROLLER_HEARTBEAT : string := "controllerHeartbeat".

(** [area.get([...])[k]] *)
Definition getKey (area : gmap string JValue) (k : string) : JValue :=
  default JUndefined (area !! k).

(** [area.set(data)] *)
Definition setAll (data : list (string * JValue)) (area : gmap string JValue)
  : gmap string JValue :=
  fold_left (fun a kv => <[fst kv := snd kv]> a) data area.

(** [area.remove([...])] *)
Definition removeAll (keys : list string) (area : gmap string JValue)
  : gmap string JValue :=
  fold_left (fun a k => delete k a) keys area.

Definition isStr (v : JValue) : bool :=
  match v with JStr _ => true | _ => false end.

Definition strOf (v : JValue) : string :=
  match v with JStr s => s | _ => "" end.

(** *** Token management *)

Definition setManualToken (payload : JValue) (now : Z) (sessionOk : bool)
    (st : Storage) : JValue * Storage :=
  let p := jor payload (JObj []) in
  let token := prop p "token" in
  let deviceId := prop p "deviceId" in
  let language := prop p "language" in
  if negb (truthy token) || negb (isStr token)
     || (String.length (trim (strOf token)) =? 0)%nat
  then (JObj [("success", JBool false); ("error", JStr "Invalid token")], st)
  else
    let data :=
      [(TOKEN, JStr (trim (strOf token))); (TOKEN_CAPTURED_AT, JNum now)]
      ++ (if truthy deviceId then [(DEVICE_ID, deviceId)] else [])
      ++ (if truthy language then [(LANGUAGE, language)] else []) in
    let st' :=
      if sessionOk
      then mkStorage (setAll data (session st)) (local st)
      else mkStorage (session st) (setAll data (local st)) in
    (JObj [("success", JBool true); ("hasToken", JBool true)], st').

Definition clearToken (st : Storage) : JValue * Storage :=
  let keys := [TOKEN; DEVICE_ID; LANGUAGE; TOKEN_CAPTURED_AT] in
  (JObj [("success", JBool true); ("hasToken", JBool false)],
   mkStorage (removeAll keys (session st)) (removeAll keys (local st))).

Definition invalidateToken (st : Storage) : JValue * Storage := clearToken st.

Definition getCapturedHeaders (st : Storage) : JValue :=
  let area := if truthy (getKey (session st) TOKEN) then session st else local st in
  JObj [("success", JBool true);
        ("token", jor (getKey area TOKEN) JNull);
        ("deviceId", jor (getKey area DEVICE_ID) JNull);
        ("language", jor (getKey area LANGUAGE) (JStr "en-US"))].

Definition getTokenStatus (st : Storage) : JValue :=
  let area := if truthy (getKey (session st) TOKEN) then session st else local st in
  let hasToken := truthy (getKey area TOKEN) in
  JObj [("success", JBool true);
        ("hasToken", JBool hasToken);
        ("capturedAt", jor (getKey area TOKEN_CAPTURED_AT) JNull);
        ("tokenLength", if hasToken then lengthOf (getKey area TOKEN) else JNum 0)].

Section Coercions.

Variable StringToNumber : string -> option Z.

(** *** Classification of a 429 response *)

Definition balance (data : JValue) : JValue := prop data "rate_limit_and_credit_balance".

(** The condition of the first [if]: quota or credit exhausted. *)
Definition isDailyLimit (data : JValue) : bool :=
  strictEqStr (prop data "type") "rate_limit_exhausted"
  || (strictEqBool (optProp (balance data) "rate_limit_reached") true
      && strictEqNum (optProp (balance data) "credit_remaining") 0).

(** The same condition on the fields of the body, as a proposition. *)
Definition Exhausted (data : JValue) : Prop :=
  prop data "type" = JStr "rate_limit_exhausted"
  \/ (optProp (prop data "rate_limit_and_credit_balance") "rate_limit_reached" = JBool true
      /\ optProp (prop data "rate_limit_and_credit_balance") "credit_remaining" = JNum 0).

Definition errorCode (data : JValue) : JValue := optProp (prop data "error") "code".

Definition errorMessage (data : JValue) : JValue :=
  jor (optProp (prop data "error") "message") (JStr "").

Definition numTasks (data : JValue) : JValue :=
  optProp (optProp (prop data "error") "details") "num_tasks".

(** The operands of [||] are taken from the left: the patterns are tried,
    and the message converted to a string, only when neither the code nor
    the task count decides.  [None] when that conversion throws. *)
Definition isConcurrentLimit (data : JValue) : option bool :=
  if strictEqStr (errorCode data) "too_many_concurrent_tasks"
     || strictEqNum (numTasks data) 3
  then Some true
  else
    match ToString (errorMessage data) with
    | Some s =>
        Some (test reInProgress s || test reAtATime s
              || test reTooMany s || test reMaximum s)
    | None => None
    end.

(** [parse429Response]; [None] when it throws a TypeError, which is when
    [resetSeconds > 0] or a pattern test has to convert an object that
    cannot be converted.  The product and the sum are those of doubles. *)
Definition parse429Response (data : JValue) (now : Z) : option JValue :=
  if negb (truthy data) then
    Some (JObj [("error", JStr "RATE_LIMIT_UNKNOWN");
                ("message", JStr "Rate limit reached (unknown type)")])
  else if isDailyLimit data then
    let resetSeconds := jor (optProp (balance data) "access_resets_in_seconds") (JNum 0) in
    match gtZero StringToNumber resetSeconds with
    | None => None
    | Some positive =>
        Some (JObj [("error", JStr "DAILY_LIMIT");
                    ("message", JStr "Daily generation limit reached.");
                    ("resetSeconds", resetSeconds);
                    ("resetTime",
                      if positive
                      then match ToNumber StringToNumber resetSeconds with
                           | Some (Some n) =>
                               JNum (roundDouble (now + roundDouble (n * 1000)))
                           | _ => JNull
                           end
                      else JNull);
                    ("creditRemaining",
                      jor (optProp (balance data) "credit_remaining") (JNum 0))])
    end
  else
    match isConcurrentLimit data with
    | None => None
    | Some true =>
        Some (JObj [("error", JStr "CONCURRENT_LIMIT");
                    ("message", jor (optProp (prop data "error") "message")
                                    (JStr "Maximum concurrent generations reached (3)."));
                    ("numTasks", jor (numTasks data) (JNum 3))])
    | Some false =>
        Some (JObj [("error", JStr "RATE_LIMIT_UNKNOWN");
                    ("message", jor (optProp (prop data "error") "message")
                                    (JStr "Rate limit reached."));
                    ("rawData", data)])
    end.

(** The message listener answers a handler that throws with
    [{success: false, error: err.message}].  The two TypeErrors the
    handlers below can run into carry the texts of the browser's engine. *)
Definition caught (message : string) : JValue :=
  JObj [("success", JBool false); ("error", JStr message)].

Definition NOT_PRIMITIVE : string := "Cannot convert object to primitive value".

(** Reading property [k] of [undefined] or [null]. *)
Definition cannotRead (v : JValue) (k : string) : string :=
  "Cannot read properties of "
  +:+ match v with JNull => "null" | _ => "undefined" end
  +:+ " (reading '" +:+ k +:+ "')".

(** [executeSubmitPrompt], as the listener answers it; [fetched] is what
    [executeInMainWorld] returned.  The function has no [try]: reading
    [result.success] of a missing result, and [parse429Response], throw
    through to the listener. *)
Definition executeSubmitPrompt (payload fetched : JValue) (now : Z) (st : Storage)
  : JValue * Storage :=
  let prompt := prop (jor payload (JObj [])) "prompt" in
  if negb (truthy prompt) then
    (JObj [("success", JBool false); ("error", JStr "NO_PROMPT");
           ("message", JStr "No prompt provided")], st)
  else if negb (truthy (prop (getCapturedHeaders st) "token")) then
    (JObj [("success", JBool false); ("error", JStr "NO_TOKEN");
           ("message", JStr "No token available. Please generate once manually to capture token.")],
     st)
  else
    match fetched with
    | JUndefined | JNull => (caught (cannotRead fetched "success"), st)
    | _ =>
        if negb (truthy (prop fetched "success"))
           && strictEqNum (prop fetched "status") 429 then
          match parse429Response (prop fetched "data") now with
          | Some parsed =>
              (JObj (spread (ownFields fetched) (ownFields parsed)), st)
          | None => (caught NOT_PRIMITIVE, st)
          end
        else if negb (truthy (prop fetched "success"))
                && (strictEqNum (prop fetched "status") 401
                    || strictEqNum (prop fetched "status") 403) then
          (JObj (spread (ownFields fetched)
                   [("error", JStr "AUTH_ERROR");
                    ("message", JStr "Authentication failed. Please generate once manually to refresh token.")]),
           snd (invalidateToken st))
        else (fetched, st)
    end.

(** *** Multi-tab coordination *)

(** [!tabId] for [sender.tab?.id] *)
Definition noTab (tabId : option Z) : bool :=
  match tabId with
  | None => true
  | Some n => n =? 0
  end.

Definition tabNum (tabId : option Z) : Z := default 0 tabId.

(** [(now - lastHeartbeat) > 10000]; [None] when the subtraction throws.
    The rounding of the difference to a double is monotone and 10000 is a
    double, so the comparison is that of the exact difference. *)
Definition staleness (now : Z) (lastHeartbeat : JValue) : option bool :=
  option_map (fun h => match h with
                       | Some h => 10000 <? now - h
                       | None => false
                       end) (ToNumber StringToNumber lastHeartbeat).

(** The comparison is made and answers [true]. *)
Definition stale (now : Z) (lastHeartbeat : JValue) : bool :=
  default false (staleness now lastHeartbeat).

Definition claim (tabId : option Z) (now : Z) (st : Storage) : Storage :=
  mkStorage (session st)
    (setAll [(CONTROLLER_TAB, JNum (tabNum tabId)); (CONTROLLER_HEARTBEAT, JNum now)]
            (local st)).

(** [registerController]; [tabExists] answers whether [chrome.tabs.get]
    resolves.  The [catch] of the function answers a thrown error. *)
Definition registerController (tabExists : JValue -> bool) (tabId : option Z)
    (now : Z) (st : Storage) : JValue * Storage :=
  if noTab tabId then
    (JObj [("success", JBool false); ("error", JStr "No tab ID")], st)
  else
    let currentController := getKey (local st) CONTROLLER_TAB in
    let lastHeartbeat := jor (getKey (local st) CONTROLLER_HEARTBEAT) (JNum 0) in
    if negb (truthy currentController) then
      (JObj [("success", JBool true); ("isController", JBool true)], claim tabId now st)
    else
      match staleness now lastHeartbeat with
      | None => (caught NOT_PRIMITIVE, st)
      | Some true =>
          (JObj [("success", JBool true); ("isController", JBool true)],
           claim tabId now st)
      | Some false =>
          if tabExists currentController then
            if strictEqNum currentController (tabNum tabId) then
              (JObj [("success", JBool true); ("isController", JBool true)], st)
            else
              (JObj [("success", JBool true); ("isController", JBool false);
                     ("controllerId", currentController)], st)
          else
            (JObj [("success", JBool true); ("isController", JBool true)],
             claim tabId now st)
      end.

Definition handleHeartbeat (tabId : option Z) (now : Z) (st : Storage)
  : JValue * Storage :=
  if noTab tabId then (JObj [("success", JBool false)], st)
  else if strictEqNum (getKey (local st) CONTROLLER_TAB) (tabNum tabId) then
    (JObj [("success", JBool true); ("isController", JBool true)],
     mkStorage (session st) (setAll [(CONTROLLER_HEARTBEAT, JNum now)] (local st)))
  else
    (JObj [("success", JBool true); ("isController", JBool false)], st).

(** [chrome.tabs.onRemoved] *)
Definition onTabRemoved (tabId : Z) (st : Storage) : Storage :=
  if strictEqNum (getKey (local st) CONTROLLER_TAB) tabId
  then mkStorage (session st)
         (removeAll [CONTROLLER_TAB; CONTROLLER_HEARTBEAT] (local st))
  else st.

(** The controller recorded in storage. *)
Definition leader (st : Storage) : JValue := getKey (local st) CONTROLLER_TAB.

End Coercions.

(** *** Token capture from the request headers *)

(** An entry of [details.requestHeaders]. *)
Record Header := mkHeader {
  name : string;
  value : JValue
}.

(** The body of the loop over the headers; the accumulator holds
    [sentinel], [deviceId] and [language]. *)
Definition scanHeader (acc : JValue * JValue * JValue) (header : Header)
  : JValue * JValue * JValue :=
  let '(sentinel, deviceId, language) := acc in
  let n := toLowerCase (name header) in
  if String.eqb n "openai-sentinel-token" then (value header, deviceId, language)
  else if String.eqb n "oai-device-id" then (sentinel, value header, language)
  else if String.eqb n "oai-language" then (sentinel, deviceId, value header)
  else acc.

Definition scanHeaders (headers : list Header) : JValue * JValue * JValue :=
  fold_left scanHeader headers (JNull, JNull, JNull).

(** The [onBeforeSendHeaders] listener.  The result is the storage and the
    messages handed to [notifyAllSoraTabs]; [sessionOk] tells whether the
    write to the session area succeeds. *)
Definition onBeforeSendHeaders (method : string) (requestHeaders : option (list Header))
    (now : Z) (sessionOk : bool) (st : Storage) : Storage * list JValue :=
  if negb (String.eqb method "POST") then (st, [])
  else
    let '(sentinel, deviceId, language) := scanHeaders (default [] requestHeaders) in
    if truthy sentinel then
      let captureData :=
        [(TOKEN, sentinel); (TOKEN_CAPTURED_AT, JNum now)]
        ++ (if truthy deviceId then [(DEVICE_ID, deviceId)] else [])
        ++ (if truthy language then [(LANGUAGE, language)] else []) in
      if sessionOk
      then (mkStorage (setAll captureData (session st)) (local st),
            [JObj [("type", JStr "TOKEN_CAPTURED"); ("hasToken", JBool true)]])
      else (mkStorage (session st) (setAll captureData (local st)), [])
    else (st, []).

(** *** Execution in the page *)

(** How [response.json()] ends, and how [fetch] ends. *)
Inductive Body :=
| Parsed (data : JValue)
| Unparsable (message : string).

Inductive Response :=
| Rejected (message : string)
| Answered (ok : bool) (status : Z) (body : Body).

(** How [chrome.scripting.executeScript] ends. *)
Inductive Injection :=
| InjectionThrew (message : string)
| InjectionResults (results : list JValue).

Definition executeInMainWorld (tabId : option Z) (run : Injection) : JValue :=
  if noTab tabId then
    JObj [("success", JBool false); ("error", JStr "No tab ID provided")]
  else
    match run with
    | InjectionThrew message => JObj [("success", JBool false); ("error", JStr message)]
    | InjectionResults (r :: _) =>
        if truthy r then prop r "result"
        else JObj [("success", JBool false); ("error", JStr "No result from executeScript")]
    | InjectionResults [] =>
        JObj [("success", JBool false); ("error", JStr "No result from executeScript")]
    end.

Definition activeStatuses : list string := ["queued"; "processing"; "running"].

(** The predicate of the filter over the pending tasks; [None] when
    [t.status.toLowerCase] is not a function and the call throws. *)
Definition isActiveTask (t : JValue) : option bool :=
  if truthy t then
    if truthy (prop t "status") then
      match prop t "status" with
      | JStr s => Some (existsb (String.eqb (toLowerCase s)) activeStatuses)
      | _ => None
      end
    else Some false
  else Some false.

(** [data.filter(...)], which stops at the first element that throws. *)
Fixpoint activeTasks (data : list JValue) : option (list JValue) :=
  match data with
  | [] => Some []
  | t :: rest =>
      match isActiveTask t with
      | Some b =>
          match activeTasks rest with
          | Some r => Some (if b then t :: r else r)
          | None => None
          end
      | None => None
      end
  end.

(** The function [executePollPending] runs in the page. *)
Definition pollInPage (r : Response) : JValue :=
  match r with
  | Rejected message => JObj [("success", JBool false); ("error", JStr message)]
  | Answered ok status body =>
      if negb ok then
        JObj [("success", JBool false); ("error", JStr ("HTTP " +:+ pretty status))]
      else
        match body with
        | Unparsable message => JObj [("success", JBool false); ("error", JStr message)]
        | Parsed (JArr data) =>
            match activeTasks data with
            | Some active =>
                JObj [("success", JBool true);
                      ("tasks", JArr data);
                      ("activeCount", JNum (Z.of_nat (length active)));
                      ("totalCount", JNum (Z.of_nat (length data)))]
            | None =>
                JObj [("success", JBool false);
                      ("error", JStr "t.status.toLowerCase is not a function")]
            end
        | Parsed data =>
            JObj [("success", JBool false);
                  ("error", JStr "Invalid response format (expected array)");
                  ("rawData", JStr (typeOf data))]
        end
  end.

(** The function [executeSubmitPrompt] runs in the page, from the response
    on. *)
Definition submitInPage (r : Response) : JValue :=
  match r with
  | Rejected message =>
      JObj [("success", JBool false); ("error", JStr "NETWORK_ERROR");
            ("message", JStr message)]
  | Answered ok status body =>
      let responseData := match body with
                          | Parsed data => data
                          | Unparsable _ => JObj []
                          end in
      JObj [("success", JBool ok); ("status", JNum status); ("data", responseData)]
  end.

(** The value [chrome.scripting.executeScript] resolves to when the page
    function returned [result] in the tab's main frame. *)
Definition injected (result : JValue) : Injection :=
  InjectionResults [JObj [("result", result)]].


End Background.
Export Background.

(** ** Content script: state *)

Module Content.

(** ['queued' | 'sending' | 'error' | 'submitted'] *)
Inductive Status := Queued | Sending | Error | Submitted.

Definition statusEqb (a b : Status) : bool :=
  match a, b with
  | Queued, Queued | Sending, Sending | Error, Error | Submitted, Submitted => true
  | _, _ => false
  end.

Record Item := mkItem {
  id : string;
  prompt : string;
  options : JValue;
  status : Status;
  errorMessage : JValue;
  retryCount : Z;
  createdAt : Z;
  updatedAt : Z
}.

(** [CONFIG] *)
Definition SUBMIT_COOLDOWN_MS : Z := 2000.
Definition MAX_CONCURRENT_TASKS : Z := 3.
Definition BACKOFF_BASE_MS : Z := 10000.
Definition BACKOFF_JITTER_MS : Z := 5000.

(** The [state] object.  A timestamp field is [None] for [null]. *)
Record State := mkState {
  queue : list Item;
  isAutomationEnabled : bool;
  isPaused : bool;
  pauseReason : option string;
  dailyLimitResetTime : option Z;
  hasValidToken : bool;
  lastTokenCapture : option Z;
  activeTaskCount : Z;
  lastPollTime : option Z;
  lastSubmitTime : option Z;
  isSubmitting : bool;
  isController : bool;
  mainWorldReady : bool;
  extensionInvalidated : bool
}.

(** The object kept under [CONFIG.STORAGE_KEY]; a field is [None] when the
    stored object does not define it. *)
Record StoredData := mkStored {
  sd_queue : option (list Item);
  sd_dailyLimitResetTime : option Z;
  sd_isPaused : option bool;
  sd_pauseReason : option string;
  sd_isAutomationEnabled : option bool
}.

(** One content script instance: its [state], the value under the storage
    key, and the items whose [submitQueueItem] call is suspended at its
    [await].  [issued] is a history variable: the ids [addToQueue] has
    produced or that were loaded at start. *)
Record Machine := mkMachine {
  st : State;
  stored : option StoredData;
  pending : list Item;
  issued : list string
}.

Definition initialState : State :=
  mkState [] true false None None false None 0 None None false false false false.

Definition withSt (f : State -> State) (m : Machine) : Machine :=
  mkMachine (f (st m)) (stored m) (pending m) (issued m).

Definition setQueue (q : list Item) (s : State) : State :=
  mkState q (isAutomationEnabled s) (isPaused s) (pauseReason s)
    (dailyLimitResetTime s) (hasValidToken s) (lastTokenCapture s)
    (activeTaskCount s) (lastPollTime s) (lastSubmitTime s) (isSubmitting s)
    (isController s) (mainWorldReady s) (extensionInvalidated s).

Definition setAutomationEnabled (b : bool) (s : State) : State :=
  mkState (queue s) b (isPaused s) (pauseReason s)
    (dailyLimitResetTime s) (hasValidToken s) (lastTokenCapture s)
    (activeTaskCount s) (lastPollTime s) (lastSubmitTime s) (isSubmitting s)
    (isController s) (mainWorldReady s) (extensionInvalidated s).

Definition setPaused (b : bool) (s : State) : State :=
  mkState (queue s) (isAutomationEnabled s) b (pauseReason s)
    (dailyLimitResetTime s) (hasValidToken s) (lastTokenCapture s)
    (activeTaskCount s) (lastPollTime s) (lastSubmitTime s) (isSubmitting s)
    (isController s) (mainWorldReady s) (extensionInvalidated s).

Definition setPauseReason (r : option string) (s : State) : State :=
  mkState (queue s) (isAutomationEnabled s) (isPaused s) r
    (dailyLimitResetTime s) (hasValidToken s) (lastTokenCapture s)
    (activeTaskCount s) (lastPollTime s) (lastSubmitTime s) (isSubmitting s)
    (isController s) (mainWorldReady s) (extensionInvalidated s).

Definition setDailyLimitResetTime (t : option Z) (s : State) : State :=
  mkState (queue s) (isAutomationEnabled s) (isPaused s) (pauseReason s)
    t (hasValidToken s) (lastTokenCapture s)
    (activeTaskCount s) (lastPollTime s) (lastSubmitTime s) (isSubmitting s)
    (isController s) (mainWorldReady s) (extensionInvalidated s).

Definition setHasValidToken (b : bool) (s : State) : State :=
  mkState (queue s) (isAutomationEnabled s) (isPaused s) (pauseReason s)
    (dailyLimitResetTime s) b (lastTokenCapture s)
    (activeTaskCount s) (lastPollTime s) (lastSubmitTime s) (isSubmitting s)
    (isController s) (mainWorldReady s) (extensionInvalidated s).

Definition setLastTokenCapture (t : option Z) (s : State) : State :=
  mkState (queue s) (isAutomationEnabled s) (isPaused s) (pauseReason s)
    (dailyLimitResetTime s) (hasValidToken s) t
    (activeTaskCount s) (lastPollTime s) (lastSubmitTime s) (isSubmitting s)
    (isController s) (mainWorldReady s) (extensionInvalidated s).

Definition setActiveTaskCount (n : Z) (s : State) : State :=
  mkState (queue s) (isAutomationEnabled s) (isPaused s) (pauseReason s)
    (dailyLimitResetTime s) (hasValidToken s) (lastTokenCapture s)
    n (lastPollTime s) (lastSubmitTime s) (isSubmitting s)
    (isController s) (mainWorldReady s) (extensionInvalidated s).

Definition setLastPollTime (t : option Z) (s : State) : State :=
  mkState (queue s) (isAutomationEnabled s) (isPaused s) (pauseReason s)
    (dailyLimitResetTime s) (hasValidToken s) (lastTokenCapture s)
    (activeTaskCount s) t (lastSubmitTime s) (isSubmitting s)
    (isController s) (mainWorldReady s) (extensionInvalidated s).

Definition setLastSubmitTime (t : option Z) (s : State) : State :=
  mkState (queue s) (isAutomationEnabled s) (isPaused s) (pauseReason s)
    (dailyLimitResetTime s) (hasValidToken s) (lastTokenCapture s)
    (activeTaskCount s) (lastPollTime s) t (isSubmitting s)
    (isController s) (mainWorldReady s) (extensionInvalidated s).

Definition setSubmitting (b : bool) (s : State) : State :=
  mkState (queue s) (isAutomationEnabled s) (isPaused s) (pauseReason s)
    (dailyLimitResetTime s) (hasValidToken s) (lastTokenCapture s)
    (activeTaskCount s) (lastPollTime s) (lastSubmitTime s) b
    (isController s) (mainWorldReady s) (extensionInvalidated s).

Definition setController (b : bool) (s : State) : State :=
  mkState (queue s) (isAutomationEnabled s) (isPaused s) (pauseReason s)
    (dailyLimitResetTime s) (hasValidToken s) (lastTokenCapture s)
    (activeTaskCount s) (lastPollTime s) (lastSubmitTime s) (isSubmitting s)
    b (mainWorldReady s) (extensionInvalidated s).

Definition setMainWorldReady (b : bool) (s : State) : State :=
  mkState (queue s) (isAutomationEnabled s) (isPaused s) (pauseReason s)
    (dailyLimitResetTime s) (hasValidToken s) (lastTokenCapture s)
    (activeTaskCount s) (lastPollTime s) (lastSubmitTime s) (isSubmitting s)
    (isController s) b (extensionInvalidated s).

Definition setExtensionInvalidated (b : bool) (s : State) : State :=
  mkState (queue s) (isAutomationEnabled s) (isPaused s) (pauseReason s)
    (dailyLimitResetTime s) (hasValidToken s) (lastTokenCapture s)
    (activeTaskCount s) (lastPollTime s) (lastSubmitTime s) (isSubmitting s)
    (isController s) (mainWorldReady s) b.

(** ToBoolean of a timestamp field: [null] and [0] are falsy. *)
Definition truthyTime (t : option Z) : bool :=
  match t with
  | Some n => negb (n =? 0)
  | None => false
  end.

(** [state.pauseReason === 'daily_limit'] *)
Definition isDailyPause (r : option string) : bool :=
  match r with
  | Some s => String.eqb s "daily_limit"
  | None => false
  end.

(** ** Content script: queue management *)

(** [handleExtensionInvalidated]; the timers it stops and the alert it shows
    are not part of the machine. *)
Definition handleExtensionInvalidated (m : Machine) : Machine :=
  withSt (setExtensionInvalidated true) m.

(** [sendToBackground]: an error whose message says that the context is
    gone marks the instance as invalidated before it is thrown on. *)
Definition invalidates (message : string) : bool :=
  includes message "Extension context invalidated"
  || includes message "message port closed".

(** [saveQueue]: once the context is known to be invalidated nothing is
    written.  A write that throws, which it does in an invalidated context,
    has the effect of [handleExtensionInvalidated] alone; the transition
    system below has that as an event of its own. *)
Definition saveQueue (m : Machine) : Machine :=
  mkMachine (st m)
    (if extensionInvalidated (st m) then stored m
     else Some (mkStored (Some (queue (st m))) (dailyLimitResetTime (st m))
                  (Some (isPaused (st m))) (pauseReason (st m))
                  (Some (isAutomationEnabled (st m)))))
    (pending m) (issued m).

(** [state.queue.find(i => i.id === itemId)] *)
Definition findById (itemId : string) (q : list Item) : option Item :=
  find (fun i => String.eqb (id i) itemId) q.

(** [state.queue.findIndex(item => item.id === itemId)] *)
Fixpoint findIndex (itemId : string) (q : list Item) : option nat :=
  match q with
  | [] => None
  | i :: q' =>
      if String.eqb (id i) itemId then Some 0%nat
      else option_map S (findIndex itemId q')
  end.

(** In-place update of the object [find] returned. *)
Fixpoint updateFirst (itemId : string) (f : Item -> Item) (q : list Item) : list Item :=
  match q with
  | [] => []
  | i :: q' =>
      if String.eqb (id i) itemId then f i :: q'
      else i :: updateFirst itemId f q'
  end.

(** [state.queue.splice(index, 1)] *)
Fixpoint spliceOne (index : nat) (q : list Item) : list Item :=
  match q, index with
  | [], _ => []
  | _ :: q', O => q'
  | i :: q', S n => i :: spliceOne n q'
  end.

(** [[q[i], q[j]] = [q[j], q[i]]] *)
Definition swap (i j : nat) (q : list Item) : list Item :=
  match q !! i, q !! j with
  | Some a, Some b => <[i := b]> (<[j := a]> q)
  | _, _ => q
  end.

Definition setStatus (s : Status) (msg : JValue) (now : Z) (i : Item) : Item :=
  mkItem (id i) (prompt i) (options i) s msg
    (if statusEqb s Error then retryCount i + 1 else retryCount i)
    (createdAt i) now.

(** [state.queue.find(item => item.status === 'queued')] *)
Definition findQueued (q : list Item) : option Item :=
  find (fun i => statusEqb (status i) Queued) q.

Section Handlers.

(** [now] is the clock value of the running handler; [ui] stands for the
    call of [updateUI] and [cas] for the call of [checkAndSubmit]. *)
Variable now : Z.

Definition clearDailyLimit (s : State) : State :=
  setDailyLimitResetTime None (setPauseReason None (setPaused false s)).

(** [updateUI]: of its body only the daily-limit alert touches [state]. *)
Definition updateUI_body (cas : Machine -> Machine) (m : Machine) : Machine :=
  if isPaused (st m) && isDailyPause (pauseReason (st m))
     && truthyTime (dailyLimitResetTime (st m))
  then
    let remaining := default 0 (dailyLimitResetTime (st m)) - now in
    if 0 <? remaining then m
    else cas (saveQueue (withSt clearDailyLimit m))
  else m.

(** [updateItemStatus] *)
Definition updateItemStatus_body (ui : Machine -> Machine)
    (itemId : string) (s : Status) (msg : JValue) (m : Machine) : Machine :=
  match findById itemId (queue (st m)) with
  | Some _ =>
      ui (saveQueue
            (withSt (fun x => setQueue (updateFirst itemId (setStatus s msg now) (queue x)) x) m))
  | None => m
  end.

(** [removeFromQueue] *)
Definition removeFromQueue_body (ui : Machine -> Machine)
    (itemId : string) (m : Machine) : Machine :=
  match findIndex itemId (queue (st m)) with
  | Some index =>
      ui (saveQueue (withSt (fun x => setQueue (spliceOne index (queue x)) x) m))
  | None => m
  end.

(** [submitQueueItem] up to its [await]: the call to the background is
    issued and the rest of the function waits in [pending]. *)
Definition submitQueueItem_body (ui : Machine -> Machine)
    (item : Item) (m : Machine) : Machine :=
  let m1 := withSt (fun x => setLastSubmitTime (Some now) (setSubmitting true x)) m in
  let m2 := updateItemStatus_body ui (id item) Sending JNull m1 in
  mkMachine (st m2) (stored m2) (pending m2 ++ [item]) (issued m2).

(** The guard conditions of [checkAndSubmit], in source order; the result
    is the position of the first [return] taken. *)
Definition firstFailingGuard (s : State) : option nat :=
  if negb (isAutomationEnabled s) then Some 1%nat
  else if isPaused s then Some 2%nat
  else if isSubmitting s then Some 3%nat
  else if negb (hasValidToken s) then Some 4%nat
  else if negb (isController s) then Some 5%nat
  else if MAX_CONCURRENT_TASKS <=? activeTaskCount s then Some 6%nat
  else if truthyTime (dailyLimitResetTime s)
          && (now <? default 0 (dailyLimitResetTime s)) then Some 7%nat
  else if truthyTime (lastSubmitTime s)
          && (now - default 0 (lastSubmitTime s) <? SUBMIT_COOLDOWN_MS) then Some 8%nat
  else None.

(** [checkAndSubmit] *)
Definition checkAndSubmit_body (ui : Machine -> Machine) (m : Machine) : Machine :=
  match firstFailingGuard (st m) with
  | Some _ => m
  | None =>
      match findQueued (queue (st m)) with
      | None => m
      | Some nextItem => submitQueueItem_body ui nextItem m
      end
  end.

(** [updateUI] and [checkAndSubmit] call each other; [fuel] bounds the
    depth of that recursion. *)
Fixpoint updateUI_fuel (fuel : nat) (m : Machine) : Machine :=
  match fuel with
  | O => m
  | S n => updateUI_body (checkAndSubmit_body (updateUI_fuel n)) m
  end.

Definition updateUI : Machine -> Machine := updateUI_fuel 2.
Definition checkAndSubmit : Machine -> Machine := checkAndSubmit_body updateUI.
Definition updateItemStatus := updateItemStatus_body updateUI.
Definition removeFromQueue := removeFromQueue_body updateUI.
Definition submitQueueItem := submitQueueItem_body updateUI.

(** The machine once [submitQueueItem item] has reached its [await], written
    out; [checkAndSubmit_eq] below shows that this is what the call does. *)
Definition started (item : Item) (m : Machine) : Machine :=
  let s := setQueue (updateFirst (id item) (setStatus Sending JNull now) (queue (st m)))
             (setLastSubmitTime (Some now) (setSubmitting true (st m))) in
  mkMachine s
    (if extensionInvalidated s then stored m
     else Some (mkStored (Some (queue s)) (dailyLimitResetTime s) (Some (isPaused s))
                  (pauseReason s) (Some (isAutomationEnabled s))))
    (pending m ++ [item]) (issued m).

(** [addToQueue]; [rnd] is [Math.random().toString(36).substr(2, 9)]. *)
Definition newItem (prompt : string) (options : JValue) (rnd : string) : Item :=
  let o := match options with JUndefined => JObj [] | _ => options end in
  mkItem ("q_" +:+ pretty now +:+ "_" +:+ rnd)
    (trim prompt)
    (JObj (spread
             [("orientation", jor (prop o "orientation") (JStr "portrait"));
              ("size", jor (prop o "size") (JStr "small"));
              ("n_frames", jor (prop o "n_frames") (JNum 300));
              ("model", jor (prop o "model") (JStr "sy_8"))]
             (ownFields o)))
    Queued JNull 0 now now.

(** [state.queue.push(item)]; the id is entered in the history variable. *)
Definition push (item : Item) (m : Machine) : Machine :=
  mkMachine (setQueue (queue (st m) ++ [item]) (st m)) (stored m) (pending m)
    (id item :: issued m).

Definition addToQueue (prompt : string) (options : JValue) (rnd : string)
    (m : Machine) : Machine :=
  let item := newItem prompt options rnd in
  checkAndSubmit (updateUI (saveQueue (push item m))).

(** [moveUp] *)
Definition moveUp (itemId : string) (m : Machine) : Machine :=
  match findIndex itemId (queue (st m)) with
  | Some index =>
      if (0 <? index)%nat
      then updateUI (saveQueue
             (withSt (fun x => setQueue (swap (index - 1) index (queue x)) x) m))
      else m
  | None => m
  end.

(** [moveDown] *)
Definition moveDown (itemId : string) (m : Machine) : Machine :=
  match findIndex itemId (queue (st m)) with
  | Some index =>
      if (index <? length (queue (st m)) - 1)%nat
      then updateUI (saveQueue
             (withSt (fun x => setQueue (swap index (index + 1) (queue x)) x) m))
      else m
  | None => m
  end.

(** The click handler of the add button; [text] is [promptInput.value]. *)
Definition addBtn_click (text orientation rnd : string) (m : Machine) : Machine :=
  let prompt := trim text in
  if negb (String.eqb prompt "")
  then addToQueue prompt (JObj [("orientation", JStr orientation)]) rnd m
  else m.

(** [queueCurrentPrompt]; [soraInput] is the text of the page's prompt
    field, [None] when no selector finds one. *)
Definition queueCurrentPrompt (soraInput : option string) (rnd : string)
    (m : Machine) : Machine :=
  match soraInput with
  | Some prompt =>
      if negb (String.eqb (trim prompt) "")
      then addToQueue (trim prompt) JUndefined rnd m
      else m
  | None => m
  end.

(** The click handler of "Clear Errors". *)
Definition clearErrors_click (m : Machine) : Machine :=
  updateUI (saveQueue
    (withSt (fun x => setQueue
               (List.filter (fun i => negb (statusEqb (status i) Error)) (queue x)) x) m)).

Definition resume (s : State) : State := setPauseReason None (setPaused false s).

(** The click handler of the automation toggle. *)
Definition toggleAutomation_click (m : Machine) : Machine :=
  if isPaused (st m) && isDailyPause (pauseReason (st m)) then
    updateUI (checkAndSubmit (saveQueue (withSt resume m)))
  else
    let m1 := saveQueue
      (withSt (fun x => setAutomationEnabled (negb (isAutomationEnabled x)) x) m) in
    updateUI (if isAutomationEnabled (st m1) then checkAndSubmit m1 else m1).

(** The click handler of "Retry Now". *)
Definition retryNow_click (m : Machine) : Machine :=
  updateUI (checkAndSubmit (saveQueue (withSt resume m))).

(** [chrome.runtime.onMessage]: [TOKEN_CAPTURED] and [TOKEN_CLEARED]. *)
Definition onTokenCaptured (hasToken : bool) (m : Machine) : Machine :=
  if extensionInvalidated (st m) then m
  else
    checkAndSubmit
      (updateUI
         (withSt (fun x => setLastTokenCapture (Some now) (setHasValidToken hasToken x)) m)).

Definition onTokenCleared (m : Machine) : Machine :=
  if extensionInvalidated (st m) then m
  else updateUI (withSt (fun x => setLastTokenCapture None (setHasValidToken false x)) m).

Definition emptyStored : StoredData := mkStored None None None None None.

(** [chrome.storage.onChanged] for the queue key. *)
Definition onStorageChanged (newValue : option StoredData) (m : Machine) : Machine :=
  if extensionInvalidated (st m) then m else
  let newData := default emptyStored newValue in
  let m1 :=
    match sd_isAutomationEnabled newData with
    | Some b =>
        if negb (Bool.eqb b (isAutomationEnabled (st m))) then
          let m' := withSt (setAutomationEnabled b) m in
          if b then checkAndSubmit m' else m'
        else m
    | None => m
    end in
  let m2 :=
    match sd_isPaused newData with
    | Some p => withSt (fun x => setPauseReason (sd_pauseReason newData) (setPaused p x)) m1
    | None => m1
    end in
  let m3 :=
    match sd_queue newData with
    | Some q => withSt (setQueue q) m2
    | None => m2
    end in
  updateUI m3.

(** [pollPendingTasks] after its [await]. *)
Definition pollSucceeded (activeCount : Z) (m : Machine) : Machine :=
  checkAndSubmit
    (updateUI
       (withSt (fun x => setMainWorldReady true
                  (setLastPollTime (Some now) (setActiveTaskCount activeCount x))) m)).

Definition pollFailed (mainWorldIssue : bool) (m : Machine) : Machine :=
  if mainWorldIssue then updateUI (withSt (setMainWorldReady false) m) else m.

(** [checkTokenStatus], [setManualToken] and [clearToken] after their [await]. *)
Definition tokenStatusReceived (hasToken : bool) (capturedAt : option Z)
    (m : Machine) : Machine :=
  updateUI (withSt (fun x => setLastTokenCapture capturedAt (setHasValidToken hasToken x)) m).

Definition manualTokenAccepted (m : Machine) : Machine :=
  checkAndSubmit
    (updateUI (withSt (fun x => setLastTokenCapture (Some now) (setHasValidToken true x)) m)).

Definition tokenClearedDone (m : Machine) : Machine :=
  updateUI (withSt (fun x => setLastTokenCapture None (setHasValidToken false x)) m).

(** [sendHeartbeat] after its [await]; starting and stopping the poll
    timer changes no modelled field. *)
Definition heartbeatAnswered (answer : bool) (m : Machine) : Machine :=
  if negb answer && isController (st m) then withSt (setController false) m
  else if answer && negb (isController (st m)) then withSt (setController true) m
  else m.

(** The periodic daily-limit check installed by [init]. *)
Definition dailyLimitSweep (m : Machine) : Machine :=
  if truthyTime (dailyLimitResetTime (st m))
     && (default 0 (dailyLimitResetTime (st m)) <=? now)
  then
    let m1 := withSt (setDailyLimitResetTime None) m in
    let m2 :=
      if isDailyPause (pauseReason (st m1))
      then checkAndSubmit (saveQueue (withSt resume m1))
      else m1 in
    updateUI m2
  else m.

(** [result.resetTime] as stored in [state.dailyLimitResetTime]. *)
Definition timeOf (v : JValue) : option Z :=
  match v with JNum n => Some n | _ => None end.

(** [handleSubmitError]; [item] is the object [submitQueueItem] was called
    with. *)
Definition handleSubmitError (item : Item) (result : JValue) (m : Machine) : Machine :=
  let err := prop result "error" in
  let m' :=
    if strictEqStr err "CONCURRENT_LIMIT" then
      withSt (setActiveTaskCount MAX_CONCURRENT_TASKS)
        (updateItemStatus (id item) Queued JNull m)
    else if strictEqStr err "DAILY_LIMIT" then
      saveQueue
        (updateItemStatus (id item) Queued JNull
           (withSt (fun x => setDailyLimitResetTime (timeOf (prop result "resetTime"))
                      (setPauseReason (Some "daily_limit") (setPaused true x))) m))
    else if strictEqStr err "NO_TOKEN" || strictEqStr err "TOKEN_STALE"
            || strictEqStr err "AUTH_ERROR" then
      updateItemStatus (id item) Error (JStr "Token needed")
        (withSt (setHasValidToken false) m)
    else if strictEqStr err "RATE_LIMIT_UNKNOWN" then
      if retryCount item <? 3
      then updateItemStatus (id item) Queued JNull m
      else updateItemStatus (id item) Error (JStr "Rate limit (max retries)") m
    else
      updateItemStatus (id item) Error
        (jor (prop result "message") (JStr "Unknown error")) m in
  updateUI m'.

(** How the awaited call to the background ends: with the answer of the
    background, or with an [Error] thrown by [sendToBackground]. *)
Inductive Outcome :=
| Responded (result : JValue)
| Threw (message : string).

(** [submitQueueItem] after its [await]. *)
Definition submitResolved (item : Item) (o : Outcome) (m : Machine) : Machine :=
  let m' :=
    match o with
    | Responded JUndefined =>
        updateItemStatus (id item) Error
          (JStr "Cannot read properties of undefined (reading 'success')") m
    | Responded JNull =>
        updateItemStatus (id item) Error
          (JStr "Cannot read properties of null (reading 'success')") m
    | Responded result =>
        if truthy (prop result "success") then
          updateUI
            (withSt (fun x => setActiveTaskCount (activeTaskCount x + 1) x)
               (removeFromQueue (id item) m))
        else handleSubmitError item result m
    | Threw message =>
        updateItemStatus (id item) Error (JStr message)
          (if invalidates message then handleExtensionInvalidated m else m)
    end in
  withSt (setSubmitting false) m'.

(** The body of the [forEach] in [loadQueue]. *)
Definition resetSending (i : Item) : Item :=
  if statusEqb (status i) Sending
  then mkItem (id i) (prompt i) (options i) Queued
         (errorMessage i) (retryCount i) (createdAt i) (updatedAt i)
  else i.

(** [loadQueue] *)
Definition loadQueue (m : Machine) : Machine :=
  if extensionInvalidated (st m) then m else
  let data := default emptyStored (stored m) in
  let q := List.map resetSending (default [] (sd_queue data)) in
  let reset := if truthyTime (sd_dailyLimitResetTime data)
               then sd_dailyLimitResetTime data else None in
  let reason := match sd_pauseReason data with
                | Some r => if String.eqb r "" then None else Some r
                | None => None
                end in
  let enabled := match sd_isAutomationEnabled data with
                 | Some false => false
                 | _ => true
                 end in
  let s1 := setQueue q
              (setAutomationEnabled enabled
                 (setPauseReason reason
                    (setPaused (default false (sd_isPaused data))
                       (setDailyLimitResetTime reset (st m))))) in
  let s2 :=
    if truthyTime (dailyLimitResetTime s1) && (default 0 (dailyLimitResetTime s1) <=? now)
    then
      let s := setDailyLimitResetTime None s1 in
      if isDailyPause (pauseReason s) then resume s else s
    else s1 in
  saveQueue (mkMachine s2 (stored m) (pending m) (issued m)).

(** [init] on a freshly loaded page: the script state starts from its
    initial value and the suspended calls of the previous page are gone.
    [hasToken], [capturedAt] and [controller] are the answers of the
    background to [GET_TOKEN_STATUS] and [REGISTER_CONTROLLER]. *)
Definition init (hasToken : bool) (capturedAt : option Z) (controller : bool)
    (m : Machine) : Machine :=
  let m1 := loadQueue (mkMachine initialState (stored m) [] (issued m)) in
  let m2 := withSt (fun x => setLastTokenCapture capturedAt (setHasValidToken hasToken x)) m1 in
  let m3 := withSt (setController controller) m2 in
  updateUI m3.




(** [formatTimeAgo]; [toLocaleDateString] stands for the method of [Date]. *)
Definition formatTimeAgo (toLocaleDateString : Z -> string) (timestamp : Z) : string :=
  let diff := now - timestamp in
  let minutes := diff / 60000 in
  let hours := diff / 3600000 in
  if minutes <? 1 then "just now"
  else if minutes <? 60 then pretty minutes +:+ "m ago"
  else if hours <? 24 then pretty hours +:+ "h ago"
  else toLocaleDateString timestamp.

End Handlers.

(** ** Content script: utilities *)

Definition PROMPT_PREVIEW_LENGTH : nat := 80.

(** [truncatePrompt] *)
Definition truncatePrompt (prompt : string) : string :=
  if (String.length prompt <=? PROMPT_PREVIEW_LENGTH)%nat then prompt
  else String.substring 0 PROMPT_PREVIEW_LENGTH prompt +:+ "...".


(** The count shown in the badge by [updateUI], and by the popup's
    [loadState]. *)
Definition queuedCount (q : list Item) : nat :=
  length (List.filter (fun i => statusEqb (status i) Queued || statusEqb (status i) Sending) q).

End Content.
Export Content.

(** ** Popup *)

Module Popup.

(** [toggleAutomation]: the object the popup writes back, given the value it
    read under the storage key. *)
Definition toggleAutomation (read : option StoredData) : StoredData :=
  let data := default emptyStored read in
  if default false (sd_isPaused data) then
    mkStored (sd_queue data) (sd_dailyLimitResetTime data) (Some false) None
      (sd_isAutomationEnabled data)
  else
    match sd_isAutomationEnabled data with
    | Some false =>
        mkStored (sd_queue data) (sd_dailyLimitResetTime data) (sd_isPaused data)
          (sd_pauseReason data) (Some true)
    | _ =>
        mkStored (sd_queue data) (sd_dailyLimitResetTime data) (sd_isPaused data)
          (sd_pauseReason data) (Some false)
    end.

(** [clearQueue], once confirmed. *)
Definition clearQueue (read : option StoredData) : StoredData :=
  let data := default emptyStored read in
  mkStored (Some []) (sd_dailyLimitResetTime data) (sd_isPaused data)
    (sd_pauseReason data) (sd_isAutomationEnabled data).

(** The popup's toggle as the content script sees it: the write, then the
    storage listener. *)
Definition toggleSeen (now : Z) (m : Machine) : Machine :=
  let written := toggleAutomation (stored m) in
  onStorageChanged now (Some written)
    (mkMachine (st m) (Some written) (pending m) (issued m)).

(** [clearQueue] as the content script sees it. *)
Definition clearSeen (now : Z) (m : Machine) : Machine :=
  let written := clearQueue (stored m) in
  onStorageChanged now (Some written)
    (mkMachine (st m) (Some written) (pending m) (issued m)).

End Popup.

(** ** One tab with the background

    The calls of the content script to the background, each taken with
    the handler that answers it: the handler's effect on the storage and
    what the content script does with the answer.  [now] is the clock of
    the background and [now'] the clock of the content script when the
    answer arrives. *)

Module Tab.

Section Calls.

Variable StringToNumber : string -> option Z.

(** [sender.tab?.id] *)
Variable tabId : option Z.

(** [registerAsController] *)
Definition registerAsController (tabExists : JValue -> bool) (now : Z)
    (bg : Storage) (m : Machine) : Storage * Machine :=
  let '(result, bg') := registerController StringToNumber tabExists tabId now bg in
  (bg', withSt (setController (truthy (prop result "isController"))) m).

(** [sendHeartbeat] *)
Definition sendHeartbeat (now : Z) (bg : Storage) (m : Machine) : Storage * Machine :=
  if extensionInvalidated (st m) then (bg, m)
  else
    let '(result, bg') := handleHeartbeat tabId now bg in
    (bg', heartbeatAnswered (truthy (prop result "isController")) m).

(** [setManualToken] of the content script.  The TOKEN_CAPTURED message the
    background sends to every tab is a separate event, [onTokenCaptured]. *)
Definition setManualToken (token : string) (now now' : Z) (sessionOk : bool)
    (bg : Storage) (m : Machine) : Storage * Machine :=
  if String.eqb token "" then (bg, m)
  else
    let '(result, bg') :=
      Background.setManualToken (JObj [("token", JStr (trim token))]) now sessionOk bg in
    if truthy (prop result "success") then (bg', manualTokenAccepted now' m)
    else (bg', m).

(** [clearToken] of the content script. *)
Definition clearToken (now' : Z) (bg : Storage) (m : Machine) : Storage * Machine :=
  (snd (Background.clearToken bg), tokenClearedDone now' m).

(** [checkTokenStatus] *)
Definition checkTokenStatus (now' : Z) (bg : Storage) (m : Machine) : Machine :=
  if extensionInvalidated (st m) then m
  else
    let result := getTokenStatus bg in
    tokenStatusReceived now' (truthy (prop result "hasToken"))
      (timeOf (prop result "capturedAt")) m.


(** The rest of [submitQueueItem] for the oldest pending call: the
    background runs [executeSubmitPrompt] and the content script handles
    its answer. *)
Definition submitAnswered (run : Injection) (now now' : Z) (bg : Storage) (m : Machine)
  : Storage * Machine :=
  match pending m with
  | [] => (bg, m)
  | item :: rest =>
      let '(answer, bg') :=
        executeSubmitPrompt StringToNumber
          (JObj [("prompt", JStr (prompt item)); ("options", options item)])
          (executeInMainWorld tabId run) now bg in
      (bg', submitResolved now' item (Responded answer)
              (mkMachine (st m) (stored m) rest (issued m)))
  end.

End Calls.

End Tab.

(** ** One instance as a transition system *)

Module Run.

(** The handlers of one content script instance, and what its environment
    does to it.  [EvStorageEcho] is the notification of the instance's own
    last write to the queue key; [EvStorageWrite] is a write to that key by
    another context (the popup, another tab), with the notification that
    follows; [EvStorageLate] is a notification that arrives after the key
    has been written again, with the value of the write it was sent for;
    [EvInvalidated] is a call of the extension's interface that finds the
    context invalidated, in [saveQueue] or in a request whose failure
    changes nothing else.  The listeners of [chrome.runtime] and
    [chrome.storage] are not run for an invalidated context, and they return
    at once when the instance knows of the invalidation. *)
Inductive Event :=
| EvAdd (prompt : string) (options : JValue) (rnd : string)
| EvRemove (itemId : string)
| EvMoveUp (itemId : string)
| EvMoveDown (itemId : string)
| EvClearErrors
| EvToggle
| EvRetryNow
| EvTokenCaptured (hasToken : bool)
| EvTokenCleared
| EvTokenStatus (hasToken : bool) (capturedAt : option Z)
| EvManualToken
| EvTokenClearedDone
| EvPollOk (activeCount : Z)
| EvPollFail (mainWorldIssue : bool)
| EvHeartbeat (answer : bool)
| EvSweep
| EvTick
| EvStorageEcho
| EvStorageWrite (newValue : option StoredData)
| EvStorageLate (newValue : option StoredData)
| EvInvalidated
| EvResolve (k : nat) (o : Outcome)
| EvRestart (hasToken : bool) (capturedAt : option Z) (controller : bool).

Definition newId (now : Z) (rnd : string) : string := id (newItem now "" JUndefined rnd).

Definition step (now : Z) (e : Event) (m : Machine) : Machine :=
  match e with
  | EvAdd prompt options rnd => addToQueue now prompt options rnd m
  | EvRemove itemId => removeFromQueue now itemId m
  | EvMoveUp itemId => moveUp now itemId m
  | EvMoveDown itemId => moveDown now itemId m
  | EvClearErrors => clearErrors_click now m
  | EvToggle => toggleAutomation_click now m
  | EvRetryNow => retryNow_click now m
  | EvTokenCaptured hasToken => onTokenCaptured now hasToken m
  | EvTokenCleared => onTokenCleared now m
  | EvTokenStatus hasToken capturedAt => tokenStatusReceived now hasToken capturedAt m
  | EvManualToken => manualTokenAccepted now m
  | EvTokenClearedDone => tokenClearedDone now m
  | EvPollOk activeCount => pollSucceeded now activeCount m
  | EvPollFail mainWorldIssue => pollFailed now mainWorldIssue m
  | EvHeartbeat answer => heartbeatAnswered answer m
  | EvSweep => dailyLimitSweep now m
  | EvTick => checkAndSubmit now m
  | EvStorageEcho => onStorageChanged now (stored m) m
  | EvStorageWrite newValue =>
      onStorageChanged now newValue
        (mkMachine (st m) newValue (pending m) (issued m))
  | EvStorageLate newValue => onStorageChanged now newValue m
  | EvInvalidated => handleExtensionInvalidated m
  | EvResolve k o =>
      match pending m !! k with
      | Some item =>
          submitResolved now item o
            (mkMachine (st m) (stored m) (delete k (pending m)) (issued m))
      | None => m
      end
  | EvRestart hasToken capturedAt controller => init now hasToken capturedAt controller m
  end.

(** [addToQueue] is assumed to draw an id it has not produced before. *)
Definition enabled (now : Z) (e : Event) (m : Machine) : Prop :=
  match e with
  | EvAdd _ _ rnd => newId now rnd ∉ issued m
  | _ => True
  end.

Definition ids (q : list Item) : list string := List.map id q.

Definition storedQueue (sd : option StoredData) : list Item :=
  default [] (sd_queue (default emptyStored sd)).

(** First page load over whatever the store holds. *)
Definition boot (sd : option StoredData) (now : Z) (hasToken : bool)
    (capturedAt : option Z) (controller : bool) : Machine :=
  init now hasToken capturedAt controller
    (mkMachine initialState sd [] (ids (storedQueue sd))).

Inductive Reachable : Machine -> Prop :=
| reach_boot sd now hasToken capturedAt controller :
    NoDup (ids (storedQueue sd)) ->
    Reachable (boot sd now hasToken capturedAt controller)
| reach_step m now e :
    Reachable m -> enabled now e m -> Reachable (step now e m).

(** A finite run of enabled events. *)
Inductive Steps : Machine -> Machine -> Prop :=
| steps_nil m : Steps m m
| steps_cons m now e m' : enabled now e m -> Steps (step now e m) m' -> Steps m m'.

(** The events of an instance left to itself: no other context writes the
    queue key, every notification carries the value under the key, and the
    extension context stays valid. *)
Definition undisturbed (e : Event) : bool :=
  match e with
  | EvStorageWrite _ => false
  | EvStorageLate _ => false
  | EvInvalidated => false
  | EvResolve _ (Threw message) => negb (invalidates message)
  | _ => true
  end.

(** The states such an instance reaches from a page load, and its runs. *)
Inductive Calm : Machine -> Prop :=
| calm_boot sd now hasToken capturedAt controller :
    NoDup (ids (storedQueue sd)) ->
    Calm (boot sd now hasToken capturedAt controller)
| calm_step m now e :
    Calm m -> enabled now e m -> undisturbed e = true -> Calm (step now e m).

Inductive CalmSteps : Machine -> Machine -> Prop :=
| calm_nil m : CalmSteps m m
| calm_cons m now e m' :
    enabled now e m -> undisturbed e = true -> CalmSteps (step now e m) m' ->
    CalmSteps m m'.

(** *** Observations *)

Definition countSending (q : list Item) : nat :=
  length (List.filter (fun i => statusEqb (status i) Sending) q).

(** The status of an item, [None] when it is not in the queue. *)
Definition statusOf (itemId : string) (m : Machine) : option Status :=
  option_map status (findById itemId (queue (st m))).

(** The context is not known to be invalidated, and the value under the
    storage key agrees with [state] on the fields the storage listener
    copies. *)
Definition synced (m : Machine) : Prop :=
  extensionInvalidated (st m) = false
  /\ exists sd, stored m = Some sd
    /\ sd_queue sd = Some (queue (st m))
    /\ sd_isPaused sd = Some (isPaused (st m))
    /\ sd_pauseReason sd = pauseReason (st m)
    /\ sd_isAutomationEnabled sd = Some (isAutomationEnabled (st m)).

Record Inv (m : Machine) : Prop := mkInv {
  inv_nodup : NoDup (ids (queue (st m)));
  inv_issued : forall i, i ∈ queue (st m) -> id i ∈ issued m;
  inv_pending_issued : forall p, p ∈ pending m -> id p ∈ issued m;
  inv_synced : synced m;
  inv_flight :
    if isSubmitting (st m) then exists p, pending m = [p] else pending m = [];
  inv_sending :
    forall i, i ∈ queue (st m) -> status i = Sending ->
              exists p, p ∈ pending m /\ id p = id i;
  inv_alias :
    forall p i, p ∈ pending m -> i ∈ queue (st m) -> id i = id p ->
                status i = Sending /\ retryCount i = retryCount p
}.

(** The awaited call ended with an answer that reports success. *)
Definition succeeded (o : Outcome) : bool :=
  match o with
  | Responded result => truthy (prop result "success")
  | Threw _ => false
  end.

(** A tick: the status stays, or the item is the one that is sent. *)
Definition SendOrStay (a b : option Status) : Prop :=
  a = b \/ (a = Some Queued /\ b = Some Sending).

(** What event [e], run on machine [m], does to the status of item [y]:
    each change of status with the event that makes it. *)
Inductive Transition (m : Machine) (e : Event) (y : string)
  : option Status -> option Status -> Prop :=
| TrStay a : Transition m e y a a
| TrSend : Transition m e y (Some Queued) (Some Sending)
| TrDone k item o :
    e = EvResolve k o -> pending m !! k = Some item -> id item = y ->
    succeeded o = true ->
    Transition m e y (Some Sending) None
| TrRequeue k item result :
    e = EvResolve k (Responded result) -> pending m !! k = Some item -> id item = y ->
    succeeded (Responded result) = false ->
    Transition m e y (Some Sending) (Some Queued)
| TrFail k item o :
    e = EvResolve k o -> pending m !! k = Some item -> id item = y ->
    succeeded o = false ->
    Transition m e y (Some Sending) (Some Error)
| TrReset hasToken capturedAt controller :
    e = EvRestart hasToken capturedAt controller ->
    Transition m e y (Some Sending) (Some Queued)
| TrRemove s : e = EvRemove y -> Transition m e y (Some s) None
| TrClear : e = EvClearErrors -> Transition m e y (Some Error) None.

(** The moves of the life cycle as first stated: without user removal. *)
Inductive MoveStated : option Status -> option Status -> Prop :=
| MsSend : MoveStated (Some Queued) (Some Sending)
| MsRequeue : MoveStated (Some Sending) (Some Queued)
| MsFail : MoveStated (Some Sending) (Some Error)
| MsDone : MoveStated (Some Sending) None.

(** *** What a handler may do to the queue and the single-flight flag *)

(** Nothing. *)
Definition sameCore (m m' : Machine) : Prop :=
  queue (st m') = queue (st m)
  /\ isSubmitting (st m') = isSubmitting (st m)
  /\ pending m' = pending m
  /\ issued m' = issued m.

(** One submission was started. *)
Definition Sent (now : Z) (m m' : Machine) : Prop :=
  exists item,
    findQueued (queue (st m)) = Some item
    /\ isSubmitting (st m) = false
    /\ queue (st m') = updateFirst (id item) (setStatus Sending JNull now) (queue (st m))
    /\ isSubmitting (st m') = true
    /\ pending m' = pending m ++ [item]
    /\ issued m' = issued m.

Definition Ticked (now : Z) (m m' : Machine) : Prop :=
  sameCore m m' \/ Sent now m m'.

(** The queue went through [f]; flag, pending calls and history are as
    before. *)
Definition Core (f : list Item -> list Item) (m m' : Machine) : Prop :=
  queue (st m') = f (queue (st m))
  /\ isSubmitting (st m') = isSubmitting (st m)
  /\ pending m' = pending m
  /\ issued m' = issued m.

(** What the end [o] of the awaited call does to the queue [q]: on success
    the item is taken out; otherwise its status is set, to [Queued] only
    for an answer of the background. *)
Definition Resolved (now : Z) (item : Item) (o : Outcome) (q q' : list Item) : Prop :=
  if succeeded o
  then q' = match findIndex (id item) q with
            | Some index => spliceOne index q
            | None => q
            end
  else exists s msg,
         (s = Error \/ (s = Queued /\ exists result, o = Responded result))
         /\ q' = updateFirst (id item) (setStatus s msg now) q.

(** *** Runs, and what they keep *)

(** A run given as the list of its events, each with the clock value of
    its handler. *)
Definition run (trace : list (Z * Event)) (m : Machine) : Machine :=
  fold_left (fun x ne => step (fst ne) (snd ne) x) trace m.

(** The two clicks that resume a paused instance. *)
Definition manualResume (e : Event) : bool :=
  match e with
  | EvToggle | EvRetryNow => true
  | _ => false
  end.

(** Paused for the daily limit with no reset time, in [state] and under the
    storage key, and nothing in flight. *)
Definition PausedNoReset (m : Machine) : Prop :=
  extensionInvalidated (st m) = false
  /\ isPaused (st m) = true
  /\ pauseReason (st m) = Some "daily_limit"
  /\ dailyLimitResetTime (st m) = None
  /\ pending m = []
  /\ exists sd, stored m = Some sd
       /\ sd_isPaused sd = Some true
       /\ sd_pauseReason sd = Some "daily_limit"
       /\ sd_dailyLimitResetTime sd = None.

(** What one handler run does to an item that stays in the queue: nothing,
    [updateItemStatus] to sending, [updateItemStatus] to queued or error once
    it is answered, or the reset of [loadQueue]. *)
Inductive ItemStep (now : Z) (i : Item) : Item -> Prop :=
| item_kept : ItemStep now i i
| item_sent : status i = Queued -> ItemStep now i (setStatus Sending JNull now i)
| item_answered s msg :
    status i = Sending -> s = Queued \/ s = Error ->
    ItemStep now i (setStatus s msg now i)
| item_reset : status i = Sending -> ItemStep now i (resetSending i).

(** [retryCount] counts the times the item was set to error. *)
Definition retryOk (i : Item) : Prop :=
  retryCount i = if statusEqb (status i) Error then 1 else 0.

(** *** The admission checks in the order of the specification *)

Definition admissionChecks (now : Z) (s : State) : list bool :=
  [ isAutomationEnabled s;
    negb (isPaused s);
    negb (isSubmitting s);
    hasValidToken s;
    isController s;
    activeTaskCount s <? 3;
    match dailyLimitResetTime s with
    | Some r => r <=? now
    | None => true
    end;
    match lastSubmitTime s with
    | Some t => 2000 <=? now - t
    | None => true
    end ].

(** Position, counted from 1, of the first check that fails. *)
Fixpoint firstFalse (checks : list bool) : option nat :=
  match checks with
  | [] => None
  | true :: rest => option_map S (firstFalse rest)
  | false :: _ => Some 1%nat
  end.

End Run.
Export Run.

(** * Properties *)

(** ** Strings *)

Lemma append_nil_l (s : string) : "" +:+ s = s.
Proof. reflexivity. Qed.

Lemma append_cons (c : ascii) (s t : string) : String c s +:+ t = String c (s +:+ t).
Proof. reflexivity. Qed.

Ltac app_norm := rewrite ?append_cons, ?append_nil_l.
Ltac app_norm_in H := rewrite ?append_cons, ?append_nil_l in H.

Lemma append_nil_r (s : string) : s +:+ "" = s.
Proof. induction s as [|c s IH]; app_norm; [reflexivity | now rewrite IH]. Qed.

Lemma append_assoc (a b c : string) : (a +:+ b) +:+ c = a +:+ (b +:+ c).
Proof. induction a as [|x a IH]; app_norm; [reflexivity | now rewrite IH]. Qed.

Lemma append_eq_nil (a b : string) : a +:+ b = "" -> a = "" /\ b = "".
Proof. destruct a; app_norm; intros H; [now split | discriminate]. Qed.

Lemma trimStart_allSpace (s : string) : allSpace s = true -> trimStart s = "".
Proof.
  induction s as [|c s IH]; simpl; [reflexivity |].
  intros H. apply andb_true_iff in H as [Hc Hs]. rewrite Hc. auto.
Qed.

Lemma trimStart_head (s : string) :
  trimStart s = "" \/ exists c r, trimStart s = String c r /\ isSpace c = false.
Proof.
  induction s as [|c s IH]; simpl; [now left |].
  destruct (isSpace c) eqn:Hc; [exact IH |].
  right. now exists c, s.
Qed.

Lemma trimStart_nil_allSpace (s : string) : trimStart s = "" -> allSpace s = true.
Proof.
  induction s as [|c s IH]; simpl; [reflexivity |].
  destruct (isSpace c); [auto | discriminate].
Qed.

Lemma trimEnd_nil_iff (s : string) : trimEnd s = "" <-> allSpace s = true.
Proof.
  induction s as [|c s IH]; simpl; [tauto |].
  destruct (trimEnd s) eqn:E.
  - destruct (isSpace c); simpl.
    + split; [intros _; now apply IH | reflexivity].
    + split; discriminate.
  - split; [discriminate |].
    intros H. apply andb_true_iff in H as [_ Hs].
    apply IH in Hs. discriminate.
Qed.

Lemma trimEnd_idem (s : string) : trimEnd (trimEnd s) = trimEnd s.
Proof.
  induction s as [|c s IH]; simpl; [reflexivity |].
  destruct (trimEnd s) as [|d r] eqn:E.
  - destruct (isSpace c) eqn:Hc; simpl; [reflexivity | now rewrite Hc].
  - change (trimEnd (String c (String d r))) with
      (match trimEnd (String d r) with
       | "" => if isSpace c then "" else String c ""
       | x => String c x
       end).
    now rewrite IH.
Qed.

Lemma trimEnd_head (c : ascii) (r : string) :
  isSpace c = false -> exists r', trimEnd (String c r) = String c r'.
Proof.
  intros Hc. simpl. destruct (trimEnd r); [rewrite Hc |]; eauto.
Qed.

Lemma trim_idem (s : string) : trim (trim s) = trim s.
Proof.
  unfold trim.
  destruct (trimStart_head s) as [E | (c & r & E & Hc)]; rewrite E.
  - reflexivity.
  - destruct (trimEnd_head c r Hc) as [r' Hr]. rewrite Hr.
    simpl trimStart. rewrite Hc. rewrite <- Hr. apply trimEnd_idem.
Qed.

Lemma trim_nil_iff (s : string) : trim s = "" <-> allSpace s = true.
Proof.
  unfold trim. split.
  - intros H. apply trimStart_nil_allSpace.
    destruct (trimStart_head s) as [E | (c & r & E & Hc)]; [exact E |].
    rewrite E in H. destruct (trimEnd_head c r Hc) as [r' Hr].
    rewrite Hr in H. discriminate.
  - intros H. now rewrite (trimStart_allSpace s H).
Qed.

(** ** Regular expressions: the matcher decides the language *)

Lemma seq_inv (r1 r2 : regex) (s : string) :
  Matches (Seq r1 r2) s ->
  exists s1 s2, s = s1 +:+ s2 /\ Matches r1 s1 /\ Matches r2 s2.
Proof. intros H. inversion H; subst. eauto. Qed.

Lemma alt_inv (r1 r2 : regex) (s : string) :
  Matches (Alt r1 r2) s -> Matches r1 s \/ Matches r2 s.
Proof. intros H. inversion H; subst; auto. Qed.

Lemma nullable_spec (r : regex) : nullable r = true <-> Matches r "".
Proof.
  induction r; simpl.
  - split; [discriminate | intros H; inversion H].
  - split; [constructor | reflexivity].
  - split; [discriminate | intros H; inversion H].
  - split; [discriminate | intros H; inversion H].
  - rewrite orb_true_iff, IHr1, IHr2. split.
    + intros [H | H]; [now apply MAltL | now apply MAltR].
    + apply alt_inv.
  - rewrite andb_true_iff, IHr1, IHr2. split.
    + intros [H1 H2]. rewrite <- (append_nil_l ""). now constructor.
    + intros H. apply seq_inv in H as (s1 & s2 & E & H1 & H2).
      symmetry in E. apply append_eq_nil in E as [-> ->]. now split.
  - split; [constructor | reflexivity].
Qed.

Lemma star_cons_inv (r : regex) (s : string) :
  Matches (Star r) s -> forall d t, s = String d t ->
  exists s1 s2, t = s1 +:+ s2 /\ Matches r (String d s1) /\ Matches (Star r) s2.
Proof.
  intros H. remember (Star r) as sr eqn:E.
  induction H as [| | | | | | |r0 s1 s2 H1 _ H2 IH2]; try discriminate.
  injection E as ->. intros d t Hs.
  destruct s1 as [|c s1]; app_norm_in Hs.
  - now apply IH2.
  - injection Hs as -> <-. now exists s1, s2.
Qed.

Lemma deriv_spec (r : regex) :
  forall d s, Matches (deriv d r) s <-> Matches r (String d s).
Proof.
  induction r as [| |c| |r1 IH1 r2 IH2|r1 IH1 r2 IH2|r1 IH1]; intros d s; simpl.
  - split; intros H; inversion H.
  - split; intros H; inversion H.
  - destruct (chrMatch c d) eqn:E.
    + split; intros H; inversion H; subst; now constructor.
    + split; intros H; inversion H; subst; congruence.
  - destruct (dotMatch d) eqn:E.
    + split; intros H; inversion H; subst; now constructor.
    + split; intros H; inversion H; subst; congruence.
  - split; intros H; apply alt_inv in H as [H | H].
    + apply MAltL. now apply IH1.
    + apply MAltR. now apply IH2.
    + apply MAltL. now apply IH1.
    + apply MAltR. now apply IH2.
  - assert (Hseq : forall t, Matches (Seq (deriv d r1) r2) t -> Matches (Seq r1 r2) (String d t)).
    { intros t H. apply seq_inv in H as (s1 & s2 & -> & H1 & H2).
      rewrite <- append_cons.
      constructor; [now apply IH1 | assumption]. }
    assert (Hinv : Matches (Seq r1 r2) (String d s) ->
                   Matches (Seq (deriv d r1) r2) s
                   \/ (Matches r1 "" /\ Matches r2 (String d s))).
    { intros H. apply seq_inv in H as (s1 & s2 & E & H1 & H2).
      destruct s1 as [|c s1]; app_norm_in E.
      - right. subst. now split.
      - injection E as -> ->. left. constructor; [now apply IH1 | assumption]. }
    destruct (nullable r1) eqn:N.
    + split.
      * intros H. apply alt_inv in H as [H | H]; [now apply Hseq |].
        rewrite <- (append_nil_l (String d s)).
        constructor; [now apply nullable_spec | now apply IH2].
      * intros H. destruct (Hinv H) as [H' | [_ H']];
          [now apply MAltL | apply MAltR; now apply IH2].
    + split; [apply Hseq |].
      intros H. destruct (Hinv H) as [H' | [H' _]]; [assumption |].
      apply nullable_spec in H'. congruence.
  - split.
    + intros H. apply seq_inv in H as (s1 & s2 & -> & H1 & H2).
      rewrite <- append_cons.
      apply MStarCons; [now apply IH1 | assumption].
    + intros H. destruct (star_cons_inv _ _ H d s eq_refl) as (s1 & s2 & -> & H1 & H2).
      constructor; [now apply IH1 | assumption].
Qed.

Lemma matchPrefix_spec (s : string) :
  forall r, matchPrefix r s = true <-> exists p q, s = p +:+ q /\ Matches r p.
Proof.
  induction s as [|d s IH]; intros r; cbn [matchPrefix].
  - rewrite orb_false_r, nullable_spec. split.
    + intros H. now exists "", "".
    + intros (p & q & E & H). symmetry in E. apply append_eq_nil in E as [-> _].
      assumption.
  - rewrite orb_true_iff, nullable_spec, IH. split.
    + intros [H | (p & q & -> & H)].
      * now exists "", (String d s).
      * exists (String d p), q. split; [reflexivity | now apply deriv_spec].
    + intros (p & q & E & H). destruct p as [|c p]; app_norm_in E.
      * now left.
      * injection E as -> ->. right. exists p, q. split; [reflexivity |].
        now apply deriv_spec.
Qed.

Lemma test_spec (r : regex) (s : string) : test r s = true <-> Found r s.
Proof.
  unfold Found. induction s as [|d s IH]; cbn [test].
  - rewrite orb_false_r, matchPrefix_spec. split.
    + intros (p & q & E & H). now exists "", p, q.
    + intros (pre & mid & post & E & H). symmetry in E.
      apply append_eq_nil in E as [-> E]. apply append_eq_nil in E as [-> ->].
      now exists "", "".
  - rewrite orb_true_iff, matchPrefix_spec, IH. split.
    + intros [(p & q & E & H) | (pre & mid & post & -> & H)].
      * now exists "", p, q.
      * now exists (String d pre), mid, post.
    + intros (pre & mid & post & E & H). destruct pre as [|c pre]; app_norm_in E.
      * left. now exists mid, post.
      * injection E as -> ->. right. now exists pre, mid, post.
Qed.

Lemma lit_spec (p : string) : forall w, Matches (lit p) w <-> ciEqual p w = true.
Proof.
  induction p as [|c p IH]; intros w; simpl.
  - split.
    + intros H. inversion H. reflexivity.
    + destruct w; [constructor | discriminate].
  - split.
    + intros H. apply seq_inv in H as (s1 & s2 & -> & H1 & H2).
      inversion H1; subst. app_norm. apply andb_true_iff. split; [assumption |].
      now apply IH.
    + destruct w as [|d w]; [discriminate |].
      intros H. apply andb_true_iff in H as [Hc Hw].
      rewrite <- (append_nil_l w), <- append_cons.
      constructor; [now constructor | now apply IH].
Qed.

(** A message that contains the phrase in any letter case is found. *)
Lemma found_phrase (p pre w post : string) :
  ciEqual p w = true -> Found (lit p) (pre +:+ w +:+ post).
Proof.
  intros H. exists pre, w, post. split; [reflexivity | now apply lit_spec].
Qed.

(** ** The phrasings are what the patterns find *)

Lemma allAscii_complete (c : ascii) : In c allAscii.
Proof.
  rewrite <- (ascii_nat_embedding c). apply in_map, in_seq.
  pose proof (nat_ascii_bounded c). lia.
Qed.

(** The case folding of the matcher identifies the two cases of a letter. *)
Lemma sameLetter_chrMatch (c d : ascii) : sameLetter c d = true -> chrMatch c d = true.
Proof.
  assert (H : forallb (fun c => forallb (fun d => implb (sameLetter c d) (chrMatch c d))
                                  allAscii) allAscii = true)
    by (vm_compute; reflexivity).
  rewrite forallb_forall in H. specialize (H c (allAscii_complete c)).
  rewrite forallb_forall in H. specialize (H d (allAscii_complete d)).
  intros E. rewrite E in H. exact H.
Qed.

Lemma sameText_ciEqual (p : string) : forall w, sameText p w = true -> ciEqual p w = true.
Proof.
  induction p as [|c p IH]; intros [|d w]; simpl; try discriminate; [reflexivity |].
  intros H. apply andb_true_iff in H as [Hc Hw].
  now rewrite (sameLetter_chrMatch c d Hc), (IH w Hw).
Qed.

Lemma sameText_lit (p w : string) : sameText p w = true -> Matches (lit p) w.
Proof. intros H. now apply lit_spec, sameText_ciEqual. Qed.

Lemma sameText_app (p1 p2 : string) :
  forall w, sameText (p1 +:+ p2) w = true ->
  exists w1 w2, w = w1 +:+ w2 /\ sameText p1 w1 = true /\ sameText p2 w2 = true.
Proof.
  induction p1 as [|c p1 IH]; intros w H.
  - exists "", w. repeat split. exact H.
  - app_norm_in H. destruct w as [|d w]; [discriminate |]. simpl in H.
    apply andb_true_iff in H as [Hc Hw].
    destruct (IH w Hw) as (w1 & w2 & -> & H1 & H2).
    exists (String d w1), w2. repeat split; [| assumption].
    simpl. now rewrite Hc, H1.
Qed.

Lemma oneLine_star (s : string) : oneLine s = true -> Matches (Star Dot) s.
Proof.
  induction s as [|c s IH]; simpl; intros H; [constructor |].
  apply andb_true_iff in H as [Hc Hs].
  change (String c s) with (String c "" +:+ s).
  apply MStarCons; [| now apply IH]. constructor. exact Hc.
Qed.

Lemma found_contains (r : regex) (p s : string) :
  (forall w, sameText p w = true -> Matches r w) -> Contains p s -> Found r s.
Proof. intros H (pre & mid & post & E & Hm). exists pre, mid, post. auto. Qed.

(** With or without the optional [s]. *)
Lemma optional_s (a b w : string) :
  sameText (a +:+ b) w = true \/ sameText (a +:+ "s" +:+ b) w = true ->
  Matches (Seq (lit a) (Seq (opt (Chr "s")) (lit b))) w.
Proof.
  intros [H | H].
  - apply sameText_app in H as (w1 & w2 & -> & H1 & H2).
    constructor; [now apply sameText_lit |].
    rewrite <- (append_nil_l w2). constructor; [apply MAltR; constructor |].
    now apply sameText_lit.
  - apply sameText_app in H as (w1 & w2 & -> & H1 & H2).
    apply sameText_app in H2 as (ws & w3 & -> & Hs & H3).
    constructor; [now apply sameText_lit |].
    constructor; [apply MAltL | now apply sameText_lit].
    destruct ws as [|d [|e ws]]; simpl in Hs; try discriminate.
    + rewrite andb_true_r in Hs. constructor. now apply sameLetter_chrMatch.
    + rewrite andb_false_r in Hs. discriminate.
Qed.

(** A message with one of the phrasings is found by one of the patterns. *)
Lemma phrasing_found (s : string) :
  Phrasing s ->
  test reInProgress s || test reAtATime s || test reTooMany s || test reMaximum s = true.
Proof.
  intros [H | H | H | H].
  - assert (F : Found reInProgress s).
    { destruct H as [(pre & mid & post & E & Hm) | (pre & mid & post & E & Hm)];
        exists pre, mid, post; (split; [exact E |]);
        apply (optional_s "you already have 3 generation" " in progress");
        [left | right]; exact Hm. }
    apply test_spec in F. now rewrite F.
  - assert (F : Found reAtATime s).
    { destruct H as [(pre & mid & post & E & Hm) | (pre & mid & post & E & Hm)];
        exists pre, mid, post; (split; [exact E |]);
        apply (optional_s "you can only generate 3 video" " at a time");
        [left | right]; exact Hm. }
    apply test_spec in F. now rewrite F, !orb_true_r.
  - assert (F : Found reTooMany s)
      by (apply (found_contains _ "too many concurrent"); [apply sameText_lit | exact H]).
    apply test_spec in F. now rewrite F, !orb_true_r.
  - assert (F : Found reMaximum s).
    { destruct H as (pre & wa & g1 & wb & g2 & wc & post & E & Ha & G1 & Hb & G2 & Hc).
      exists pre, (wa +:+ g1 +:+ wb +:+ g2 +:+ wc), post. split.
      - rewrite E, !append_assoc. reflexivity.
      - constructor; [now apply sameText_lit |].
        constructor; [now apply oneLine_star |].
        constructor; [now apply sameText_lit |].
        constructor; [now apply oneLine_star | now apply sameText_lit]. }
    apply test_spec in F. now rewrite F, !orb_true_r.
Qed.

(** ** Numbers *)

Lemma roundDouble_exact (z : Z) : Z.abs z <= 2 ^ 53 -> roundDouble z = z.
Proof.
  intros H. unfold roundDouble. destruct (Z.leb_spec (Z.abs z) (2 ^ 53)); [reflexivity | lia].
Qed.

Lemma ToNumber_primitive (S2N : string -> option Z) (v : JValue) :
  isPrimitive v = true -> exists k, ToNumber S2N v = Some k.
Proof.
  destruct v as [| |[]| | | |]; simpl; intros H; try discriminate; eauto.
Qed.

(** ** Classification of 429 responses *)

Lemma prop_falsy (data : JValue) (k : string) :
  truthy data = false -> prop data k = JUndefined.
Proof. destruct data; simpl; intros H; try reflexivity; discriminate. Qed.

Lemma isDailyLimit_spec (data : JValue) : isDailyLimit data = true <-> Exhausted data.
Proof.
  unfold isDailyLimit, Exhausted, balance.
  rewrite orb_true_iff, andb_true_iff. split.
  - intros [H | [H1 H2]]; [left | right; split].
    + destruct (prop data "type"); try discriminate. apply String.eqb_eq in H. now subst.
    + destruct (optProp _ "rate_limit_reached") as [| |[]| | | |]; try discriminate.
      reflexivity.
    + destruct (optProp _ "credit_remaining"); try discriminate.
      apply Z.eqb_eq in H2. now subst.
  - intros [H | [H1 H2]]; [left; now rewrite H | right; now rewrite H1, H2].
Qed.

Lemma isDailyLimit_false (data : JValue) : ~ Exhausted data -> isDailyLimit data = false.
Proof.
  intros H. destruct (isDailyLimit data) eqn:E; [| reflexivity].
  exfalso. now apply H, isDailyLimit_spec.
Qed.

Lemma exhausted_truthy (data : JValue) : Exhausted data -> truthy data = true.
Proof.
  intros H. destruct (truthy data) eqn:T; [reflexivity | exfalso].
  unfold Exhausted in H. rewrite !(prop_falsy data _ T) in H.
  destruct H as [H | [H _]]; discriminate.
Qed.

(** What the classifier answers once the first condition holds. *)
Lemma parse429_exhausted (S2N : string -> option Z) (data : JValue) (now : Z) :
  Exhausted data ->
  let resetSeconds :=
    jor (optProp (prop data "rate_limit_and_credit_balance") "access_resets_in_seconds")
        (JNum 0) in
  parse429Response S2N data now
  = match ToNumber S2N resetSeconds with
    | None => None
    | Some k =>
        Some (JObj [("error", JStr "DAILY_LIMIT");
                    ("message", JStr "Daily generation limit reached.");
                    ("resetSeconds", resetSeconds);
                    ("resetTime",
                      match k with
                      | Some n =>
                          if 0 <? n then JNum (roundDouble (now + roundDouble (n * 1000)))
                          else JNull
                      | None => JNull
                      end);
                    ("creditRemaining",
                      jor (optProp (prop data "rate_limit_and_credit_balance")
                             "credit_remaining") (JNum 0))])
    end.
Proof.
  intros H resetSeconds. unfold parse429Response.
  rewrite (exhausted_truthy data H), (proj2 (isDailyLimit_spec data) H).
  cbn [negb]. unfold gtZero, balance. fold resetSeconds.
  destruct (ToNumber S2N resetSeconds) as [[n|]|]; cbn [option_map]; try reflexivity.
Qed.

(** Only the first condition leads to DAILY_LIMIT. *)
Lemma parse429_daily_only (S2N : string -> option Z) (data : JValue) (now : Z)
    (answer : JValue) :
  parse429Response S2N data now = Some answer ->
  prop answer "error" = JStr "DAILY_LIMIT" -> Exhausted data.
Proof.
  unfold parse429Response. intros H E.
  destruct (truthy data); cbn [negb] in H.
  2:{ injection H as <-. discriminate. }
  destruct (isDailyLimit data) eqn:D; [now apply isDailyLimit_spec |].
  destruct (isConcurrentLimit data) as [[]|]; try discriminate;
    injection H as <-; discriminate.
Qed.

(** C5, as amended.  Whenever the classifier answers DAILY_LIMIT, the
    [resetSeconds] it reports is the body's
    [rate_limit_and_credit_balance.access_resets_in_seconds], or 0 when that
    field is absent or falsy; a top-level [resetSeconds] field of the body is
    not read.  [resetTime] is [null] unless [resetSeconds > 0], and then it
    is [now + resetSeconds * 1000], as long as that sum is an integer that
    doubles hold exactly (at most 2^53).  The classifier does answer, with
    DAILY_LIMIT, for every exhausted body whose [resetSeconds] is a
    primitive value; an object there can make the comparison throw. *)
Theorem parse429_daily_limit_metadata
    (S2N : string -> option Z) (data : JValue) (now : Z) :
  let resetSeconds :=
    jor (optProp (prop data "rate_limit_and_credit_balance") "access_resets_in_seconds")
        (JNum 0) in
  (Exhausted data -> isPrimitive resetSeconds = true ->
   exists answer, parse429Response S2N data now = Some answer
                  /\ prop answer "error" = JStr "DAILY_LIMIT")
  /\ (forall answer,
        parse429Response S2N data now = Some answer ->
        prop answer "error" = JStr "DAILY_LIMIT" ->
        prop answer "resetSeconds" = resetSeconds
        /\ exists k, ToNumber S2N resetSeconds = Some k
           /\ match k with
              | Some n =>
                  if 0 <? n
                  then 0 <= now -> now + n * 1000 <= 2 ^ 53 ->
                       prop answer "resetTime" = JNum (now + n * 1000)
                  else prop answer "resetTime" = JNull
              | None => prop answer "resetTime" = JNull
              end).
Proof.
  intros resetSeconds. split.
  - intros H P. rewrite (parse429_exhausted S2N data now H). fold resetSeconds.
    destruct (ToNumber_primitive S2N resetSeconds P) as [k ->].
    eexists. split; reflexivity.
  - intros answer H E.
    pose proof (parse429_daily_only S2N data now answer H E) as X.
    rewrite (parse429_exhausted S2N data now X) in H. fold resetSeconds in H.
    destruct (ToNumber S2N resetSeconds) as [k|]; [| discriminate].
    injection H as <-. split; [reflexivity |].
    exists k. split; [reflexivity |].
    destruct k as [n|]; [| reflexivity].
    destruct (Z.ltb_spec 0 n) as [Hn | Hn]; [| reflexivity].
    intros Hnow Hsum. cbn [prop assoc String.eqb Ascii.eqb Bool.eqb].
    rewrite (roundDouble_exact (n * 1000)) by lia.
    rewrite roundDouble_exact by lia. reflexivity.
Qed.

(** The amended example: 120 seconds under the nested field. *)
Lemma parse429_daily_limit_metadata_witness :
  let body := JObj [("type", JStr "rate_limit_exhausted");
                    ("rate_limit_and_credit_balance",
                     JObj [("access_resets_in_seconds", JNum 120)])] in
  exists answer,
    parse429Response (fun _ => None) body 1000 = Some answer
    /\ prop answer "error" = JStr "DAILY_LIMIT"
    /\ prop answer "resetSeconds" = JNum 120
    /\ prop answer "resetTime" = JNum 121000.
Proof.
  intros body.
  destruct (parse429_daily_limit_metadata (fun _ => None) body 1000) as [A B].
  destruct (A (or_introl eq_refl) eq_refl) as (answer & H & E).
  destruct (B answer H E) as (R & k & K & T).
  injection K as <-. cbn in T.
  exists answer. split; [exact H |]. split; [exact E |]. split; [exact R |].
  apply T; lia.
Defined.

(** C5 as first stated fails: for the body
    [{type:"rate_limit_exhausted", resetSeconds:120}] the answer is
    DAILY_LIMIT with [resetSeconds] 0 and no [resetTime]. *)
Lemma parse429_ignores_top_level_resetSeconds :
  let body := JObj [("type", JStr "rate_limit_exhausted"); ("resetSeconds", JNum 120)] in
  exists answer,
    parse429Response (fun _ => None) body 1000 = Some answer
    /\ prop answer "error" = JStr "DAILY_LIMIT"
    /\ prop answer "resetSeconds" = JNum 0
    /\ prop answer "resetSeconds" <> JNum 120
    /\ prop answer "resetTime" = JNull.
Proof. eexists. split; [reflexivity |]. repeat split. discriminate. Qed.

(** Beyond the doubles that are exact the sum is rounded, and an object with
    an own [toString] property makes the classifier throw. *)
Lemma parse429_daily_limit_edges :
  let body n := JObj [("type", JStr "rate_limit_exhausted");
                      ("rate_limit_and_credit_balance",
                       JObj [("access_resets_in_seconds", n)])] in
  option_map (fun a => prop a "resetTime") (parse429Response (fun _ => None) (body (JNum (2 ^ 53))) 1)
  = Some (JNum 9007199254740992000)
  /\ parse429Response (fun _ => None) (body (JObj [("toString", JNum 1)])) 1 = None.
Proof. vm_compute. split; reflexivity. Qed.

(** What the classifier answers to a body that is not exhausted and meets a
    concurrency criterion. *)
Lemma concurrent_limit_criteria (S2N : string -> option Z) (data : JValue) :
  (optProp (prop data "error") "code" = JStr "too_many_concurrent_tasks"
   \/ optProp (optProp (prop data "error") "details") "num_tasks" = JNum 3
   \/ exists s, ToString (jor (optProp (prop data "error") "message") (JStr "")) = Some s
                /\ Phrasing s) ->
  truthy data = true /\ isConcurrentLimit data = Some true.
Proof.
  intros C.
  assert (I : isConcurrentLimit data = Some true).
  { unfold isConcurrentLimit, errorCode, numTasks, Background.errorMessage.
    destruct C as [C | [C | (s & E & P)]].
    - rewrite C. reflexivity.
    - rewrite C. cbn [strictEqNum]. now rewrite orb_true_r.
    - rewrite E, (phrasing_found s P).
      now destruct (strictEqStr _ _ || strictEqNum _ _). }
  split; [| exact I].
  destruct (truthy data) eqn:T; [reflexivity | exfalso].
  unfold isConcurrentLimit, errorCode, numTasks, Background.errorMessage in I.
  rewrite !(prop_falsy data _ T) in I. vm_compute in I. discriminate.
Qed.

(** C6.  A body that does not indicate exhausted quota and meets one of the
    concurrency criteria (the error code, a task count of 3, or a message
    that has one of the phrasings, letter case ignored) is answered with
    CONCURRENT_LIMIT, and [numTasks] is the body's task count, or 3 when the
    body has none.  The message counts as the string that ToString makes of
    it; a message that cannot be made a string is not covered. *)
Theorem parse429_concurrent_limit
    (S2N : string -> option Z) (data : JValue) (now : Z) :
  ~ Exhausted data ->
  (optProp (prop data "error") "code" = JStr "too_many_concurrent_tasks"
   \/ optProp (optProp (prop data "error") "details") "num_tasks" = JNum 3
   \/ exists s, ToString (jor (optProp (prop data "error") "message") (JStr "")) = Some s
                /\ Phrasing s) ->
  exists answer,
    parse429Response S2N data now = Some answer
    /\ prop answer "error" = JStr "CONCURRENT_LIMIT"
    /\ prop answer "numTasks" =
         jor (optProp (optProp (prop data "error") "details") "num_tasks") (JNum 3)
    /\ prop answer "message" =
         jor (optProp (prop data "error") "message")
             (JStr "Maximum concurrent generations reached (3).").
Proof.
  intros D C.
  destruct (concurrent_limit_criteria S2N data C) as [T I].
  unfold parse429Response. rewrite T, (isDailyLimit_false data D), I. cbn [negb].
  eexists. split; [reflexivity |]. repeat split.
Qed.

Lemma not_exhausted_error_only (e : JValue) : ~ Exhausted (JObj [("error", e)]).
Proof. intros [H | [H _]]; discriminate. Qed.

(** The two stated examples, and one message for each of the other
    phrasings, in mixed case. *)
Lemma parse429_concurrent_limit_witness :
  let says m := JObj [("error", JObj [("message", JStr m)])] in
  let limited data numTasks :=
    exists answer, parse429Response (fun _ => None) data 1000 = Some answer
                   /\ prop answer "error" = JStr "CONCURRENT_LIMIT"
                   /\ prop answer "numTasks" = JNum numTasks in
  limited (JObj [("error", JObj [("code", JStr "too_many_concurrent_tasks")])]) 3
  /\ limited (JObj [("error", JObj [("details", JObj [("num_tasks", JNum 3)])])]) 3
  /\ limited (says "you can only generate 3 videos at a time") 3
  /\ limited (says "Sorry: You Already Have 3 Generation in progress.") 3
  /\ limited (says "TOO MANY CONCURRENT tasks") 3
  /\ limited (says "Maximum number of Concurrent video Generations reached") 3.
Proof.
  intros says limited.
  assert (W : forall data,
            (optProp (prop data "error") "code" = JStr "too_many_concurrent_tasks"
             \/ optProp (optProp (prop data "error") "details") "num_tasks" = JNum 3
             \/ exists s, ToString (jor (optProp (prop data "error") "message") (JStr ""))
                          = Some s /\ Phrasing s) ->
            ~ Exhausted data ->
            forall n, jor (optProp (optProp (prop data "error") "details") "num_tasks")
                          (JNum 3) = JNum n ->
            limited data n).
  { intros data C D n N.
    destruct (parse429_concurrent_limit (fun _ => None) data 1000 D C)
      as (answer & H & E & K & _).
    exists answer. split; [exact H |]. split; [exact E |]. now rewrite K. }
  repeat split.
  - apply W; [left; reflexivity | apply not_exhausted_error_only | reflexivity].
  - apply W; [right; left; reflexivity | apply not_exhausted_error_only | reflexivity].
  - apply W; [| apply not_exhausted_error_only | reflexivity].
    right. right. eexists. split; [reflexivity |]. apply PhAtATime. right.
    now exists "", "you can only generate 3 videos at a time", "".
  - apply W; [| apply not_exhausted_error_only | reflexivity].
    right. right. eexists. split; [reflexivity |]. apply PhInProgress. left.
    now exists "Sorry: ", "You Already Have 3 Generation in progress", ".".
  - apply W; [| apply not_exhausted_error_only | reflexivity].
    right. right. eexists. split; [reflexivity |]. apply PhTooMany.
    now exists "", "TOO MANY CONCURRENT", " tasks".
  - apply W; [| apply not_exhausted_error_only | reflexivity].
    right. right. eexists. split; [reflexivity |]. apply PhMaximum.
    exists "", "Maximum", " number of ", "Concurrent", " video ", "Generations", " reached".
    repeat split.
Defined.

(** A message that is an array holding an object with an own [toString]
    property has one of the phrasings as far as its text goes, and makes the
    pattern test throw; with the error code present the patterns are not
    tried. *)
Lemma parse429_message_not_convertible :
  let message := JArr [JObj [("toString", JNum 1)]; JStr "too many concurrent"] in
  parse429Response (fun _ => None) (JObj [("error", JObj [("message", message)])]) 1000
  = None
  /\ option_map (fun a => prop a "error")
       (parse429Response (fun _ => None)
          (JObj [("error", JObj [("code", JStr "too_many_concurrent_tasks");
                                 ("message", message)])]) 1000)
     = Some (JStr "CONCURRENT_LIMIT").
Proof. vm_compute. split; reflexivity. Qed.

(** ** Credential store *)

Lemma trim_nonempty_source (t : string) : trim t <> "" -> t <> "".
Proof. intros H E. subst. apply H. reflexivity. Qed.

Lemma length_zero_iff (s : string) : (String.length s =? 0)%nat = true <-> s = "".
Proof.
  destruct s; simpl; split; intros H; try reflexivity; discriminate.
Qed.

Lemma setManualToken_invalid (payload : JValue) (now : Z) (sessionOk : bool)
    (st : Storage) :
  (forall t, prop (jor payload (JObj [])) "token" = JStr t -> trim t = "") ->
  setManualToken payload now sessionOk st
  = (JObj [("success", JBool false); ("error", JStr "Invalid token")], st).
Proof.
  intros H. unfold setManualToken.
  destruct (prop (jor payload (JObj [])) "token") as [| | | |t| |] eqn:E;
    try (cbn [isStr negb]; rewrite orb_true_r; reflexivity).
  specialize (H t eq_refl). cbn [strOf]. rewrite H. cbn [String.length Nat.eqb].
  now rewrite orb_true_r.
Qed.

Lemma setManualToken_valid (payload : JValue) (now : Z) (sessionOk : bool)
    (st : Storage) (t : string) :
  prop (jor payload (JObj [])) "token" = JStr t -> trim t <> "" ->
  fst (setManualToken payload now sessionOk st)
  = JObj [("success", JBool true); ("hasToken", JBool true)]
  /\ (if sessionOk then session else local) (snd (setManualToken payload now sessionOk st))
       !! TOKEN = Some (JStr (trim t))
  /\ (if sessionOk then session else local) (snd (setManualToken payload now sessionOk st))
       !! TOKEN_CAPTURED_AT = Some (JNum now)
  /\ (if sessionOk then local else session) (snd (setManualToken payload now sessionOk st))
     = (if sessionOk then local else session) st.
Proof.
  intros E Hne. unfold setManualToken. rewrite E.
  assert (Ht : truthy (JStr t) = true).
  { simpl. apply negb_true_iff. apply String.eqb_neq.
    now apply trim_nonempty_source. }
  assert (Hl : (String.length (trim (strOf (JStr t))) =? 0)%nat = false).
  { simpl strOf. destruct (String.length (trim t) =? 0)%nat eqn:L; [| reflexivity].
    apply length_zero_iff in L. contradiction. }
  rewrite Ht, Hl. simpl negb. simpl orb. cbv iota.
  unfold setAll, TOKEN, TOKEN_CAPTURED_AT, DEVICE_ID, LANGUAGE.
  destruct sessionOk;
    destruct (truthy (prop (jor payload (JObj [])) "deviceId"));
    destruct (truthy (prop (jor payload (JObj [])) "language"));
    simpl; repeat split;
    repeat (rewrite lookup_insert_ne by discriminate);
    now rewrite lookup_insert_eq.
Qed.

(** C10.  A payload whose token is missing, not a string, or blank after
    trimming is refused with [{success:false, error:'Invalid token'}] and the
    stores are left as they were; any other token is stored trimmed, with the
    current time as capture time, in the session area (in the local area when
    the session area refuses the write), and the answer is
    [{success:true, hasToken:true}]. *)
Theorem setManualToken_validates (payload : JValue) (now : Z) (sessionOk : bool)
    (st : Storage) :
  ((forall t, prop (jor payload (JObj [])) "token" = JStr t -> trim t = "") ->
   setManualToken payload now sessionOk st
   = (JObj [("success", JBool false); ("error", JStr "Invalid token")], st))
  /\ (forall t, prop (jor payload (JObj [])) "token" = JStr t -> trim t <> "" ->
      fst (setManualToken payload now sessionOk st)
      = JObj [("success", JBool true); ("hasToken", JBool true)]
      /\ (if sessionOk then session else local)
           (snd (setManualToken payload now sessionOk st)) !! TOKEN
         = Some (JStr (trim t))
      /\ (if sessionOk then session else local)
           (snd (setManualToken payload now sessionOk st)) !! TOKEN_CAPTURED_AT
         = Some (JNum now)).
Proof.
  split.
  - apply setManualToken_invalid.
  - intros t E Hne.
    destruct (setManualToken_valid payload now sessionOk st t E Hne) as (A & B & C & _).
    auto.
Qed.

Lemma setManualToken_validates_witness :
  setManualToken (JObj [("token", JStr "   ")]) 5 true (mkStorage ∅ ∅)
  = (JObj [("success", JBool false); ("error", JStr "Invalid token")], mkStorage ∅ ∅)
  /\ session (snd (setManualToken (JObj [("token", JStr "  abc ")]) 5 true (mkStorage ∅ ∅)))
       !! TOKEN = Some (JStr "abc").
Proof.
  split.
  - apply (proj1 (setManualToken_validates (JObj [("token", JStr "   ")]) 5 true
                    (mkStorage ∅ ∅))).
    intros t E. injection E as <-. reflexivity.
  - apply (proj2 (setManualToken_validates (JObj [("token", JStr "  abc ")]) 5 true
                    (mkStorage ∅ ∅)) "  abc ").
    + reflexivity.
    + discriminate.
Defined.

(** ** Controller election *)

Lemma handleHeartbeat_other_tab (tabId : option Z) (now : Z) (st : Storage) :
  leader st <> JNum (tabNum tabId) ->
  snd (handleHeartbeat tabId now st) = st
  /\ prop (fst (handleHeartbeat tabId now st)) "isController" <> JBool true.
Proof.
  intros H. unfold handleHeartbeat.
  destruct (noTab tabId); [split; [reflexivity | discriminate] |].
  unfold leader in H.
  destruct (strictEqNum (getKey (local st) CONTROLLER_TAB) (tabNum tabId)) eqn:E.
  - exfalso. apply H. unfold strictEqNum in E.
    destruct (getKey (local st) CONTROLLER_TAB); try discriminate.
    apply Z.eqb_eq in E. now subst.
  - split; [reflexivity | discriminate].
Qed.

Lemma registerController_claims_stale (S2N : string -> option Z)
    (tabExists : JValue -> bool) (tabId : option Z) (now : Z) (st : Storage) :
  noTab tabId = false ->
  stale S2N now (jor (getKey (local st) CONTROLLER_HEARTBEAT) (JNum 0)) = true ->
  prop (fst (registerController S2N tabExists tabId now st)) "isController" = JBool true
  /\ leader (snd (registerController S2N tabExists tabId now st)) = JNum (tabNum tabId).
Proof.
  intros Ht Hs. unfold registerController. rewrite Ht.
  assert (L : leader (claim tabId now st) = JNum (tabNum tabId)).
  { unfold leader, getKey, claim, setAll, CONTROLLER_TAB, CONTROLLER_HEARTBEAT. simpl.
    rewrite lookup_insert_ne by discriminate. now rewrite lookup_insert_eq. }
  unfold stale in Hs.
  destruct (negb (truthy (getKey (local st) CONTROLLER_TAB))); [now split |].
  destruct (staleness S2N now _) as [[]|]; try discriminate. now split.
Qed.

(** C8 at a failing input.  Tab 1 holds the lease and its last heartbeat is
    20 seconds old.  A heartbeat of tab 2 is answered "not controller" and
    leaves the lease with tab 1, and the content script of tab 2 stays a
    non-controller; only a register call of tab 2 takes the lease. *)
Theorem heartbeat_leaves_stale_lease :
  let st := mkStorage ∅ (<[CONTROLLER_TAB := JNum 1]> (<[CONTROLLER_HEARTBEAT := JNum 0]> ∅)) in
  let tab2 := boot None 15000 true (Some 5) false in
  stale (fun _ => None) 20000 (getKey (local st) CONTROLLER_HEARTBEAT) = true
  /\ prop (fst (handleHeartbeat (Some 2) 20000 st)) "isController" = JBool false
  /\ snd (handleHeartbeat (Some 2) 20000 st) = st
  /\ leader (snd (handleHeartbeat (Some 2) 20000 st)) = JNum 1
  /\ isController
       (Content.st (heartbeatAnswered
              (truthy (prop (fst (handleHeartbeat (Some 2) 20000 st)) "isController"))
              tab2)) = false
  /\ prop (fst (registerController (fun _ => None) (fun _ => true) (Some 2) 20000 st))
          "isController" = JBool true
  /\ leader (snd (registerController (fun _ => None) (fun _ => true) (Some 2) 20000 st))
     = JNum 2.
Proof.
  intros st tab2. repeat split.
Qed.

(** ** Content script: the recursion between [updateUI] and [checkAndSubmit] *)

Lemma guards_pass_fields (now : Z) (s : State) :
  firstFailingGuard now s = None ->
  isAutomationEnabled s = true /\ isPaused s = false /\ isSubmitting s = false
  /\ hasValidToken s = true /\ isController s = true.
Proof.
  unfold firstFailingGuard.
  destruct (isAutomationEnabled s), (isPaused s), (isSubmitting s),
    (hasValidToken s), (isController s); simpl; try discriminate.
  intros _. repeat split.
Qed.

Lemma updateUI_body_running (now : Z) (cas : Machine -> Machine) (m : Machine) :
  isPaused (st m) = false -> updateUI_body now cas m = m.
Proof. intros H. unfold updateUI_body. now rewrite H. Qed.

Lemma updateUI_fuel_running (now : Z) (n : nat) (m : Machine) :
  isPaused (st m) = false -> updateUI_fuel now n m = m.
Proof.
  intros H. destruct n; [reflexivity |]. simpl. now apply updateUI_body_running.
Qed.

Lemma findQueued_findById (q : list Item) (item : Item) :
  findQueued q = Some item -> exists i, findById (id item) q = Some i.
Proof.
  unfold findQueued, findById. intros H. apply find_some in H as [Hin _].
  destruct (find (fun i => String.eqb (id i) (id item)) q) eqn:F; [eauto |].
  exfalso. apply (find_none _ _ F) in Hin. now rewrite String.eqb_refl in Hin.
Qed.

Lemma checkAndSubmit_body_eq (now : Z) (ui : Machine -> Machine) (m : Machine) :
  (forall x, isPaused (st x) = false -> ui x = x) ->
  checkAndSubmit_body now ui m =
  match firstFailingGuard now (st m) with
  | Some _ => m
  | None =>
      match findQueued (queue (st m)) with
      | None => m
      | Some item => started now item m
      end
  end.
Proof.
  intros Hui. unfold checkAndSubmit_body.
  destruct (firstFailingGuard now (st m)) eqn:G; [reflexivity |].
  destruct (findQueued (queue (st m))) as [item|] eqn:F; [| reflexivity].
  apply guards_pass_fields in G as (_ & P & _).
  destruct (findQueued_findById _ _ F) as [i Hi].
  unfold submitQueueItem_body, updateItemStatus_body. simpl.
  rewrite Hi. rewrite Hui by (simpl; exact P). reflexivity.
Qed.

(** Two levels of fuel are enough: more fuel gives the same result. *)
Lemma updateUI_fuel_stable (now : Z) (n : nat) (m : Machine) :
  updateUI_fuel now (S (S n)) m = updateUI_fuel now 2 m.
Proof.
  change (updateUI_body now (checkAndSubmit_body now (updateUI_fuel now (S n))) m
          = updateUI_body now (checkAndSubmit_body now (updateUI_fuel now 1)) m).
  unfold updateUI_body.
  rewrite !checkAndSubmit_body_eq by (intros; now apply updateUI_fuel_running).
  reflexivity.
Qed.

Lemma checkAndSubmit_fuel_stable (now : Z) (n : nat) (m : Machine) :
  checkAndSubmit_body now (updateUI_fuel now n) m = checkAndSubmit now m.
Proof.
  unfold checkAndSubmit, updateUI.
  rewrite !checkAndSubmit_body_eq by (intros; now apply updateUI_fuel_running).
  reflexivity.
Qed.

Lemma checkAndSubmit_eq (now : Z) (m : Machine) :
  checkAndSubmit now m =
  match firstFailingGuard now (st m) with
  | Some _ => m
  | None =>
      match findQueued (queue (st m)) with
      | None => m
      | Some item => started now item m
      end
  end.
Proof.
  unfold checkAndSubmit, updateUI. apply checkAndSubmit_body_eq.
  intros. now apply updateUI_fuel_running.
Qed.

Lemma updateUI_eq (now : Z) (m : Machine) :
  updateUI now m =
  if isPaused (st m) && isDailyPause (pauseReason (st m))
     && truthyTime (dailyLimitResetTime (st m))
  then
    if 0 <? default 0 (dailyLimitResetTime (st m)) - now then m
    else checkAndSubmit now (saveQueue (withSt clearDailyLimit m))
  else m.
Proof.
  unfold updateUI.
  change (updateUI_fuel now 2 m)
    with (updateUI_body now (checkAndSubmit_body now (updateUI_fuel now 1)) m).
  unfold updateUI_body. now rewrite checkAndSubmit_fuel_stable.
Qed.

Lemma updateUI_running (now : Z) (m : Machine) :
  isPaused (st m) = false -> updateUI now m = m.
Proof. intros H. rewrite updateUI_eq. now rewrite H. Qed.

Arguments updateUI : simpl never.
Arguments checkAndSubmit : simpl never.

(** ** Admission checks *)

Lemma statusEqb_eq (a b : Status) : statusEqb a b = true <-> a = b.
Proof. destruct a, b; simpl; split; intros H; try reflexivity; discriminate. Qed.

Lemma find_split {A : Type} (f : A -> bool) (q : list A) (x : A) :
  find f q = Some x ->
  exists before after,
    q = before ++ x :: after /\ Forall (fun i => f i = false) before /\ f x = true.
Proof.
  induction q as [|a q IH]; simpl; [discriminate |].
  destruct (f a) eqn:Fa.
  - intros E. injection E as ->. exists [], q. repeat split; [constructor | assumption].
  - intros E. destruct (IH E) as (before & after & -> & Hb & Hx).
    exists (a :: before), after. repeat split; [now constructor | assumption].
Qed.

Lemma updateFirst_split (f : Item -> Item) (before after : list Item) (x : Item) :
  NoDup (ids (before ++ x :: after)) ->
  updateFirst (id x) f (before ++ x :: after) = before ++ f x :: after.
Proof.
  induction before as [|a before IH]; simpl; intros H.
  - now rewrite String.eqb_refl.
  - apply NoDup_cons in H as [Hnot Hnd].
    destruct (String.eqb (id a) (id x)) eqn:E.
    + exfalso. apply String.eqb_eq in E. apply Hnot. rewrite E.
      unfold ids. rewrite map_app. apply elem_of_app. right. simpl. apply elem_of_cons. now left.
    + f_equal. now apply IH.
Qed.

Lemma guards_agree (now : Z) (s : State) :
  0 <= now -> lastSubmitTime s <> Some 0 ->
  firstFailingGuard now s = firstFalse (admissionChecks now s).
Proof.
  intros Hnow Hlast. unfold firstFailingGuard, admissionChecks, firstFalse.
  unfold MAX_CONCURRENT_TASKS, SUBMIT_COOLDOWN_MS.
  destruct (isAutomationEnabled s); [| reflexivity].
  destruct (isPaused s); [reflexivity |].
  destruct (isSubmitting s); [reflexivity |].
  destruct (hasValidToken s); [| reflexivity].
  destruct (isController s); [| reflexivity].
  cbn [negb option_map].
  destruct (Z.ltb_spec (activeTaskCount s) 3) as [A | A];
    destruct (Z.leb_spec 3 (activeTaskCount s)) as [B | B]; try lia; [| reflexivity].
  cbn [option_map].
  assert (D : truthyTime (dailyLimitResetTime s) && (now <? default 0 (dailyLimitResetTime s))
              = negb match dailyLimitResetTime s with Some r => r <=? now | None => true end).
  { destruct (dailyLimitResetTime s) as [r|]; simpl; [| reflexivity].
    destruct (Z.eqb_spec r 0); destruct (Z.ltb_spec now r); destruct (Z.leb_spec r now);
      simpl; try reflexivity; lia. }
  rewrite D.
  destruct (match dailyLimitResetTime s with Some r => r <=? now | None => true end);
    [| reflexivity].
  cbn [negb option_map].
  assert (C : truthyTime (lastSubmitTime s) && (now - default 0 (lastSubmitTime s) <? 2000)
              = negb match lastSubmitTime s with Some t => 2000 <=? now - t | None => true end).
  { destruct (lastSubmitTime s) as [t|]; simpl; [| reflexivity].
    destruct (Z.eqb_spec t 0); [subst; congruence |].
    destruct (Z.ltb_spec (now - t) 2000); destruct (Z.leb_spec 2000 (now - t));
      simpl; try reflexivity; lia. }
  rewrite C.
  destruct (match lastSubmitTime s with Some t => 2000 <=? now - t | None => true end);
    reflexivity.
Qed.

(** C1.  [checkAndSubmit] takes its guards in the order of the eight
    admission checks: the first return it takes is at the first check that
    fails, and then the machine is left as it was.  When every check passes
    and no item is queued nothing changes either; when an item is queued,
    the first queued item in queue order is the one taken: [isSubmitting]
    becomes true, [lastSubmitTime] becomes [now], that item is marked
    sending, the call to the background is issued for it, and nothing else
    in the queue changes. *)
Theorem checkAndSubmit_admission (now : Z) (m : Machine) :
  0 <= now -> lastSubmitTime (st m) <> Some 0 -> NoDup (ids (queue (st m))) ->
  firstFailingGuard now (st m) = firstFalse (admissionChecks now (st m))
  /\ match firstFalse (admissionChecks now (st m)) with
     | Some _ => checkAndSubmit now m = m
     | None =>
         (Forall (fun i => status i <> Queued) (queue (st m)) ->
          checkAndSubmit now m = m)
         /\ forall before item after,
              queue (st m) = before ++ item :: after ->
              Forall (fun i => status i <> Queued) before ->
              status item = Queued ->
              isSubmitting (st (checkAndSubmit now m)) = true
              /\ lastSubmitTime (st (checkAndSubmit now m)) = Some now
              /\ queue (st (checkAndSubmit now m))
                 = before ++ setStatus Sending JNull now item :: after
              /\ status (setStatus Sending JNull now item) = Sending
              /\ pending (checkAndSubmit now m) = pending m ++ [item]
     end.
Proof.
  intros Hnow Hlast Hnd.
  pose proof (guards_agree now (st m) Hnow Hlast) as G.
  split; [exact G |].
  rewrite checkAndSubmit_eq, G.
  destruct (firstFalse (admissionChecks now (st m))); [reflexivity |].
  split.
  - intros Hall.
    destruct (findQueued (queue (st m))) as [x|] eqn:F; [| reflexivity].
    exfalso. unfold findQueued in F. apply find_some in F as [Hin Hq].
    apply statusEqb_eq in Hq. rewrite Forall_forall in Hall.
    apply (Hall x); [now apply list_elem_of_In | exact Hq].
  - intros before item after Hq Hbefore Hitem.
    assert (F : findQueued (queue (st m)) = Some item).
    { unfold findQueued. rewrite Hq. clear Hq Hnd.
      induction before as [|a before IH]; simpl.
      - rewrite Hitem. reflexivity.
      - apply Forall_cons in Hbefore as [Ha Hb].
        destruct (statusEqb (status a) Queued) eqn:E;
          [apply statusEqb_eq in E; contradiction | now apply IH]. }
    rewrite F. unfold started. simpl. rewrite Hq in Hnd |- *.
    rewrite (updateFirst_split _ _ _ _ Hnd). repeat split.
Qed.

Lemma checkAndSubmit_admission_witness :
  let a := mkItem "a" "first" (JObj []) Queued JNull 0 1 1 in
  let b := mkItem "b" "second" (JObj []) Queued JNull 0 2 2 in
  let m := boot (Some (mkStored (Some [a; b]) None None None None)) 1000 true (Some 5) true in
  isSubmitting (st (checkAndSubmit 2000 m)) = true
  /\ lastSubmitTime (st (checkAndSubmit 2000 m)) = Some 2000
  /\ queue (st (checkAndSubmit 2000 m)) = [setStatus Sending JNull 2000 a; b]
  /\ pending (checkAndSubmit 2000 m) = [a].
Proof.
  intros a b m.
  assert (Hnd : NoDup (ids (queue (st m)))).
  { vm_compute. apply NoDup_cons. split; [| apply NoDup_singleton].
    intros H. apply list_elem_of_singleton in H. discriminate. }
  destruct (checkAndSubmit_admission 2000 m ltac:(lia) ltac:(discriminate) Hnd) as [_ H].
  change (firstFalse (admissionChecks 2000 (st m))) with (@None nat) in H.
  destruct H as [_ H].
  assert (Hq : queue (st m) = [] ++ a :: [b]) by (vm_compute; reflexivity).
  destruct (H [] a [b] Hq (Forall_nil_2 _) eq_refl) as (H1 & H2 & H3 & _ & H5).
  repeat split; assumption.
Defined.

(** ** Retry of unclassified rate limits *)

Lemma setStatus_retryCount (s : Status) (msg : JValue) (now : Z) (i : Item) :
  retryCount (setStatus s msg now i)
  = if statusEqb s Error then retryCount i + 1 else retryCount i.
Proof. reflexivity. Qed.

(** C3 at a failing input.  One queued item, and every submission of it
    comes back from the service with status 429 and an unrecognised body,
    which the background answers as RATE_LIMIT_UNKNOWN.  After four failed
    submissions the item is queued again with [retryCount] still 0, and the
    next tick sends it a fifth time. *)
Theorem unknown_rate_limit_requeues_without_bound :
  let a := mkItem "a" "a prompt" (JObj []) Queued JNull 0 1 1 in
  let fetched :=
    JObj [("success", JBool false); ("status", JNum 429);
          ("data", JObj [("error", JObj [("message", JStr "weird unrelated 429")])])] in
  let answer :=
    fst (executeSubmitPrompt (fun _ => None)
           (JObj [("prompt", JStr "a prompt"); ("options", JObj [])]) fetched 20100
           (mkStorage (<[TOKEN := JStr "token"]> ∅) ∅)) in
  let round t m := step (t + 500) (EvResolve 0 (Responded answer)) (step t EvTick m) in
  let m0 := boot (Some (mkStored (Some [a]) None None None None)) 1000 true (Some 5) true in
  let m1 := round 20000 m0 in
  let m2 := round 40000 m1 in
  let m3 := round 60000 m2 in
  let m4 := round 80000 m3 in
  prop answer "error" = JStr "RATE_LIMIT_UNKNOWN"
  /\ statusOf "a" (step 20000 EvTick m0) = Some Sending /\ statusOf "a" m1 = Some Queued
  /\ statusOf "a" (step 40000 EvTick m1) = Some Sending /\ statusOf "a" m2 = Some Queued
  /\ statusOf "a" (step 60000 EvTick m2) = Some Sending /\ statusOf "a" m3 = Some Queued
  /\ statusOf "a" (step 80000 EvTick m3) = Some Sending /\ statusOf "a" m4 = Some Queued
  /\ option_map retryCount (findById "a" (queue (st m4))) = Some 0
  /\ statusOf "a" (step 100000 EvTick m4) = Some Sending.
Proof. vm_compute. repeat split. Qed.

(** ** Manual resume *)

(** C4 at a failing input.  The page is loaded while paused for the daily
    limit, with the reset one hour ahead.  "Retry Now", the automation toggle
    and the popup's toggle each clear [isPaused] and [pauseReason] and leave
    [dailyLimitResetTime] set, so the tick they trigger returns at the
    daily-limit guard and the queued item is not sent; the popup's toggle
    triggers no tick at all. *)
Theorem manual_resume_keeps_reset_time :
  let a := mkItem "a" "a prompt" (JObj []) Queued JNull 0 1 1 in
  let m := boot (Some (mkStored (Some [a]) (Some 4600000) (Some true)
                         (Some "daily_limit") (Some true)))
             1000000 true (Some 5) true in
  (isPaused (st m) = true /\ pauseReason (st m) = Some "daily_limit"
   /\ dailyLimitResetTime (st m) = Some 4600000)
  /\ (let m' := retryNow_click 1000000 m in
      isPaused (st m') = false /\ pauseReason (st m') = None
      /\ dailyLimitResetTime (st m') = Some 4600000
      /\ firstFailingGuard 1000000 (st m') = Some 7%nat
      /\ statusOf "a" m' = Some Queued /\ pending m' = [])
  /\ (let m' := toggleAutomation_click 1000000 m in
      isPaused (st m') = false /\ pauseReason (st m') = None
      /\ dailyLimitResetTime (st m') = Some 4600000
      /\ firstFailingGuard 1000000 (st m') = Some 7%nat
      /\ statusOf "a" m' = Some Queued /\ pending m' = [])
  /\ (let m' := Popup.toggleSeen 1000000 m in
      isPaused (st m') = false /\ pauseReason (st m') = None
      /\ dailyLimitResetTime (st m') = Some 4600000
      /\ firstFailingGuard 1000000 (st m') = Some 7%nat
      /\ statusOf "a" m' = Some Queued /\ pending m' = []).
Proof. vm_compute. repeat split. Qed.

(** ** Queue operations *)

Lemma setStatus_id (s : Status) (msg : JValue) (now : Z) (i : Item) :
  id (setStatus s msg now i) = id i.
Proof. reflexivity. Qed.

Lemma ids_updateFirst (x : string) (f : Item -> Item) (q : list Item) :
  (forall i, id (f i) = id i) -> ids (updateFirst x f q) = ids q.
Proof.
  intros Hf. induction q as [|a q IH]; simpl; [reflexivity |].
  destruct (String.eqb (id a) x); simpl; [now rewrite Hf | now rewrite IH].
Qed.

Lemma findById_updateFirst (x y : string) (f : Item -> Item) (q : list Item) :
  (forall i, id (f i) = id i) ->
  findById y (updateFirst x f q)
  = if String.eqb y x then option_map f (findById x q) else findById y q.
Proof.
  intros Hf. unfold findById. induction q as [|a q IH]; simpl.
  - now destruct (String.eqb y x).
  - destruct (String.eqb (id a) x) eqn:Ea; simpl.
    + apply String.eqb_eq in Ea. rewrite Hf, Ea.
      destruct (String.eqb_spec y x) as [->|Hne].
      * now rewrite String.eqb_refl.
      * destruct (String.eqb_spec x y); [congruence | reflexivity].
    + destruct (String.eqb_spec y x) as [->|Hne].
      * rewrite Ea. exact IH.
      * destruct (String.eqb (id a) y); [reflexivity | exact IH].
Qed.

Lemma findById_In (x : string) (q : list Item) (i : Item) :
  findById x q = Some i -> i ∈ q /\ id i = x.
Proof.
  unfold findById. intros H. apply find_some in H as [Hin Hid].
  split; [now apply list_elem_of_In | now apply String.eqb_eq].
Qed.

Lemma findById_unique (x : string) (q : list Item) (i : Item) :
  NoDup (ids q) -> i ∈ q -> id i = x -> findById x q = Some i.
Proof.
  unfold findById. induction q as [|a q IH]; simpl; intros Hnd Hin Hid.
  - now apply elem_of_nil in Hin.
  - apply NoDup_cons in Hnd as [Hnot Hnd].
    apply elem_of_cons in Hin as [-> | Hin].
    + rewrite Hid. now rewrite String.eqb_refl.
    + destruct (String.eqb_spec (id a) x) as [E | _]; [| now apply IH].
      exfalso. apply Hnot. rewrite E, <- Hid.
      unfold ids. apply list_elem_of_In, in_map, list_elem_of_In, Hin.
Qed.

Lemma findById_None (x : string) (q : list Item) :
  findById x q = None <-> x ∉ ids q.
Proof.
  unfold findById. induction q as [|a q IH]; simpl.
  - split; [intros _ H; now apply elem_of_nil in H | reflexivity].
  - destruct (String.eqb_spec (id a) x) as [E | Hne].
    + split; [discriminate |]. intros H. exfalso. apply H. rewrite E.
      apply elem_of_cons. now left.
    + rewrite IH. split.
      * intros H Hin. apply elem_of_cons in Hin as [E | Hin]; [congruence | contradiction].
      * intros H Hin. apply H. apply elem_of_cons. now right.
Qed.

Lemma findById_app (y : string) (q : list Item) (item : Item) :
  findById y (q ++ [item])
  = match findById y q with
    | Some i => Some i
    | None => if String.eqb (id item) y then Some item else None
    end.
Proof.
  unfold findById. induction q as [|a q IH]; simpl; [reflexivity |].
  destruct (String.eqb (id a) y); [reflexivity | exact IH].
Qed.

Lemma elem_of_ids (q : list Item) (i : Item) : i ∈ q -> id i ∈ ids q.
Proof. intros H. unfold ids. apply list_elem_of_In, in_map, list_elem_of_In, H. Qed.

Lemma ids_elem_of (q : list Item) (x : string) :
  x ∈ ids q -> exists i, i ∈ q /\ id i = x.
Proof.
  unfold ids. intros H. apply list_elem_of_In, in_map_iff in H as (i & Hid & Hin).
  exists i. split; [now apply list_elem_of_In | assumption].
Qed.

(** A queue whose items all come from [q], with ids still distinct: what
    removal, filtering and reordering produce. *)
Lemma findById_sub (q q' : list Item) (y : string) :
  NoDup (ids q) -> (forall j, j ∈ q' -> j ∈ q) ->
  findById y q' = findById y q \/ findById y q' = None.
Proof.
  intros Hnd Hsub. destruct (findById y q') as [j|] eqn:F; [left | now right].
  apply findById_In in F as [Hin Hid]. symmetry.
  apply findById_unique; auto.
Qed.

Lemma spliceOne_sub (n : nat) (q : list Item) (j : Item) :
  j ∈ spliceOne n q -> j ∈ q.
Proof.
  revert n. induction q as [|a q IH]; intros n; simpl; [now destruct n |].
  destruct n; intros H.
  - apply elem_of_cons. now right.
  - apply elem_of_cons in H as [-> | H]; apply elem_of_cons; [now left | right; eauto].
Qed.

Lemma spliceOne_NoDup (n : nat) (q : list Item) :
  NoDup (ids q) -> NoDup (ids (spliceOne n q)).
Proof.
  revert n. induction q as [|a q IH]; intros n; simpl; [now destruct n |].
  intros H. apply NoDup_cons in H as [Hnot Hnd]. destruct n; [assumption |].
  simpl. apply NoDup_cons. split; [| now apply IH].
  intros Hin. apply Hnot. apply ids_elem_of in Hin as (i & Hi & Hid).
  rewrite <- Hid. apply elem_of_ids. eapply spliceOne_sub, Hi.
Qed.

Lemma findIndex_splice (x : string) (q : list Item) (n : nat) :
  NoDup (ids q) -> findIndex x q = Some n -> findById x (spliceOne n q) = None.
Proof.
  revert n. induction q as [|a q IH]; intros n; simpl; [discriminate |].
  intros Hnd. apply NoDup_cons in Hnd as [Hnot Hnd].
  destruct (String.eqb_spec (id a) x) as [E | Hne].
  - intros H. injection H as <-. apply findById_None. now rewrite <- E.
  - destruct (findIndex x q) as [k|] eqn:F; simpl; [| discriminate].
    intros H. injection H as <-. unfold findById. simpl.
    destruct (String.eqb_spec (id a) x); [contradiction |].
    now apply IH.
Qed.

Lemma findIndex_splice_other (x y : string) (q : list Item) (n : nat) :
  findIndex x q = Some n -> x <> y -> findById y (spliceOne n q) = findById y q.
Proof.
  revert n. unfold findById. induction q as [|a q IH]; intros n; simpl; [discriminate |].
  destruct (String.eqb_spec (id a) x) as [E | Hne].
  - intros H Hxy. injection H as <-.
    destruct (String.eqb_spec (id a) y); [congruence | reflexivity].
  - destruct (findIndex x q) as [k|] eqn:F; simpl; [| discriminate].
    intros H Hxy. injection H as <-. simpl.
    destruct (String.eqb (id a) y); [reflexivity | now apply IH].
Qed.

Lemma findIndex_None (x : string) (q : list Item) :
  findIndex x q = None -> findById x q = None.
Proof.
  unfold findById. induction q as [|a q IH]; simpl; [reflexivity |].
  destruct (String.eqb (id a) x); [discriminate |].
  destruct (findIndex x q); [discriminate | auto].
Qed.

Lemma filter_sub (P : Item -> bool) (q : list Item) (j : Item) :
  j ∈ List.filter P q -> j ∈ q.
Proof.
  intros H. apply list_elem_of_In, filter_In in H as [H _]. now apply list_elem_of_In.
Qed.

Lemma filter_NoDup (P : Item -> bool) (q : list Item) :
  NoDup (ids q) -> NoDup (ids (List.filter P q)).
Proof.
  induction q as [|a q IH]; simpl; [auto |].
  intros H. apply NoDup_cons in H as [Hnot Hnd].
  destruct (P a); [| now apply IH].
  simpl. apply NoDup_cons. split; [| now apply IH].
  intros Hin. apply Hnot. apply ids_elem_of in Hin as (i & Hi & Hid).
  rewrite <- Hid. apply elem_of_ids. eapply filter_sub, Hi.
Qed.

Lemma swap_adjacent_perm (n : nat) (q : list Item) : swap n (S n) q ≡ₚ q.
Proof.
  unfold swap. revert n. induction q as [|a q IH]; intros n; [now destruct n |].
  destruct n as [|n].
  - destruct q as [|b q]; simpl; [reflexivity | apply Permutation_swap].
  - simpl. specialize (IH n).
    destruct (q !! n) as [x|] eqn:E1; [| reflexivity].
    destruct (q !! S n) as [y|] eqn:E2; [| reflexivity].
    simpl. now rewrite IH.
Qed.

Lemma perm_ids (q q' : list Item) : q' ≡ₚ q -> ids q' ≡ₚ ids q.
Proof. intros H. unfold ids. now apply Permutation_map. Qed.

Lemma perm_findById (q q' : list Item) (y : string) :
  NoDup (ids q) -> q' ≡ₚ q -> findById y q' = findById y q.
Proof.
  intros Hnd Hp.
  assert (Hnd' : NoDup (ids q')) by (now rewrite (perm_ids _ _ Hp)).
  destruct (findById y q) as [i|] eqn:F.
  - apply findById_In in F as [Hin Hid]. apply findById_unique; auto.
    now rewrite Hp.
  - apply findById_None. apply findById_None in F. now rewrite (perm_ids _ _ Hp).
Qed.

(** ** Ticks: what [checkAndSubmit] and [updateUI] may change *)

Lemma sameCore_refl (m : Machine) : sameCore m m.
Proof. repeat split. Qed.

Lemma ticked_refl (now : Z) (m : Machine) : Ticked now m m.
Proof. left. apply sameCore_refl. Qed.

Lemma ticked_trans (now : Z) (m m1 m2 : Machine) :
  Ticked now m m1 -> Ticked now m1 m2 -> Ticked now m m2.
Proof.
  intros [(Q1 & S1 & P1 & I1) | (i1 & F1 & B1 & Q1 & S1 & P1 & I1)]
         [(Q2 & S2 & P2 & I2) | (i2 & F2 & B2 & Q2 & S2 & P2 & I2)].
  - left. repeat split; congruence.
  - right. exists i2. rewrite Q1 in F2, Q2. rewrite S1 in B2. rewrite P1 in P2.
    repeat split; congruence.
  - right. exists i1. repeat split; congruence.
  - congruence.
Qed.

Lemma cas_ticked (now : Z) (m : Machine) : Ticked now m (checkAndSubmit now m).
Proof.
  rewrite checkAndSubmit_eq.
  destruct (firstFailingGuard now (st m)) eqn:G; [apply ticked_refl |].
  destruct (findQueued (queue (st m))) as [item|] eqn:F; [| apply ticked_refl].
  apply guards_pass_fields in G as (_ & _ & S & _).
  right. exists item. repeat split; assumption.
Qed.

Lemma ticked_cas (now : Z) (m m1 : Machine) :
  Ticked now m m1 -> Ticked now m (checkAndSubmit now m1).
Proof. intros H. eapply ticked_trans; [exact H | apply cas_ticked]. Qed.

Lemma ticked_save (now : Z) (m m1 : Machine) :
  Ticked now m m1 -> Ticked now m (saveQueue m1).
Proof. intros H. eapply ticked_trans; [exact H | left; repeat split]. Qed.

Lemma ticked_withSt (now : Z) (f : State -> State) (m m1 : Machine) :
  (forall s, queue (f s) = queue s) ->
  (forall s, isSubmitting (f s) = isSubmitting s) ->
  Ticked now m m1 -> Ticked now m (withSt f m1).
Proof.
  intros Hq Hs H. eapply ticked_trans; [exact H |].
  left. repeat split; simpl; auto.
Qed.

Lemma ui_ticked (now : Z) (m : Machine) : Ticked now m (updateUI now m).
Proof.
  rewrite updateUI_eq.
  destruct (isPaused (st m) && isDailyPause (pauseReason (st m))
            && truthyTime (dailyLimitResetTime (st m))); [| apply ticked_refl].
  destruct (0 <? default 0 (dailyLimitResetTime (st m)) - now); [apply ticked_refl |].
  apply ticked_cas, ticked_save, ticked_withSt; try reflexivity. apply ticked_refl.
Qed.

Lemma ticked_ui (now : Z) (m m1 : Machine) :
  Ticked now m m1 -> Ticked now m (updateUI now m1).
Proof. intros H. eapply ticked_trans; [exact H | apply ui_ticked]. Qed.

(** ** The flag of an invalidated context *)

Lemma flag_cas (now : Z) (m : Machine) :
  extensionInvalidated (st (checkAndSubmit now m)) = extensionInvalidated (st m).
Proof.
  rewrite checkAndSubmit_eq.
  destruct (firstFailingGuard now (st m)); [reflexivity |].
  now destruct (findQueued (queue (st m))).
Qed.

Lemma flag_ui (now : Z) (m : Machine) :
  extensionInvalidated (st (updateUI now m)) = extensionInvalidated (st m).
Proof.
  rewrite updateUI_eq.
  destruct (isPaused (st m) && isDailyPause (pauseReason (st m))
            && truthyTime (dailyLimitResetTime (st m))); [| reflexivity].
  destruct (0 <? default 0 (dailyLimitResetTime (st m)) - now); [reflexivity |].
  now rewrite flag_cas.
Qed.

Lemma flag_status (now : Z) (x : string) (s : Status) (msg : JValue) (m : Machine) :
  extensionInvalidated (st (updateItemStatus now x s msg m)) = extensionInvalidated (st m).
Proof.
  unfold updateItemStatus, updateItemStatus_body.
  destruct (findById x (queue (st m))); [| reflexivity]. now rewrite flag_ui.
Qed.

Lemma flag_remove (now : Z) (x : string) (m : Machine) :
  extensionInvalidated (st (removeFromQueue now x m)) = extensionInvalidated (st m).
Proof.
  unfold removeFromQueue, removeFromQueue_body.
  destruct (findIndex x (queue (st m))); [| reflexivity]. now rewrite flag_ui.
Qed.

Lemma inv_valid (m : Machine) : Inv m -> extensionInvalidated (st m) = false.
Proof. intros H. exact (proj1 (inv_synced m H)). Qed.

(** The instance does not know of an invalidated context. *)
Ltac valid :=
  repeat first
    [ rewrite flag_cas | rewrite flag_ui | rewrite flag_status | rewrite flag_remove
    | progress cbn [withSt push saveQueue st extensionInvalidated
                    setQueue setAutomationEnabled setPaused setPauseReason
                    setDailyLimitResetTime setHasValidToken setLastTokenCapture
                    setActiveTaskCount setLastPollTime setLastSubmitTime setSubmitting
                    setController setMainWorldReady clearDailyLimit resume] ];
  first [ assumption
        | reflexivity
        | match goal with H : synced _ |- _ => exact (proj1 H) end
        | match goal with H : Inv _ |- _ => exact (proj1 (inv_synced _ H)) end ].

Lemma synced_save (m : Machine) :
  extensionInvalidated (st m) = false -> synced (saveQueue m).
Proof. intros H. split; [exact H |]. eexists. simpl. rewrite H. repeat split. Qed.

Lemma synced_withSt (f : State -> State) (m : Machine) :
  (forall s, queue (f s) = queue s) ->
  (forall s, isPaused (f s) = isPaused s) ->
  (forall s, pauseReason (f s) = pauseReason s) ->
  (forall s, isAutomationEnabled (f s) = isAutomationEnabled s) ->
  (forall s, extensionInvalidated (f s) = extensionInvalidated s) ->
  synced m -> synced (withSt f m).
Proof.
  intros Hq Hp Hr He Hv (V & sd & E & A & B & C & D).
  split; [simpl; now rewrite Hv |].
  exists sd. simpl. rewrite Hq, Hp, Hr, He. auto.
Qed.

Lemma synced_cas (now : Z) (m : Machine) : synced m -> synced (checkAndSubmit now m).
Proof.
  intros H. rewrite checkAndSubmit_eq.
  destruct (firstFailingGuard now (st m)); [assumption |].
  destruct (findQueued (queue (st m))); [| assumption].
  destruct H as [V _]. split; [exact V |].
  eexists. simpl. rewrite V. repeat split.
Qed.

Lemma synced_ui (now : Z) (m : Machine) : synced m -> synced (updateUI now m).
Proof.
  intros H. rewrite updateUI_eq.
  destruct (isPaused (st m) && isDailyPause (pauseReason (st m))
            && truthyTime (dailyLimitResetTime (st m))); [| assumption].
  destruct (0 <? default 0 (dailyLimitResetTime (st m)) - now); [assumption |].
  apply synced_cas, synced_save. valid.
Qed.

Ltac tick :=
  repeat match goal with
  | |- Ticked _ _ (checkAndSubmit _ _) => apply ticked_cas
  | |- Ticked _ _ (updateUI _ _) => apply ticked_ui
  | |- Ticked _ _ (saveQueue _) => apply ticked_save
  | |- Ticked _ _ (withSt _ _) =>
      apply ticked_withSt; [intros; reflexivity | intros; reflexivity |]
  | |- Ticked _ ?m ?m => apply ticked_refl
  end.

Ltac sync :=
  repeat match goal with
  | H : synced ?m |- synced ?m => exact H
  | H : Inv ?m |- synced ?m => exact (inv_synced m H)
  | |- synced (checkAndSubmit _ _) => apply synced_cas
  | |- synced (updateUI _ _) => apply synced_ui
  | |- synced (saveQueue _) => apply synced_save; valid
  | |- synced (withSt _ _) =>
      apply synced_withSt;
      [intros; reflexivity | intros; reflexivity | intros; reflexivity
      | intros; reflexivity | intros; reflexivity |]
  end.

Ltac flow :=
  match goal with
  | |- Ticked _ _ _ => tick
  | |- synced _ => sync
  end.

(** ** The invariant *)

Lemma findQueued_spec (q : list Item) (item : Item) :
  findQueued q = Some item -> item ∈ q /\ status item = Queued.
Proof.
  unfold findQueued. intros H. apply find_some in H as [Hin Hs].
  split; [now apply list_elem_of_In | now apply statusEqb_eq].
Qed.

Lemma Inv_ticked (now : Z) (m m' : Machine) :
  Inv m -> Ticked now m m' -> synced m' -> Inv m'.
Proof.
  intros [Hnd Hiss Hpi Hsy Hfl Hse Hal] [(Q & S & P & I) | (item & F & B & Q & S & P & I)] Hsy'.
  - constructor; rewrite ?Q, ?S, ?P, ?I; assumption.
  - rewrite B in Hfl.
    destruct (findQueued_spec _ _ F) as [Hin Hst].
    assert (Hfind : findById (id item) (queue (st m)) = Some item)
      by (now apply findById_unique).
    assert (Hnd' : NoDup (ids (queue (st m')))).
    { rewrite Q, ids_updateFirst; [assumption | reflexivity]. }
    assert (Hmem : forall j, j ∈ queue (st m') ->
              (j ∈ queue (st m) /\ id j <> id item)
              \/ j = setStatus Sending JNull now item).
    { intros j Hj.
      pose proof (findById_unique (id j) _ j Hnd' Hj eq_refl) as Fj.
      rewrite Q, findById_updateFirst in Fj by reflexivity.
      destruct (String.eqb_spec (id j) (id item)) as [E | Hne].
      - rewrite Hfind in Fj. simpl in Fj. right. congruence.
      - left. split; [| assumption]. now apply findById_In in Fj as [Fj _]. }
    constructor.
    + assumption.
    + intros j Hj. rewrite I.
      destruct (Hmem j Hj) as [[Hj' _] | ->]; [auto | exact (Hiss item Hin)].
    + intros p Hp. rewrite I. rewrite P, Hfl in Hp.
      apply list_elem_of_singleton in Hp as ->. auto.
    + assumption.
    + rewrite S, P, Hfl. now exists item.
    + intros j Hj Hs. rewrite P, Hfl. exists item. split; [apply list_elem_of_singleton; reflexivity |].
      destruct (Hmem j Hj) as [[Hj' _] | ->]; [| reflexivity].
      destruct (Hse j Hj' Hs) as (p & Hp & _). rewrite Hfl in Hp.
      now apply elem_of_nil in Hp.
    + intros p j Hp Hj E. rewrite P, Hfl in Hp.
      apply list_elem_of_singleton in Hp as ->.
      destruct (Hmem j Hj) as [[_ Hne] | ->]; [contradiction |]. now split.
Qed.

Lemma move_ticked (now : Z) (m m' : Machine) (y : string) :
  NoDup (ids (queue (st m))) -> Ticked now m m' ->
  SendOrStay (statusOf y m) (statusOf y m').
Proof.
  intros Hnd [(Q & _) | (item & F & B & Q & S & P & I)]; unfold statusOf.
  - left. now rewrite Q.
  - rewrite Q, findById_updateFirst by reflexivity.
    destruct (String.eqb_spec y (id item)) as [-> | Hne]; [| now left].
    destruct (findQueued_spec _ _ F) as [Hin Hst].
    rewrite (findById_unique (id item) _ item Hnd Hin eq_refl). simpl.
    rewrite Hst. right. now split.
Qed.

Lemma ticked_issued (now : Z) (m m' : Machine) : Ticked now m m' -> issued m' = issued m.
Proof. intros [(_ & _ & _ & I) | (item & _ & _ & _ & _ & _ & I)]; exact I. Qed.

Lemma ticked_good (now : Z) (m m' : Machine) :
  Inv m -> Ticked now m m' -> synced m' ->
  Inv m' /\ (forall y, SendOrStay (statusOf y m) (statusOf y m'))
  /\ issued m' = issued m.
Proof.
  intros HI HT HS. split; [eapply Inv_ticked; eauto |]. split.
  - intros y. eapply move_ticked; [apply HI | exact HT].
  - eapply ticked_issued, HT.
Qed.

Lemma send_from_none (c : option Status) : SendOrStay None c -> c = None.
Proof. intros [<- | [H _]]; [reflexivity | discriminate]. Qed.

Lemma transition_tick (m : Machine) (e : Event) (y : string) (a b : option Status) :
  SendOrStay a b -> Transition m e y a b.
Proof. intros [-> | [-> ->]]; constructor. Qed.

(** Replacing the queue by one made of items it already held. *)
Lemma Inv_subqueue (m : Machine) (q' : list Item) :
  Inv m -> NoDup (ids q') -> (forall j, j ∈ q' -> j ∈ queue (st m)) ->
  Inv (saveQueue (withSt (setQueue q') m)).
Proof.
  intros HI Hnd' Hsub. pose proof HI as [Hnd Hiss Hpi Hsy Hfl Hse Hal].
  constructor; simpl; auto.
  apply (synced_save (withSt (setQueue q') m)). valid.
Qed.

(** An item the new queue has lost stays lost; the others are as after a
    tick. *)
Lemma mutate_then_tick (now : Z) (m m' : Machine) (q' : list Item) :
  Inv m -> NoDup (ids q') -> (forall j, j ∈ q' -> j ∈ queue (st m)) ->
  Ticked now (saveQueue (withSt (setQueue q') m)) m' -> synced m' ->
  Inv m'
  /\ (forall y, SendOrStay (statusOf y m) (statusOf y m')
                \/ (findById y q' = None /\ statusOf y m' = None))
  /\ issued m' = issued m.
Proof.
  intros HI Hnd' Hsub HT HS.
  pose proof (Inv_subqueue m q' HI Hnd' Hsub) as HI1.
  destruct (ticked_good now _ m' HI1 HT HS) as (HI' & HM & Hiss).
  split; [assumption |]. split; [| exact Hiss].
  intros y. specialize (HM y). unfold statusOf in HM at 1. simpl in HM.
  destruct (findById_sub (queue (st m)) q' y (inv_nodup m HI) Hsub) as [E | E].
  - left. unfold statusOf at 1. now rewrite <- E.
  - right. split; [exact E |]. rewrite E in HM. now apply send_from_none in HM.
Qed.

(** ** Handlers that only set flags and tick *)

Section TickHandlers.

Variable now : Z.
Variable m : Machine.
Hypothesis HI : Inv m.

Lemma toggle_good :
  Inv (toggleAutomation_click now m)
  /\ (forall y, SendOrStay (statusOf y m) (statusOf y (toggleAutomation_click now m)))
  /\ issued (toggleAutomation_click now m) = issued m.
Proof.
  apply (ticked_good now); [exact HI | |]; unfold toggleAutomation_click;
    destruct (isPaused (st m) && isDailyPause (pauseReason (st m)));
    try destruct (isAutomationEnabled _); flow.
Qed.

Lemma retryNow_good :
  Inv (retryNow_click now m)
  /\ (forall y, SendOrStay (statusOf y m) (statusOf y (retryNow_click now m)))
  /\ issued (retryNow_click now m) = issued m.
Proof.
  apply (ticked_good now); [exact HI | |]; unfold retryNow_click; flow.
Qed.

Lemma tokenCaptured_good (hasToken : bool) :
  Inv (onTokenCaptured now hasToken m)
  /\ (forall y, SendOrStay (statusOf y m) (statusOf y (onTokenCaptured now hasToken m)))
  /\ issued (onTokenCaptured now hasToken m) = issued m.
Proof.
  apply (ticked_good now); [exact HI | |]; unfold onTokenCaptured; rewrite (inv_valid m HI); flow.
Qed.

Lemma tokenCleared_good :
  Inv (onTokenCleared now m)
  /\ (forall y, SendOrStay (statusOf y m) (statusOf y (onTokenCleared now m)))
  /\ issued (onTokenCleared now m) = issued m.
Proof.
  apply (ticked_good now); [exact HI | |]; unfold onTokenCleared; rewrite (inv_valid m HI); flow.
Qed.

Lemma tokenStatus_good (hasToken : bool) (capturedAt : option Z) :
  Inv (tokenStatusReceived now hasToken capturedAt m)
  /\ (forall y, SendOrStay (statusOf y m)
                  (statusOf y (tokenStatusReceived now hasToken capturedAt m)))
  /\ issued (tokenStatusReceived now hasToken capturedAt m) = issued m.
Proof.
  apply (ticked_good now); [exact HI | |]; unfold tokenStatusReceived; flow.
Qed.

Lemma manualToken_good :
  Inv (manualTokenAccepted now m)
  /\ (forall y, SendOrStay (statusOf y m) (statusOf y (manualTokenAccepted now m)))
  /\ issued (manualTokenAccepted now m) = issued m.
Proof.
  apply (ticked_good now); [exact HI | |]; unfold manualTokenAccepted; flow.
Qed.

Lemma tokenClearedDone_good :
  Inv (tokenClearedDone now m)
  /\ (forall y, SendOrStay (statusOf y m) (statusOf y (tokenClearedDone now m)))
  /\ issued (tokenClearedDone now m) = issued m.
Proof.
  apply (ticked_good now); [exact HI | |]; unfold tokenClearedDone; flow.
Qed.

Lemma pollSucceeded_good (activeCount : Z) :
  Inv (pollSucceeded now activeCount m)
  /\ (forall y, SendOrStay (statusOf y m) (statusOf y (pollSucceeded now activeCount m)))
  /\ issued (pollSucceeded now activeCount m) = issued m.
Proof.
  apply (ticked_good now); [exact HI | |]; unfold pollSucceeded; flow.
Qed.

Lemma pollFailed_good (mainWorldIssue : bool) :
  Inv (pollFailed now mainWorldIssue m)
  /\ (forall y, SendOrStay (statusOf y m) (statusOf y (pollFailed now mainWorldIssue m)))
  /\ issued (pollFailed now mainWorldIssue m) = issued m.
Proof.
  apply (ticked_good now); [exact HI | |]; unfold pollFailed;
    destruct mainWorldIssue; flow.
Qed.

Lemma heartbeat_good (answer : bool) :
  Inv (heartbeatAnswered answer m)
  /\ (forall y, SendOrStay (statusOf y m) (statusOf y (heartbeatAnswered answer m)))
  /\ issued (heartbeatAnswered answer m) = issued m.
Proof.
  apply (ticked_good now); [exact HI | |]; unfold heartbeatAnswered;
    destruct (negb answer && isController (st m));
    try destruct (answer && negb (isController (st m))); flow.
Qed.

Lemma sweep_good :
  Inv (dailyLimitSweep now m)
  /\ (forall y, SendOrStay (statusOf y m) (statusOf y (dailyLimitSweep now m)))
  /\ issued (dailyLimitSweep now m) = issued m.
Proof.
  apply (ticked_good now); [exact HI | |]; unfold dailyLimitSweep;
    destruct (truthyTime (dailyLimitResetTime (st m))
              && (default 0 (dailyLimitResetTime (st m)) <=? now));
    try destruct (isDailyPause _); flow.
Qed.

Lemma tick_good :
  Inv (checkAndSubmit now m)
  /\ (forall y, SendOrStay (statusOf y m) (statusOf y (checkAndSubmit now m)))
  /\ issued (checkAndSubmit now m) = issued m.
Proof.
  apply (ticked_good now); [exact HI | tick | apply synced_cas, HI].
Qed.

Lemma echo_good :
  Inv (onStorageChanged now (stored m) m)
  /\ (forall y, SendOrStay (statusOf y m) (statusOf y (onStorageChanged now (stored m) m)))
  /\ issued (onStorageChanged now (stored m) m) = issued m.
Proof.
  destruct (inv_synced m HI) as (V & sd & E & Q & P & R & A).
  assert (Heq : onStorageChanged now (stored m) m
                = updateUI now
                    (withSt (setQueue (queue (st m)))
                       (withSt (fun x => setPauseReason (pauseReason (st m))
                                           (setPaused (isPaused (st m)) x)) m))).
  { unfold onStorageChanged. rewrite V, E. simpl. rewrite A, P, Q, R.
    now rewrite Bool.eqb_reflx. }
  rewrite Heq. apply (ticked_good now); [exact HI | |].
  - apply ticked_ui. left. repeat split.
  - apply synced_ui. split; [exact V |]. exists sd. simpl. auto.
Qed.

End TickHandlers.

(** ** Handlers that change the queue *)

Lemma findById_filter_lost (P : Item -> bool) (y : string) (q : list Item) (i : Item) :
  findById y (List.filter P q) = None -> findById y q = Some i -> P i = false.
Proof.
  unfold findById. induction q as [|a q IH]; simpl; [discriminate |].
  destruct (String.eqb (id a) y) eqn:E.
  - intros H F. injection F as <-. destruct (P a) eqn:Pa; [| reflexivity].
    simpl in H. rewrite E in H. discriminate.
  - intros H F. apply IH; [| exact F].
    destruct (P a); [| exact H]. simpl in H. now rewrite E in H.
Qed.

Section QueueHandlers.

Variable now : Z.
Variable m : Machine.
Hypothesis HI : Inv m.

(** [removeFromQueue] takes out the item it is called for and no other. *)
Lemma remove_good (itemId : string) :
  Inv (removeFromQueue now itemId m)
  /\ (forall y, SendOrStay (statusOf y m) (statusOf y (removeFromQueue now itemId m))
                \/ (y = itemId /\ statusOf y (removeFromQueue now itemId m) = None))
  /\ issued (removeFromQueue now itemId m) = issued m.
Proof.
  unfold removeFromQueue, removeFromQueue_body.
  destruct (findIndex itemId (queue (st m))) as [index|] eqn:F.
  - destruct (mutate_then_tick now m
                (updateUI now (saveQueue (withSt (fun x => setQueue (spliceOne index (queue x)) x) m)))
                (spliceOne index (queue (st m)))) as (A & B & C).
    + exact HI.
    + apply spliceOne_NoDup, HI.
    + intros j. apply spliceOne_sub.
    + apply ticked_ui, ticked_refl.
    + apply synced_ui, synced_save. valid.
    + split; [exact A |]. split; [| exact C].
      intros y. destruct (B y) as [H | [N H]]; [now left |].
      destruct (String.eqb_spec itemId y) as [E | Hne]; [right; now split |].
      left. left. rewrite H. unfold statusOf.
      rewrite (findIndex_splice_other _ y _ _ F Hne) in N. now rewrite N.
  - destruct (ticked_good now m m HI (ticked_refl now m) (inv_synced m HI)) as (A & B & C).
    split; [exact A |]. split; [| exact C]. intros y. left. apply B.
Qed.

Lemma reorder_good (q' : list Item) :
  q' ≡ₚ queue (st m) ->
  let m' := updateUI now (saveQueue (withSt (setQueue q') m)) in
  Inv m' /\ (forall y, SendOrStay (statusOf y m) (statusOf y m')) /\ issued m' = issued m.
Proof.
  intros Hp m'.
  destruct (mutate_then_tick now m m' q') as (A & B & C).
  - exact HI.
  - rewrite (perm_ids _ _ Hp). apply HI.
  - intros j. now rewrite Hp.
  - apply ticked_ui, ticked_refl.
  - apply synced_ui, synced_save. valid.
  - split; [exact A |]. split; [| exact C].
    intros y. destruct (B y) as [H | [N H]]; [exact H |].
    left. rewrite H. unfold statusOf.
    rewrite (perm_findById _ _ y (inv_nodup m HI) Hp) in N. now rewrite N.
Qed.

Lemma moveUp_good (itemId : string) :
  Inv (moveUp now itemId m)
  /\ (forall y, SendOrStay (statusOf y m) (statusOf y (moveUp now itemId m)))
  /\ issued (moveUp now itemId m) = issued m.
Proof.
  unfold moveUp.
  destruct (findIndex itemId (queue (st m))) as [[|n]|] eqn:F;
    unfold Nat.ltb; cbn [Nat.leb];
    try (apply (ticked_good now); [exact HI | tick | apply HI]).
  replace (S n - 1)%nat with n by lia.
  apply (reorder_good (swap n (S n) (queue (st m)))), swap_adjacent_perm.
Qed.

Lemma moveDown_good (itemId : string) :
  Inv (moveDown now itemId m)
  /\ (forall y, SendOrStay (statusOf y m) (statusOf y (moveDown now itemId m)))
  /\ issued (moveDown now itemId m) = issued m.
Proof.
  unfold moveDown.
  destruct (findIndex itemId (queue (st m))) as [n|] eqn:F;
    [destruct (n <? length (queue (st m)) - 1)%nat |];
    try (apply (ticked_good now); [exact HI | tick | apply HI]).
  replace (n + 1)%nat with (S n) by lia.
  apply (reorder_good (swap n (S n) (queue (st m)))), swap_adjacent_perm.
Qed.

(** "Clear Errors" takes out items in error and no other. *)
Lemma clearErrors_good :
  Inv (clearErrors_click now m)
  /\ (forall y, SendOrStay (statusOf y m) (statusOf y (clearErrors_click now m))
                \/ (statusOf y m = Some Error /\ statusOf y (clearErrors_click now m) = None))
  /\ issued (clearErrors_click now m) = issued m.
Proof.
  unfold clearErrors_click.
  destruct (mutate_then_tick now m
              (updateUI now (saveQueue (withSt (fun x => setQueue
                 (List.filter (fun i => negb (statusEqb (status i) Error)) (queue x)) x) m)))
              (List.filter (fun i => negb (statusEqb (status i) Error)) (queue (st m))))
    as (A & B & C).
  - exact HI.
  - apply filter_NoDup, HI.
  - intros j. apply filter_sub.
  - apply ticked_ui, ticked_refl.
  - apply synced_ui, synced_save. valid.
  - split; [exact A |]. split; [| exact C].
    intros y. destruct (B y) as [H | [N H]]; [now left |].
    unfold statusOf at 1 3.
    destruct (findById y (queue (st m))) as [i|] eqn:F.
    + right. split; [| exact H].
      pose proof (findById_filter_lost _ y _ i N F) as E.
      apply negb_false_iff, statusEqb_eq in E. simpl. now rewrite E.
    + left. left. now rewrite H.
Qed.

Lemma Inv_push (item : Item) :
  id item ∉ issued m -> status item = Queued -> Inv (saveQueue (push item m)).
Proof.
  pose proof HI as [Hnd Hiss Hpi Hsy Hfl Hse Hal]. intros Hfresh Hst.
  assert (Hnew : forall i, i ∈ queue (st m) -> id i <> id item).
  { intros i Hi E. apply Hfresh. rewrite <- E. auto. }
  constructor; simpl.
  - unfold ids. rewrite map_app. apply NoDup_app. repeat split.
    + exact Hnd.
    + intros x Hx Hx'. simpl in Hx'. apply list_elem_of_singleton in Hx'.
      apply ids_elem_of in Hx as (i & Hi & <-). now apply (Hnew i).
    + apply NoDup_singleton.
  - intros i Hi. apply elem_of_app in Hi as [Hi | Hi]; apply elem_of_cons.
    + right. auto.
    + apply list_elem_of_singleton in Hi as ->. now left.
  - intros p Hp. apply elem_of_cons. right. auto.
  - apply (synced_save (push item m)). valid.
  - exact Hfl.
  - intros i Hi Hs. apply elem_of_app in Hi as [Hi | Hi]; [auto |].
    apply list_elem_of_singleton in Hi as ->. congruence.
  - intros p i Hp Hi E. apply elem_of_app in Hi as [Hi | Hi]; [auto |].
    apply list_elem_of_singleton in Hi as ->.
    exfalso. apply Hfresh. rewrite E. auto.
Qed.

Lemma add_good (prompt : string) (options : JValue) (rnd : string) :
  newId now rnd ∉ issued m ->
  Inv (addToQueue now prompt options rnd m)
  /\ (forall y, y ∈ issued m ->
        SendOrStay (statusOf y m) (statusOf y (addToQueue now prompt options rnd m)))
  /\ issued (addToQueue now prompt options rnd m) = newId now rnd :: issued m.
Proof.
  intros Hfresh. unfold addToQueue.
  set (item := newItem now prompt options rnd).
  assert (Hid : id item = newId now rnd) by reflexivity.
  pose proof (Inv_push item ltac:(now rewrite Hid) eq_refl) as HI1.
  assert (HT : Ticked now (saveQueue (push item m))
                 (checkAndSubmit now (updateUI now (saveQueue (push item m)))))
    by (apply ticked_cas, ticked_ui, ticked_refl).
  assert (HS : synced (checkAndSubmit now (updateUI now (saveQueue (push item m)))))
    by (apply synced_cas, synced_ui, synced_save; valid).
  destruct (ticked_good now _ _ HI1 HT HS) as (HI' & HM & Hiss).
  split; [exact HI' |]. split; [| now rewrite Hiss].
  intros y Hy.
  assert (E : statusOf y (saveQueue (push item m)) = statusOf y m).
  { unfold statusOf. simpl. rewrite findById_app.
    destruct (findById y (queue (st m))); [reflexivity |].
    destruct (String.eqb_spec (id item) y) as [E | _]; [| reflexivity].
    exfalso. apply Hfresh. now rewrite <- Hid, E. }
  rewrite <- E. apply HM.
Qed.

End QueueHandlers.

(** ** Resolution of a pending submission *)

Lemma updateFirst_absent (x : string) (f : Item -> Item) (q : list Item) :
  findById x q = None -> updateFirst x f q = q.
Proof.
  unfold findById. induction q as [|a q IH]; simpl; [reflexivity |].
  destruct (String.eqb (id a) x); [discriminate |].
  intros H. now rewrite IH.
Qed.

Lemma updateFirst_mem (x : string) (f : Item -> Item) (q : list Item) (j : Item) :
  (forall i, id (f i) = id i) -> NoDup (ids q) -> j ∈ updateFirst x f q ->
  (j ∈ q /\ id j <> x) \/ (exists i, i ∈ q /\ id i = x /\ j = f i).
Proof.
  intros Hf Hnd Hj.
  assert (Hnd' : NoDup (ids (updateFirst x f q))) by (now rewrite ids_updateFirst).
  pose proof (findById_unique (id j) _ j Hnd' Hj eq_refl) as Fj.
  rewrite findById_updateFirst in Fj by assumption.
  destruct (String.eqb_spec (id j) x) as [E | Hne].
  - right. destruct (findById x q) as [i|] eqn:Fi; [| discriminate].
    simpl in Fj. injection Fj as <-. apply findById_In in Fi as [Hi Hid].
    now exists i.
  - left. split; [| assumption]. now apply findById_In in Fj as [Fj _].
Qed.

Lemma core_refl (m : Machine) : Core (fun q => q) m m.
Proof. repeat split. Qed.

Lemma ticked_submitting (now : Z) (m m' : Machine) :
  isSubmitting (st m) = true -> Ticked now m m' -> sameCore m m'.
Proof.
  intros S [H | (item & _ & B & _)]; [assumption | congruence].
Qed.

Lemma core_ui (now : Z) (f : list Item -> list Item) (m m1 : Machine) :
  isSubmitting (st m) = true -> Core f m m1 -> Core f m (updateUI now m1).
Proof.
  intros S (Q & B & P & I).
  destruct (ticked_submitting now m1 (updateUI now m1)) as (Q' & B' & P' & I');
    [congruence | apply ui_ticked |].
  repeat split; congruence.
Qed.

Lemma core_save (f : list Item -> list Item) (m m1 : Machine) :
  Core f m m1 -> Core f m (saveQueue m1).
Proof. intros H. exact H. Qed.

Lemma core_withSt (f : list Item -> list Item) (g : State -> State) (m m1 : Machine) :
  (forall s, queue (g s) = queue s) ->
  (forall s, isSubmitting (g s) = isSubmitting s) ->
  Core f m m1 -> Core f m (withSt g m1).
Proof.
  intros Hq Hs (Q & B & P & I). repeat split; simpl; rewrite ?Hq, ?Hs; assumption.
Qed.

Lemma core_updateItemStatus (now : Z) (f : list Item -> list Item)
    (x : string) (s : Status) (msg : JValue) (m m1 : Machine) :
  isSubmitting (st m) = true -> Core f m m1 ->
  Core (fun q => updateFirst x (setStatus s msg now) (f q)) m
       (updateItemStatus now x s msg m1).
Proof.
  intros S H. unfold updateItemStatus, updateItemStatus_body.
  destruct (findById x (queue (st m1))) eqn:F.
  - apply core_ui; [assumption |]. destruct H as (Q & B & P & I).
    repeat split; simpl; congruence.
  - destruct H as (Q & B & P & I). repeat split; try assumption.
    rewrite <- Q. now rewrite updateFirst_absent.
Qed.

Lemma core_removeFromQueue (now : Z) (x : string) (m : Machine) :
  isSubmitting (st m) = true ->
  Core (fun q => match findIndex x q with
                 | Some index => spliceOne index q
                 | None => q
                 end) m (removeFromQueue now x m).
Proof.
  intros S. unfold removeFromQueue, removeFromQueue_body.
  destruct (findIndex x (queue (st m))) eqn:F.
  - apply core_ui; [assumption |]. repeat split; simpl. now rewrite F.
  - repeat split. now rewrite F.
Qed.

Lemma synced_updateItemStatus (now : Z) (x : string) (s : Status) (msg : JValue)
    (m : Machine) :
  synced m -> synced (updateItemStatus now x s msg m).
Proof.
  intros H. unfold updateItemStatus, updateItemStatus_body.
  destruct (findById x (queue (st m))); [apply synced_ui, synced_save; valid | assumption].
Qed.

Lemma synced_removeFromQueue (now : Z) (x : string) (m : Machine) :
  synced m -> synced (removeFromQueue now x m).
Proof.
  intros H. unfold removeFromQueue, removeFromQueue_body.
  destruct (findIndex x (queue (st m))); [apply synced_ui, synced_save; valid | assumption].
Qed.

Lemma handleSubmitError_core (now : Z) (item : Item) (result : JValue) (m : Machine) :
  isSubmitting (st m) = true ->
  exists s msg, (s = Queued \/ s = Error)
    /\ Core (updateFirst (id item) (setStatus s msg now)) m
            (handleSubmitError now item result m).
Proof.
  intros S. unfold handleSubmitError.
  destruct (strictEqStr (prop result "error") "CONCURRENT_LIMIT").
  { exists Queued, JNull. split; [now left |].
    apply core_ui; [assumption |].
    apply core_withSt; [intros; reflexivity | intros; reflexivity |].
    apply (core_updateItemStatus now (fun q => q)); [assumption | apply core_refl]. }
  destruct (strictEqStr (prop result "error") "DAILY_LIMIT").
  { exists Queued, JNull. split; [now left |].
    apply core_ui; [assumption |]. apply core_save.
    match goal with
    | |- Core _ m (updateItemStatus now ?x ?s ?msg (withSt ?g m)) =>
        destruct (core_updateItemStatus now (fun q => q) x s msg (withSt g m) (withSt g m))
          as (Q & B & P & I); [exact S | apply core_refl |]
    end.
    repeat split; assumption. }
  destruct (strictEqStr (prop result "error") "NO_TOKEN"
            || strictEqStr (prop result "error") "TOKEN_STALE"
            || strictEqStr (prop result "error") "AUTH_ERROR").
  { exists Error, (JStr "Token needed"). split; [now right |].
    apply core_ui; [assumption |].
    match goal with
    | |- Core _ m (updateItemStatus now ?x ?s ?msg (withSt ?g m)) =>
        destruct (core_updateItemStatus now (fun q => q) x s msg (withSt g m) (withSt g m))
          as (Q & B & P & I); [exact S | apply core_refl |]
    end.
    repeat split; assumption. }
  destruct (strictEqStr (prop result "error") "RATE_LIMIT_UNKNOWN").
  { destruct (retryCount item <? 3).
    - exists Queued, JNull. split; [now left |].
      apply core_ui; [assumption |].
      apply (core_updateItemStatus now (fun q => q)); [assumption | apply core_refl].
    - exists Error, (JStr "Rate limit (max retries)"). split; [now right |].
      apply core_ui; [assumption |].
      apply (core_updateItemStatus now (fun q => q)); [assumption | apply core_refl]. }
  exists Error, (jor (prop result "message") (JStr "Unknown error")).
  split; [now right |].
  apply core_ui; [assumption |].
  apply (core_updateItemStatus now (fun q => q)); [assumption | apply core_refl].
Qed.

Lemma handleSubmitError_synced (now : Z) (item : Item) (result : JValue) (m : Machine) :
  synced m -> synced (handleSubmitError now item result m).
Proof.
  intros H. unfold handleSubmitError. apply synced_ui.
  destruct (strictEqStr (prop result "error") "CONCURRENT_LIMIT").
  { apply synced_withSt; try (intros; reflexivity).
    now apply synced_updateItemStatus. }
  destruct (strictEqStr (prop result "error") "DAILY_LIMIT").
  { apply synced_save. valid. }
  destruct (strictEqStr (prop result "error") "NO_TOKEN"
            || strictEqStr (prop result "error") "TOKEN_STALE"
            || strictEqStr (prop result "error") "AUTH_ERROR").
  { apply synced_updateItemStatus. apply synced_withSt; try (intros; reflexivity).
    assumption. }
  destruct (strictEqStr (prop result "error") "RATE_LIMIT_UNKNOWN").
  { destruct (retryCount item <? 3); now apply synced_updateItemStatus. }
  now apply synced_updateItemStatus.
Qed.

Lemma submitResolved_inner (now : Z) (item : Item) (o : Outcome) (m : Machine) :
  isSubmitting (st m) = true ->
  exists m1,
    submitResolved now item o m = withSt (setSubmitting false) m1
    /\ pending m1 = pending m /\ issued m1 = issued m
    /\ Resolved now item o (queue (st m)) (queue (st m1)).
Proof.
  intros S.
  assert (Herr : forall msg m0, Core (fun q => q) m m0 ->
            pending (updateItemStatus now (id item) Error msg m0) = pending m
            /\ issued (updateItemStatus now (id item) Error msg m0) = issued m
            /\ exists s msg',
                 (s = Error \/ (s = Queued /\ exists result, o = Responded result))
                 /\ queue (st (updateItemStatus now (id item) Error msg m0))
                    = updateFirst (id item) (setStatus s msg' now) (queue (st m))).
  { intros msg m0 H0.
    destruct (core_updateItemStatus now (fun q => q) (id item) Error msg m m0 S H0)
      as (Q & B & P & I).
    split; [assumption |]. split; [assumption |].
    exists Error, msg. split; [now left | exact Q]. }
  unfold submitResolved, Resolved. destruct o as [result | message].
  - destruct (succeeded (Responded result)) eqn:So.
    + assert (E : truthy (prop result "success") = true) by exact So.
      assert (HC : Core (fun q => match findIndex (id item) q with
                                  | Some index => spliceOne index q
                                  | None => q
                                  end) m
                     (updateUI now
                        (withSt (fun x => setActiveTaskCount (activeTaskCount x + 1) x)
                           (removeFromQueue now (id item) m)))).
      { apply core_ui; [assumption |].
        apply core_withSt; [intros; reflexivity | intros; reflexivity |].
        now apply core_removeFromQueue. }
      destruct HC as (Q & B & P & I).
      destruct result; try discriminate So; rewrite E;
        (eexists; split; [reflexivity |]; split; [exact P |]; split; [exact I | exact Q]).
    + assert (E : truthy (prop result "success") = false) by exact So.
      assert (Hother : pending (handleSubmitError now item result m) = pending m
                /\ issued (handleSubmitError now item result m) = issued m
                /\ exists s msg,
                     (s = Error \/ (s = Queued /\ exists r, Responded result = Responded r))
                     /\ queue (st (handleSubmitError now item result m))
                        = updateFirst (id item) (setStatus s msg now) (queue (st m))).
      { destruct (handleSubmitError_core now item result m S)
          as (s & msg & Hs & Q & B & P & I).
        split; [assumption |]. split; [assumption |].
        exists s, msg. split; [| exact Q].
        destruct Hs as [-> | ->]; [right; split; [reflexivity | now exists result] | now left]. }
      destruct result; rewrite ?E;
        first [ eexists; split; [reflexivity |]; exact Hother
              | eexists; split; [reflexivity |]; apply Herr, core_refl ].
  - change (succeeded (Threw message)) with false. cbv iota.
    eexists. split; [reflexivity |]. apply Herr.
    destruct (invalidates message); [| apply core_refl].
    unfold handleExtensionInvalidated.
    apply core_withSt; [intros; reflexivity | intros; reflexivity | apply core_refl].
Qed.

Lemma submitResolved_core (now : Z) (item : Item) (o : Outcome) (m : Machine) :
  isSubmitting (st m) = true ->
  isSubmitting (st (submitResolved now item o m)) = false
  /\ pending (submitResolved now item o m) = pending m
  /\ issued (submitResolved now item o m) = issued m
  /\ Resolved now item o (queue (st m)) (queue (st (submitResolved now item o m))).
Proof.
  intros S. destruct (submitResolved_inner now item o m S) as (m1 & -> & P & I & Q).
  split; [reflexivity |]. split; [exact P |]. split; [exact I | exact Q].
Qed.

(** Either way the queue keeps its other items, and the item of the call,
    if it is still there, is no longer [Sending]. *)
Lemma resolved_shape (now : Z) (item : Item) (o : Outcome) (q q' : list Item) :
  Resolved now item o q q' ->
  (exists s msg, (s = Queued \/ s = Error)
     /\ q' = updateFirst (id item) (setStatus s msg now) q)
  \/ q' = match findIndex (id item) q with
          | Some index => spliceOne index q
          | None => q
          end.
Proof.
  unfold Resolved. destruct (succeeded o); [now right |].
  intros (s & msg & Hs & Q). left. exists s, msg. split; [| exact Q].
  destruct Hs as [-> | [-> _]]; [now right | now left].
Qed.

Lemma submitResolved_synced (now : Z) (k : nat) (item : Item) (o : Outcome) (m : Machine) :
  undisturbed (EvResolve k o) = true ->
  synced m -> synced (submitResolved now item o m).
Proof.
  intros U H. unfold submitResolved.
  apply synced_withSt; try (intros; reflexivity).
  destruct o as [result | message].
  - destruct result; try (now apply synced_updateItemStatus);
      (destruct (truthy _);
       [ apply synced_ui, synced_withSt; try (intros; reflexivity);
         now apply synced_removeFromQueue
       | now apply handleSubmitError_synced ]).
  - simpl in U. apply negb_true_iff in U. rewrite U.
    now apply synced_updateItemStatus.
Qed.

(** The end of the awaited call moves the item of the call, and only it. *)
Lemma resolve_good (now : Z) (m : Machine) (k : nat) (o : Outcome) :
  Inv m -> undisturbed (EvResolve k o) = true ->
  Inv (step now (EvResolve k o) m)
  /\ (forall y, Transition m (EvResolve k o) y
                  (statusOf y m) (statusOf y (step now (EvResolve k o) m)))
  /\ issued (step now (EvResolve k o) m) = issued m.
Proof.
  intros HI U. simpl.
  destruct (pending m !! k) as [p|] eqn:L.
  2:{ split; [assumption |]. split; [intros y; constructor | reflexivity]. }
  pose proof HI as [Hnd Hiss Hpi Hsy Hfl Hse Hal].
  destruct (isSubmitting (st m)) eqn:S; [| rewrite Hfl in L; discriminate].
  destruct Hfl as [p0 Hp]. pose proof L as L0. rewrite Hp in L |- *.
  destruct k; [| discriminate]. simpl in L. injection L as ->. simpl delete.
  set (m0 := mkMachine (st m) (stored m) [] (issued m)).
  assert (Hpin : p ∈ pending m) by (rewrite Hp; apply list_elem_of_singleton; reflexivity).
  destruct (submitResolved_core now p o m0 S) as (B' & P' & I' & HR).
  assert (Hsy' : synced (submitResolved now p o m0)).
  { apply (submitResolved_synced now 0 p o m0 U).
    destruct Hsy as (V & sd & E & A). split; [exact V | now exists sd]. }
  change (pending m0) with (@nil Item) in P'.
  change (issued m0) with (issued m) in I'.
  change (queue (st m0)) with (queue (st m)) in HR.
  set (m' := submitResolved now p o m0) in *.
  pose proof (resolved_shape _ _ _ _ _ HR) as HQ.
  assert (Hmem : forall j, j ∈ queue (st m') ->
            (j ∈ queue (st m) /\ id j <> id p) \/ (id j = id p /\ status j <> Sending)).
  { intros j Hj. destruct HQ as [(s & msg & Hs & Q) | Q]; rewrite Q in Hj.
    - destruct (updateFirst_mem (id p) (setStatus s msg now) (queue (st m)) j
                  ltac:(intros; reflexivity) Hnd Hj) as [Hj' | (i & Hi & Hid & ->)];
        [now left |].
      right. split; [assumption |]. destruct Hs as [-> | ->]; discriminate.
    - left. destruct (findIndex (id p) (queue (st m))) as [index|] eqn:F.
      + split; [eapply spliceOne_sub, Hj |].
        intros E. pose proof (findIndex_splice _ _ _ Hnd F) as N.
        apply findById_None in N. apply N. rewrite <- E. now apply elem_of_ids.
      + split; [assumption |]. intros E. apply findIndex_None, findById_None in F.
        apply F. rewrite <- E. now apply elem_of_ids. }
  assert (Hnd' : NoDup (ids (queue (st m')))).
  { destruct HQ as [(s & msg & Hs & Q) | Q]; rewrite Q.
    - rewrite ids_updateFirst; [assumption | reflexivity].
    - destruct (findIndex (id p) (queue (st m))); [now apply spliceOne_NoDup | assumption]. }
  split; [| split].
  - constructor.
    + assumption.
    + intros j Hj. rewrite I'.
      destruct (Hmem j Hj) as [[Hj' _] | [E _]]; [auto |]. rewrite E. auto.
    + intros q Hq. rewrite P' in Hq. now apply elem_of_nil in Hq.
    + assumption.
    + now rewrite B'.
    + intros j Hj Hs. exfalso.
      destruct (Hmem j Hj) as [[Hj' Hne] | [_ Hns]]; [| contradiction].
      destruct (Hse j Hj' Hs) as (q & Hq & E). rewrite Hp in Hq.
      apply list_elem_of_singleton in Hq as ->. congruence.
    + intros q j Hq. rewrite P' in Hq. now apply elem_of_nil in Hq.
  - intros y. unfold statusOf.
    assert (Hbefore : y = id p -> findById y (queue (st m)) = None
                      \/ exists i, findById y (queue (st m)) = Some i /\ status i = Sending).
    { intros ->. destruct (findById (id p) (queue (st m))) as [i|] eqn:F; [right | now left].
      exists i. split; [reflexivity |]. apply findById_In in F as [Hi Hid].
      now destruct (Hal p i Hpin Hi Hid). }
    unfold Resolved in HR. destruct (succeeded o) eqn:So.
    + rewrite HR.
      destruct (findIndex (id p) (queue (st m))) as [index|] eqn:F; [| constructor].
      destruct (String.eqb_spec y (id p)) as [E | Hne].
      * rewrite E, (findIndex_splice _ _ _ Hnd F).
        destruct (Hbefore E) as [N | (i & Fi & Hi)]; rewrite E in *.
        -- rewrite N. constructor.
        -- rewrite Fi. simpl. rewrite Hi. now apply (TrDone _ _ _ 0%nat p o).
      * rewrite (findIndex_splice_other _ y _ _ F) by congruence. constructor.
    + destruct HR as (s & msg & Hs & Q). rewrite Q.
      rewrite findById_updateFirst by reflexivity.
      destruct (String.eqb_spec y (id p)) as [E | Hne]; [| constructor].
      destruct (Hbefore E) as [N | (i & F & Hi)]; rewrite <- E.
      * rewrite N. constructor.
      * rewrite F. simpl. rewrite Hi.
        destruct Hs as [-> | [-> [result ->]]].
        -- now apply (TrFail _ _ _ 0%nat p o).
        -- now apply (TrRequeue _ _ _ 0%nat p result).
  - exact I'.
Qed.

(** ** Page load *)

Lemma resetSending_id (i : Item) : id (resetSending i) = id i.
Proof. unfold resetSending. now destruct (statusEqb (status i) Sending). Qed.

Lemma resetSending_status (i : Item) :
  status (resetSending i) = if statusEqb (status i) Sending then Queued else status i.
Proof. unfold resetSending. now destruct (statusEqb (status i) Sending). Qed.

Lemma ids_map (f : Item -> Item) (q : list Item) :
  (forall i, id (f i) = id i) -> ids (List.map f q) = ids q.
Proof.
  intros Hf. unfold ids. rewrite map_map. apply map_ext. exact Hf.
Qed.

Lemma findById_map (f : Item -> Item) (y : string) (q : list Item) :
  (forall i, id (f i) = id i) ->
  findById y (List.map f q) = option_map f (findById y q).
Proof.
  intros Hf. unfold findById. induction q as [|a q IH]; simpl; [reflexivity |].
  rewrite Hf. destruct (String.eqb (id a) y); [reflexivity | exact IH].
Qed.

Lemma loadQueue_core (now : Z) (m : Machine) :
  extensionInvalidated (st m) = false ->
  queue (st (loadQueue now m)) = List.map resetSending (storedQueue (stored m))
  /\ isSubmitting (st (loadQueue now m)) = isSubmitting (st m)
  /\ pending (loadQueue now m) = pending m
  /\ issued (loadQueue now m) = issued m
  /\ synced (loadQueue now m).
Proof.
  intros V. unfold loadQueue, storedQueue. rewrite V.
  set (data := default emptyStored (stored m)).
  match goal with
  | |- context [if ?c then _ else _] => destruct c
  end;
  try match goal with
  | |- context [if isDailyPause ?r then _ else _] => destruct (isDailyPause r)
  end;
  (split; [reflexivity |]; split; [reflexivity |]; split; [reflexivity |];
   split; [reflexivity |]; apply synced_save; simpl; exact V).
Qed.

Lemma init_good (now : Z) (hasToken : bool) (capturedAt : option Z) (controller : bool)
    (m : Machine) :
  NoDup (ids (storedQueue (stored m))) ->
  (forall i, i ∈ storedQueue (stored m) -> id i ∈ issued m) ->
  Inv (init now hasToken capturedAt controller m)
  /\ (forall y,
        SendOrStay (option_map status
                      (findById y (List.map resetSending (storedQueue (stored m)))))
                   (statusOf y (init now hasToken capturedAt controller m)))
  /\ issued (init now hasToken capturedAt controller m) = issued m.
Proof.
  intros Hnd Hiss. unfold init.
  set (m0 := mkMachine initialState (stored m) [] (issued m)).
  destruct (loadQueue_core now m0 eq_refl) as (Q & B & P & I & Sy).
  assert (HI : Inv (loadQueue now m0)).
  { constructor.
    - rewrite Q, ids_map; [exact Hnd | apply resetSending_id].
    - intros i Hi. rewrite Q in Hi. rewrite I.
      apply list_elem_of_In, in_map_iff in Hi as (j & <- & Hj).
      rewrite resetSending_id. apply Hiss. now apply list_elem_of_In.
    - intros p Hp. rewrite P in Hp. now apply elem_of_nil in Hp.
    - exact Sy.
    - rewrite B, P. reflexivity.
    - intros i Hi Hs. exfalso. rewrite Q in Hi.
      apply list_elem_of_In, in_map_iff in Hi as (j & <- & Hj).
      rewrite resetSending_status in Hs.
      destruct (statusEqb (status j) Sending) eqn:E; [discriminate |].
      apply statusEqb_eq in Hs. congruence.
    - intros p i Hp. rewrite P in Hp. now apply elem_of_nil in Hp. }
  revert Q I HI. generalize (loadQueue now m0). intros m1 Q I HI.
  match goal with
  | |- Inv ?x /\ _ =>
      destruct (ticked_good now m1 x HI) as (HI' & HM & Hi')
  end.
  - tick.
  - sync.
  - split; [exact HI' |]. split; [| now rewrite Hi', I].
    intros y. specialize (HM y). unfold statusOf in HM at 1. now rewrite Q in HM.
Qed.

(** A page load puts a sending item back in the queue and changes no
    other status. *)
Lemma restart_good (now : Z) (hasToken : bool) (capturedAt : option Z)
    (controller : bool) (m : Machine) :
  Inv m ->
  Inv (init now hasToken capturedAt controller m)
  /\ (forall y, Transition m (EvRestart hasToken capturedAt controller) y
                  (statusOf y m) (statusOf y (init now hasToken capturedAt controller m)))
  /\ issued (init now hasToken capturedAt controller m) = issued m.
Proof.
  intros HI.
  assert (Hq : storedQueue (stored m) = queue (st m)).
  { destruct (inv_synced m HI) as (_ & sd & E & Q & _). unfold storedQueue.
    rewrite E. simpl. now rewrite Q. }
  destruct (init_good now hasToken capturedAt controller m) as (HI' & HM & Hi').
  - rewrite Hq. apply HI.
  - rewrite Hq. apply HI.
  - split; [exact HI' |]. split; [| exact Hi'].
    intros y. specialize (HM y). rewrite Hq in HM.
    rewrite findById_map in HM by apply resetSending_id.
    unfold statusOf at 1.
    destruct (findById y (queue (st m))) as [i|]; simpl in *;
      [| now apply transition_tick].
    rewrite resetSending_status in HM.
    destruct (status i) eqn:Si; simpl in HM; try (now apply transition_tick).
    destruct HM as [<- | [_ ->]]; [| constructor].
    now apply (TrReset _ _ _ hasToken capturedAt controller).
Qed.

(** ** Every handler of an undisturbed instance keeps the invariant, and
    changes a status only as [Transition] says *)

Lemma step_good (now : Z) (e : Event) (m : Machine) :
  Inv m -> enabled now e m -> undisturbed e = true ->
  Inv (step now e m)
  /\ (forall y, y ∈ issued m -> Transition m e y (statusOf y m) (statusOf y (step now e m)))
  /\ (forall y, y ∈ issued m -> y ∈ issued (step now e m)).
Proof.
  intros HI He U.
  assert (Hweak : forall m',
            Inv m' /\ (forall y, SendOrStay (statusOf y m) (statusOf y m'))
            /\ issued m' = issued m ->
            Inv m' /\ (forall y, y ∈ issued m -> Transition m e y (statusOf y m) (statusOf y m'))
            /\ (forall y, y ∈ issued m -> y ∈ issued m')).
  { intros m' (A & B & C). split; [exact A |].
    split; [intros y _; apply transition_tick, B | now rewrite C]. }
  destruct e as [pr opts rnd|itemId|itemId|itemId| | | |hasToken| |hasToken capturedAt
                | | |activeCount|issue|answer| | | |newValue|newValue| |k o
                |hasToken capturedAt controller];
    simpl step; simpl in He; try discriminate U.
  - destruct (add_good now m HI pr opts rnd He) as (A & B & C).
    split; [exact A |]. split; [intros y Hy; apply transition_tick, B, Hy |].
    intros y Hy. rewrite C. apply elem_of_cons. now right.
  - destruct (remove_good now m HI itemId) as (A & B & C).
    split; [exact A |]. split; [| now rewrite C].
    intros y _. destruct (B y) as [H | [-> H]]; [now apply transition_tick |].
    rewrite H. destruct (statusOf itemId m); now constructor.
  - apply Hweak, moveUp_good, HI.
  - apply Hweak, moveDown_good, HI.
  - destruct (clearErrors_good now m HI) as (A & B & C).
    split; [exact A |]. split; [| now rewrite C].
    intros y _. destruct (B y) as [H | [H1 H2]]; [now apply transition_tick |].
    rewrite H1, H2. now constructor.
  - apply Hweak, toggle_good, HI.
  - apply Hweak, retryNow_good, HI.
  - apply Hweak, tokenCaptured_good, HI.
  - apply Hweak, tokenCleared_good, HI.
  - apply Hweak, tokenStatus_good, HI.
  - apply Hweak, manualToken_good, HI.
  - apply Hweak, tokenClearedDone_good, HI.
  - apply Hweak, pollSucceeded_good, HI.
  - apply Hweak, pollFailed_good, HI.
  - apply Hweak, (heartbeat_good now), HI.
  - apply Hweak, sweep_good, HI.
  - apply Hweak, tick_good, HI.
  - apply Hweak, echo_good, HI.
  - destruct (resolve_good now m k o HI U) as (A & B & C).
    split; [exact A |]. split; [intros y _; apply B |].
    intros y Hy. change (y ∈ issued (step now (EvResolve k o) m)). now rewrite C.
  - destruct (restart_good now hasToken capturedAt controller m HI) as (A & B & C).
    split; [exact A |]. split; [intros y _; apply B | now rewrite C].
Qed.

Lemma boot_Inv (sd : option StoredData) (now : Z) (hasToken : bool)
    (capturedAt : option Z) (controller : bool) :
  NoDup (ids (storedQueue sd)) -> Inv (boot sd now hasToken capturedAt controller).
Proof.
  intros Hnd. unfold boot. apply init_good; simpl.
  - exact Hnd.
  - intros i Hi. now apply elem_of_ids.
Qed.

Lemma calm_Inv (m : Machine) : Calm m -> Inv m.
Proof.
  induction 1 as [sd now hasToken capturedAt controller Hnd | m now e _ IH He U].
  - now apply boot_Inv.
  - now apply step_good.
Qed.

Lemma calm_reachable (m : Machine) : Calm m -> Reachable m.
Proof.
  induction 1 as [sd now hasToken capturedAt controller Hnd | m now e _ IH He U].
  - now apply reach_boot.
  - now apply reach_step.
Qed.

(** ** Single flight *)

Lemma filter_at_most_one (P : Item -> bool) (x : string) (q : list Item) :
  NoDup (ids q) -> (forall i, i ∈ q -> P i = true -> id i = x) ->
  (length (List.filter P q) <= 1)%nat.
Proof.
  induction q as [|a q IH]; simpl; intros Hnd H; [lia |].
  apply NoDup_cons in Hnd as [Hnot Hnd].
  assert (IHq : (length (List.filter P q) <= 1)%nat).
  { apply IH; [assumption |]. intros i Hi. apply H. apply elem_of_cons. now right. }
  destruct (P a) eqn:Pa; [| exact IHq].
  assert (E : List.filter P q = []).
  { destruct (List.filter P q) as [|j r] eqn:F; [reflexivity | exfalso].
    assert (Hj : In j (List.filter P q)) by (rewrite F; now left).
    apply filter_In in Hj as [Hj Pj]. apply list_elem_of_In in Hj.
    apply Hnot. rewrite (H a), <- (H j).
    - now apply elem_of_ids.
    - apply elem_of_cons. now right.
    - exact Pj.
    - apply elem_of_cons. now left.
    - exact Pa. }
  rewrite E. simpl. lia.
Qed.

(** X30.  As long as the instance is left to itself (no other context
    writes its storage key, no notification arrives late, the extension
    context stays valid), at most one queue item is sending: an item is
    sending only while [isSubmitting] is set, and [isSubmitting] is set
    exactly while one call to the background is pending. *)
Lemma single_flight_undisturbed (m : Machine) :
  Calm m ->
  (countSending (queue (st m)) <= 1)%nat
  /\ (isSubmitting (st m) = false -> countSending (queue (st m)) = 0%nat)
  /\ (length (pending m) <= 1)%nat
  /\ (isSubmitting (st m) = true <-> pending m <> []).
Proof.
  intros HR. destruct (calm_Inv m HR) as [Hnd Hiss Hpi Hsy Hfl Hse Hal].
  unfold countSending.
  destruct (isSubmitting (st m)) eqn:S.
  - destruct Hfl as [p Hp]. rewrite Hp. simpl. repeat split; try lia; try discriminate.
    apply (filter_at_most_one _ (id p)); [assumption |].
    intros i Hi Hs. apply statusEqb_eq in Hs.
    destruct (Hse i Hi Hs) as (p' & Hp' & E). rewrite Hp in Hp'.
    apply list_elem_of_singleton in Hp' as ->. now symmetry.
  - rewrite Hfl. simpl.
    assert (E : List.filter (fun i => statusEqb (status i) Sending) (queue (st m)) = []).
    { destruct (List.filter _ (queue (st m))) as [|j r] eqn:F; [reflexivity | exfalso].
      assert (Hj : In j (List.filter (fun i => statusEqb (status i) Sending) (queue (st m))))
        by (rewrite F; now left).
      apply filter_In in Hj as [Hj Pj]. apply list_elem_of_In in Hj.
      apply statusEqb_eq in Pj. destruct (Hse j Hj Pj) as (p & Hp & _).
      rewrite Hfl in Hp. now apply elem_of_nil in Hp. }
    rewrite E. simpl. repeat split; try lia; try discriminate; try congruence.
Qed.

Lemma single_flight_undisturbed_witness :
  let a := mkItem "a" "first" (JObj []) Queued JNull 0 1 1 in
  let b := mkItem "b" "second" (JObj []) Queued JNull 0 2 2 in
  let m := step 2000 EvTick
             (boot (Some (mkStored (Some [a; b]) None None None None)) 1000 true (Some 5) true) in
  countSending (queue (st m)) = 1%nat
  /\ (countSending (queue (st m)) <= 1)%nat
  /\ (length (pending m) <= 1)%nat.
Proof.
  intros a b m.
  assert (R : Calm m).
  { apply calm_step; [| exact I | reflexivity]. apply calm_boot.
    vm_compute. apply NoDup_cons. split; [| apply NoDup_singleton].
    intros H. apply list_elem_of_singleton in H. discriminate. }
  destruct (single_flight_undisturbed m R) as (H1 & _ & H3 & _).
  split; [vm_compute; reflexivity |]. split; assumption.
Defined.

(** C2 at a failing input.  The invariant fails in a state the instance
    reaches when the popup toggles automation while a submission is in
    flight.  The popup's
    [toggleAutomation] reads the stored object, changes one field and writes
    the whole object back.  Here it reads while item a is sending; the
    submission then succeeds and a is removed; the popup's write then puts
    the queue it had read back under the key, and the storage listener
    copies that queue into [state], a sending again.  No call is pending, so
    once automation is switched on again [checkAndSubmit] sends b: two items
    are sending, for one pending call. *)
Theorem stale_popup_write_two_sending :
  let a := mkItem "a" "first" (JObj []) Queued JNull 0 1 1 in
  let b := mkItem "b" "second" (JObj []) Queued JNull 0 2 2 in
  let m0 := boot (Some (mkStored (Some [a; b]) None None None None)) 1000 true (Some 5) true in
  let m1 := step 2000 EvTick m0 in
  let read := stored m1 in
  let m2 := step 3000 (EvResolve 0 (Responded (JObj [("success", JBool true)]))) m1 in
  let m3 := step 4000 (EvStorageWrite (Some (Popup.toggleAutomation read))) m2 in
  let m4 := step 9000 EvToggle m3 in
  Reachable m4
  /\ List.map status (queue (st m1)) = [Sending; Queued]
  /\ List.map status (queue (st m2)) = [Queued]
  /\ List.map status (queue (st m3)) = [Sending; Queued]
  /\ isSubmitting (st m3) = false /\ pending m3 = []
  /\ List.map status (queue (st m4)) = [Sending; Sending]
  /\ countSending (queue (st m4)) = 2%nat
  /\ List.map id (pending m4) = ["b"].
Proof.
  intros a b m0 m1 read m2 m3 m4.
  split; [| vm_compute; repeat split].
  repeat (apply reach_step; [| exact I]). apply reach_boot.
  vm_compute. apply NoDup_cons. split; [| apply NoDup_singleton].
  intros H. apply list_elem_of_singleton in H. discriminate.
Qed.

(** ** Life cycle of an item *)

Lemma steps_Inv (m m' : Machine) : CalmSteps m m' -> Inv m -> Inv m'.
Proof.
  induction 1 as [m | m now e m' He U _ IH]; intros HI; [assumption |].
  apply IH. now apply step_good.
Qed.

Lemma steps_settled (m m' : Machine) (y : string) :
  CalmSteps m m' -> Inv m -> y ∈ issued m ->
  (statusOf y m = None -> statusOf y m' = None)
  /\ (statusOf y m = Some Error -> statusOf y m' = Some Error \/ statusOf y m' = None).
Proof.
  induction 1 as [m | m now e m' He U _ IH]; intros HI Hy; [auto |].
  destruct (step_good now e m HI He U) as (HI' & HM & Hiss).
  destruct (IH HI' (Hiss y Hy)) as (IHn & IHe).
  specialize (HM y Hy). split.
  - intros N. rewrite N in HM. inversion HM; subst. apply IHn. congruence.
  - intros E. rewrite E in HM.
    inversion HM; subst;
      first [ apply IHe; congruence | right; apply IHn; congruence ].
Qed.

(** C7, as amended.  For an instance that is alone on the storage key and
    whose context stays valid, and for every item the instance has held:
    each handler leaves the status as it is or makes one transition, with
    the event that makes it.  Queued to sending, and then a submission of
    the item is pending; sending to removed, when the submission of the item
    ends with a success answer; sending to queued, when it ends with a
    failure answer, or at a page load; sending to error, when it ends with a
    failure answer or an exception; any status to removed, by
    [removeFromQueue] called for the item; error to removed, by "Clear
    Errors".  Along every run, an item in error stays in error until it is
    removed, a removed item stays removed, and so neither is ever sending
    again. *)
Theorem status_life_cycle (m m' : Machine) (itemId : string) :
  Calm m -> itemId ∈ issued m -> CalmSteps m m' ->
  (forall now e, enabled now e m -> undisturbed e = true ->
     Transition m e itemId (statusOf itemId m) (statusOf itemId (step now e m))
     /\ (statusOf itemId (step now e m) = Some Sending ->
         exists p, p ∈ pending (step now e m) /\ id p = itemId))
  /\ (statusOf itemId m = None -> statusOf itemId m' = None)
  /\ (statusOf itemId m = Some Error ->
      statusOf itemId m' = Some Error \/ statusOf itemId m' = None)
  /\ (statusOf itemId m = None \/ statusOf itemId m = Some Error ->
      statusOf itemId m' <> Some Sending).
Proof.
  intros HR Hy HS. pose proof (calm_Inv m HR) as HI.
  destruct (steps_settled m m' itemId HS HI Hy) as (Hn & He).
  split; [| split; [exact Hn | split; [exact He |]]].
  - intros now e Hen U.
    destruct (step_good now e m HI Hen U) as (HI' & HM & _).
    split; [now apply HM |].
    unfold statusOf. intros E.
    destruct (findById itemId (queue (st (step now e m)))) as [i|] eqn:F;
      [| discriminate].
    injection E as E. apply findById_In in F as [Hi <-].
    exact (inv_sending _ HI' i Hi E).
  - intros [N | E].
    + rewrite (Hn N). discriminate.
    + destruct (He E) as [-> | ->]; discriminate.
Qed.

Lemma status_life_cycle_witness :
  let a := mkItem "a" "first" (JObj []) Error (JStr "Token needed") 1 1 1 in
  let m := boot (Some (mkStored (Some [a]) None None None None)) 1000 true (Some 5) true in
  let m' := step 3000 (EvPollOk 0) (step 2000 EvTick m) in
  statusOf "a" m = Some Error /\ statusOf "a" m' <> Some Sending.
Proof.
  intros a m m'.
  assert (R : Calm m).
  { apply calm_boot. vm_compute. apply NoDup_singleton. }
  assert (Hy : "a" ∈ issued m) by (vm_compute; apply list_elem_of_singleton; reflexivity).
  assert (HS : CalmSteps m m').
  { apply (calm_cons m 2000 EvTick); [exact I | reflexivity |].
    apply (calm_cons _ 3000 (EvPollOk 0)); [exact I | reflexivity |]. apply calm_nil. }
  destruct (status_life_cycle m m' "a" R Hy HS) as (_ & _ & _ & H).
  split; [reflexivity |]. apply H. right. reflexivity.
Defined.

(** C7 as first stated fails: the user removes a queued item, which goes
    from queued to removed without having been sending. *)
Lemma user_removal_skips_sending :
  let a := mkItem "a" "first" (JObj []) Queued JNull 0 1 1 in
  let m := boot (Some (mkStored (Some [a]) None None None None)) 1000 false None true in
  let m' := step 2000 (EvRemove "a") m in
  Reachable m /\ enabled 2000 (EvRemove "a") m
  /\ statusOf "a" m = Some Queued /\ statusOf "a" m' = None
  /\ ~ (statusOf "a" m = statusOf "a" m' \/ MoveStated (statusOf "a" m) (statusOf "a" m')).
Proof.
  intros a m m'.
  assert (R : Reachable m).
  { apply reach_boot. vm_compute. apply NoDup_singleton. }
  assert (E1 : statusOf "a" m = Some Queued) by reflexivity.
  assert (E2 : statusOf "a" m' = None) by reflexivity.
  repeat split; try assumption.
  rewrite E1, E2. intros [H | H]; [discriminate | inversion H].
Qed.

(** The conditions of the life cycle are needed.  After a stale write of
    the popup a removed item is back, as sending.  And once the context is
    invalidated [saveQueue] writes nothing: the item whose submission throws
    for that reason is in error in [state] and sending under the storage
    key, so the next page load queues it and it is sent again. *)
Lemma invalidated_error_is_sent_again :
  let a := mkItem "a" "first" (JObj []) Queued JNull 0 1 1 in
  let m0 := boot (Some (mkStored (Some [a]) None None None None)) 1000 true (Some 5) true in
  let m1 := step 2000 EvTick m0 in
  let m2 := step 3000 (EvResolve 0 (Threw "Extension context invalidated.")) m1 in
  let m3 := step 8000 (EvRestart true (Some 5) true) m2 in
  let m4 := step 9000 EvTick m3 in
  Reachable m4
  /\ statusOf "a" m1 = Some Sending
  /\ statusOf "a" m2 = Some Error
  /\ option_map (List.map status) (sd_queue (default emptyStored (stored m2))) = Some [Sending]
  /\ statusOf "a" m3 = Some Queued
  /\ statusOf "a" m4 = Some Sending.
Proof.
  intros a m0 m1 m2 m3 m4.
  split; [| vm_compute; repeat split].
  repeat (apply reach_step; [| exact I]). apply reach_boot.
  vm_compute. apply NoDup_singleton.
Qed.

(** So is the condition on notifications.  [addToQueue] writes the queue
    with the new item queued, and the [checkAndSubmit] it ends with writes
    it again with the item sending; the notification of the first write,
    which arrives after the second, puts the item back to queued in [state]
    while its submission is pending. *)
Lemma late_notification_requeues :
  let m0 := boot None 1000 true (Some 5) true in
  let item := newItem 2000 "first" JUndefined "r" in
  let first := stored (saveQueue (push item m0)) in
  let m1 := step 2000 (EvAdd "first" JUndefined "r") m0 in
  let m2 := step 2001 (EvStorageLate first) m1 in
  Reachable m2
  /\ option_map (List.map status) (sd_queue (default emptyStored first)) = Some [Queued]
  /\ statusOf (id item) m1 = Some Sending
  /\ statusOf (id item) m2 = Some Queued
  /\ List.map id (pending m2) = [id item].
Proof.
  intros m0 item first m1 m2.
  split; [| vm_compute; repeat split].
  apply reach_step; [| exact I]. apply reach_step.
  - apply reach_boot. vm_compute. apply NoDup_nil_2.
  - vm_compute. intros H. apply elem_of_nil in H. exact H.
Qed.

(** ** Validation of enqueued content *)

Lemma prompts_updateFirst (x : string) (s : Status) (msg : JValue) (now : Z)
    (q : list Item) :
  List.map prompt (updateFirst x (setStatus s msg now) q) = List.map prompt q.
Proof.
  induction q as [|a q IH]; simpl; [reflexivity |].
  destruct (String.eqb (id a) x); simpl; [reflexivity | now rewrite IH].
Qed.

Lemma ticked_prompts (now : Z) (m m' : Machine) :
  Ticked now m m' ->
  List.map prompt (queue (st m')) = List.map prompt (queue (st m)).
Proof.
  intros [(Q & _) | (item & _ & _ & Q & _)]; rewrite Q;
    [reflexivity | apply prompts_updateFirst].
Qed.

Lemma addToQueue_prompts (now : Z) (text : string) (options : JValue) (rnd : string)
    (m : Machine) :
  List.map prompt (queue (st (addToQueue now text options rnd m)))
  = List.map prompt (queue (st m)) ++ [trim text].
Proof.
  unfold addToQueue.
  rewrite (ticked_prompts now (saveQueue (push (newItem now text options rnd) m)))
    by (apply ticked_cas, ticked_ui, ticked_refl).
  simpl. now rewrite map_app.
Qed.

(** C9, as amended.  [addToQueue] itself does not validate; its callers do.
    Through the add button and through [queueCurrentPrompt], content that is
    empty or white space only changes nothing, and any other content enters
    the queue as one new last item whose prompt is the trimmed content, which
    is not empty. *)
Theorem enqueue_entry_points_validate (now : Z) (text orientation rnd : string)
    (m : Machine) :
  (allSpace text = true ->
   addBtn_click now text orientation rnd m = m
   /\ queueCurrentPrompt now (Some text) rnd m = m)
  /\ (allSpace text = false ->
      trim text <> "" /\ trim (trim text) = trim text
      /\ List.map prompt (queue (st (addBtn_click now text orientation rnd m)))
         = List.map prompt (queue (st m)) ++ [trim text]
      /\ List.map prompt (queue (st (queueCurrentPrompt now (Some text) rnd m)))
         = List.map prompt (queue (st m)) ++ [trim text]).
Proof.
  split.
  - intros H. apply trim_nil_iff in H.
    unfold addBtn_click, queueCurrentPrompt. rewrite H. simpl. now split.
  - intros H.
    assert (Hne : trim text <> "").
    { intros E. apply trim_nil_iff in E. congruence. }
    assert (Hb : negb (String.eqb (trim text) "") = true).
    { apply negb_true_iff. now apply String.eqb_neq. }
    split; [exact Hne |]. split; [apply trim_idem |].
    unfold addBtn_click, queueCurrentPrompt. rewrite Hb.
    rewrite !addToQueue_prompts. now rewrite trim_idem.
Qed.

Lemma enqueue_entry_points_validate_witness :
  let m := boot None 1000 false None true in
  addBtn_click 2000 "   " "portrait" "k3x9" m = m
  /\ List.map prompt (queue (st (addBtn_click 2000 "  a sunset  " "landscape" "k3x9" m)))
     = ["a sunset"].
Proof.
  intros m. split.
  - exact (proj1 (proj1 (enqueue_entry_points_validate 2000 "   " "portrait" "k3x9" m)
                    eq_refl)).
  - destruct (proj2 (enqueue_entry_points_validate 2000 "  a sunset  " "landscape" "k3x9" m)
                eq_refl) as (_ & _ & H & _).
    exact H.
Defined.

(** C9 as first stated fails: [addToQueue] called with white space only
    puts an item with empty content in the queue. *)
Lemma addToQueue_accepts_blank :
  let m := boot None 1000 false None true in
  queue (st m) = []
  /\ List.map prompt (queue (st (addToQueue 2000 "   " JUndefined "k3x9" m))) = [""]
  /\ queue (st (addToQueue 2000 "   " JUndefined "k3x9" m)) <> queue (st m).
Proof. vm_compute. repeat split. discriminate. Qed.

(** ** The defects in general form *)

(** A requeue after RATE_LIMIT_UNKNOWN leaves [retryCount] as it was, so the
    test [item.retryCount < 3] sees the same value at the next failure. *)
Lemma rate_limit_unknown_requeue (now : Z) (item i : Item) (result : JValue)
    (m : Machine) :
  isSubmitting (st m) = true ->
  prop result "error" = JStr "RATE_LIMIT_UNKNOWN" ->
  retryCount item < 3 ->
  findById (id item) (queue (st m)) = Some i ->
  findById (id item) (queue (st (handleSubmitError now item result m)))
  = Some (setStatus Queued JNull now i)
  /\ status (setStatus Queued JNull now i) = Queued
  /\ retryCount (setStatus Queued JNull now i) = retryCount i.
Proof.
  intros S Herr Hlt Hfind. split; [| split; reflexivity].
  assert (HC : Core (updateFirst (id item) (setStatus Queued JNull now)) m
                 (handleSubmitError now item result m)).
  { unfold handleSubmitError. rewrite Herr. cbn [strictEqStr].
    change (String.eqb "RATE_LIMIT_UNKNOWN" "CONCURRENT_LIMIT") with false.
    change (String.eqb "RATE_LIMIT_UNKNOWN" "DAILY_LIMIT") with false.
    change (String.eqb "RATE_LIMIT_UNKNOWN" "NO_TOKEN") with false.
    change (String.eqb "RATE_LIMIT_UNKNOWN" "TOKEN_STALE") with false.
    change (String.eqb "RATE_LIMIT_UNKNOWN" "AUTH_ERROR") with false.
    change (String.eqb "RATE_LIMIT_UNKNOWN" "RATE_LIMIT_UNKNOWN") with true.
    cbn [orb]. cbv iota.
    destruct (Z.ltb_spec (retryCount item) 3); [| lia].
    apply core_ui; [assumption |].
    apply (core_updateItemStatus now (fun q => q)); [assumption | apply core_refl]. }
  destruct HC as (Q & _). rewrite Q, findById_updateFirst by reflexivity.
  now rewrite String.eqb_refl, Hfind.
Qed.

Lemma cas_keeps_pause_fields (now : Z) (m : Machine) :
  dailyLimitResetTime (st (checkAndSubmit now m)) = dailyLimitResetTime (st m)
  /\ isPaused (st (checkAndSubmit now m)) = isPaused (st m)
  /\ pauseReason (st (checkAndSubmit now m)) = pauseReason (st m).
Proof.
  rewrite checkAndSubmit_eq.
  destruct (firstFailingGuard now (st m)); [now repeat split |].
  destruct (findQueued (queue (st m))); now repeat split.
Qed.

(** "Retry Now" and the toggle, pressed while paused for the daily limit,
    clear the pause and its reason and leave the reset time in place. *)
Lemma manual_resume_fields (now : Z) (m : Machine) :
  let m' := retryNow_click now m in
  isPaused (st m') = false /\ pauseReason (st m') = None
  /\ dailyLimitResetTime (st m') = dailyLimitResetTime (st m).
Proof.
  unfold retryNow_click.
  destruct (cas_keeps_pause_fields now (saveQueue (withSt resume m))) as (D & P & R).
  rewrite updateUI_running by (rewrite P; reflexivity).
  cbv zeta. rewrite D, P, R. repeat split.
Qed.

Lemma toggle_resume_fields (now : Z) (m : Machine) :
  isPaused (st m) = true -> isDailyPause (pauseReason (st m)) = true ->
  let m' := toggleAutomation_click now m in
  isPaused (st m') = false /\ pauseReason (st m') = None
  /\ dailyLimitResetTime (st m') = dailyLimitResetTime (st m).
Proof.
  intros Hp Hd. unfold toggleAutomation_click. rewrite Hp, Hd. simpl andb. cbv iota.
  exact (manual_resume_fields now m).
Qed.

(** While the reset time lies ahead the tick of a manual resume sends
    nothing. *)
Lemma manual_resume_blocked (now r : Z) (m : Machine) :
  dailyLimitResetTime (st m) = Some r -> r <> 0 -> now < r ->
  queue (st (retryNow_click now m)) = queue (st m)
  /\ pending (retryNow_click now m) = pending m
  /\ isSubmitting (st (retryNow_click now m)) = isSubmitting (st m).
Proof.
  intros Hr Hnz Hlt. unfold retryNow_click.
  assert (G : exists k, firstFailingGuard now (st (saveQueue (withSt resume m))) = Some k).
  { unfold firstFailingGuard. simpl. rewrite Hr. simpl.
    destruct (Z.eqb_spec r 0); [contradiction |].
    destruct (Z.ltb_spec now r); [| lia]. simpl.
    destruct (negb (isAutomationEnabled (st m))); [eauto |].
    destruct (isSubmitting (st m)); [eauto |].
    destruct (negb (hasValidToken (st m))); [eauto |].
    destruct (negb (isController (st m))); [eauto |].
    destruct (MAX_CONCURRENT_TASKS <=? activeTaskCount (st m)); eauto. }
  destruct G as [k G].
  rewrite (checkAndSubmit_eq now (saveQueue (withSt resume m))), G.
  rewrite updateUI_running by reflexivity. repeat split.
Qed.

(** * Further properties of the background and the content script *)

(** ** Storage areas *)

Lemma setAll_snoc (data : list (string * JValue)) (k : string) (v : JValue)
    (area : gmap string JValue) :
  setAll (data ++ [(k, v)]) area = <[k := v]> (setAll data area).
Proof. unfold setAll. now rewrite fold_left_app. Qed.

Lemma getKey_setAll (k : string) (data : list (string * JValue)) (area : gmap string JValue) :
  getKey (setAll data area) k
  = if existsb (String.eqb k) (List.map fst data) then assoc k (rev data) else getKey area k.
Proof.
  induction data as [|[k' v] data IH] using rev_ind; [reflexivity |].
  rewrite setAll_snoc, rev_unit, map_app, existsb_app. simpl.
  unfold getKey in *.
  destruct (String.eqb_spec k k') as [-> | Hne].
  - rewrite lookup_insert_eq, orb_true_r. reflexivity.
  - rewrite lookup_insert_ne by congruence. rewrite orb_false_r. exact IH.
Qed.

Lemma removeAll_snoc (keys : list string) (k : string) (area : gmap string JValue) :
  removeAll (keys ++ [k]) area = delete k (removeAll keys area).
Proof. unfold removeAll. now rewrite fold_left_app. Qed.

Lemma getKey_removeAll (k : string) (keys : list string) (area : gmap string JValue) :
  getKey (removeAll keys area) k
  = if existsb (String.eqb k) keys then JUndefined else getKey area k.
Proof.
  induction keys as [|k' keys IH] using rev_ind; [reflexivity |].
  rewrite removeAll_snoc, existsb_app. simpl. unfold getKey in *.
  destruct (String.eqb_spec k k') as [-> | Hne].
  - rewrite lookup_delete_eq, orb_true_r. reflexivity.
  - rewrite lookup_delete_ne by congruence. rewrite orb_false_r. exact IH.
Qed.

(** ** Objects *)

Lemma assoc_setField (k k' : string) (v : JValue) (fields : list (string * JValue)) :
  assoc k (setField k' v fields) = if String.eqb k k' then v else assoc k fields.
Proof.
  induction fields as [|[k0 v0] fields IH]; simpl.
  - now destruct (String.eqb k k').
  - destruct (String.eqb_spec k' k0) as [-> | Hne]; simpl.
    + now destruct (String.eqb k k0).
    + destruct (String.eqb_spec k k0) as [-> | Hne'].
      * destruct (String.eqb_spec k0 k'); [congruence | reflexivity].
      * exact IH.
Qed.

Lemma assoc_spread (k : string) (base over : list (string * JValue)) :
  NoDup (List.map fst over) ->
  assoc k (spread base over)
  = if existsb (String.eqb k) (List.map fst over) then assoc k over else assoc k base.
Proof.
  unfold spread. revert base.
  induction over as [|[k' v] over IH]; intros base Hnd; [reflexivity |].
  simpl in Hnd. apply NoDup_cons in Hnd as [Hnot Hnd].
  simpl. rewrite IH by assumption. rewrite assoc_setField.
  destruct (String.eqb_spec k k') as [-> | Hne]; simpl; [| reflexivity].
  destruct (existsb (String.eqb k') (List.map fst over)) eqn:E; [| reflexivity].
  exfalso. apply existsb_exists in E as (x & Hx & Ex).
  apply String.eqb_eq in Ex. subst x. apply Hnot. now apply list_elem_of_In.
Qed.

Lemma cleared_keys (st : Storage) (k : string) :
  existsb (String.eqb k) [TOKEN; DEVICE_ID; LANGUAGE; TOKEN_CAPTURED_AT] = true ->
  getKey (session (snd (clearToken st))) k = JUndefined
  /\ getKey (local (snd (clearToken st))) k = JUndefined.
Proof.
  intros H. unfold clearToken. cbn [snd session local]. rewrite !getKey_removeAll, H. now split.
Qed.

Lemma cleared_headers (st : Storage) :
  getCapturedHeaders (snd (clearToken st))
  = JObj [("success", JBool true); ("token", JNull); ("deviceId", JNull);
          ("language", JStr "en-US")].
Proof.
  unfold getCapturedHeaders.
  destruct (cleared_keys st TOKEN eq_refl) as [S1 L1].
  destruct (cleared_keys st DEVICE_ID eq_refl) as [S2 L2].
  destruct (cleared_keys st LANGUAGE eq_refl) as [S3 L3].
  rewrite S1. cbn [truthy]. rewrite L1, L2, L3. reflexivity.
Qed.

Lemma cleared_status (st : Storage) :
  getTokenStatus (snd (clearToken st))
  = JObj [("success", JBool true); ("hasToken", JBool false); ("capturedAt", JNull);
          ("tokenLength", JNum 0)].
Proof.
  unfold getTokenStatus.
  destruct (cleared_keys st TOKEN eq_refl) as [S1 L1].
  destruct (cleared_keys st TOKEN_CAPTURED_AT eq_refl) as [S2 L2].
  rewrite S1. cbn [truthy]. rewrite L1, L2. reflexivity.
Qed.

Lemma cleared_leader (st : Storage) : leader (snd (clearToken st)) = leader st.
Proof. unfold leader, clearToken. cbn [snd session local]. now rewrite getKey_removeAll. Qed.

(** Without a token [executeSubmitPrompt] refuses and sends nothing. *)
Lemma cleared_refuses (S2N : string -> option Z) (st : Storage)
    (payload fetched : JValue) (now : Z) :
  let st' := snd (clearToken st) in
  snd (executeSubmitPrompt S2N payload fetched now st') = st'
  /\ (prop (fst (executeSubmitPrompt S2N payload fetched now st')) "error" = JStr "NO_PROMPT"
      \/ prop (fst (executeSubmitPrompt S2N payload fetched now st')) "error" = JStr "NO_TOKEN")
  /\ prop (fst (executeSubmitPrompt S2N payload fetched now st')) "success" = JBool false.
Proof.
  intros st'. subst st'. unfold executeSubmitPrompt. rewrite cleared_headers.
  destruct (negb (truthy (prop (jor payload (JObj [])) "prompt")));
    simpl; repeat split; auto.
Qed.


(** The entries [setManualToken] and the capture listener write. *)
Lemma written_keys (token deviceId language : JValue) (now : Z) (area : gmap string JValue) :
  let data := [(TOKEN, token); (TOKEN_CAPTURED_AT, JNum now)]
              ++ (if truthy deviceId then [(DEVICE_ID, deviceId)] else [])
              ++ (if truthy language then [(LANGUAGE, language)] else []) in
  getKey (setAll data area) TOKEN = token
  /\ getKey (setAll data area) TOKEN_CAPTURED_AT = JNum now
  /\ getKey (setAll data area) DEVICE_ID
     = (if truthy deviceId then deviceId else getKey area DEVICE_ID)
  /\ getKey (setAll data area) LANGUAGE
     = (if truthy language then language else getKey area LANGUAGE)
  /\ getKey (setAll data area) CONTROLLER_TAB = getKey area CONTROLLER_TAB
  /\ getKey (setAll data area) CONTROLLER_HEARTBEAT = getKey area CONTROLLER_HEARTBEAT.
Proof.
  intros data. subst data. rewrite !getKey_setAll.
  destruct (truthy deviceId), (truthy language); repeat split.
Qed.

Lemma setManualToken_store (payload : JValue) (now : Z) (sessionOk : bool)
    (st : Storage) (t : string) :
  prop (jor payload (JObj [])) "token" = JStr t -> trim t <> "" ->
  let data := [(TOKEN, JStr (trim t)); (TOKEN_CAPTURED_AT, JNum now)]
              ++ (if truthy (prop (jor payload (JObj [])) "deviceId")
                  then [(DEVICE_ID, prop (jor payload (JObj [])) "deviceId")] else [])
              ++ (if truthy (prop (jor payload (JObj [])) "language")
                  then [(LANGUAGE, prop (jor payload (JObj [])) "language")] else []) in
  setManualToken payload now sessionOk st
  = (JObj [("success", JBool true); ("hasToken", JBool true)],
     if sessionOk
     then mkStorage (setAll data (session st)) (local st)
     else mkStorage (session st) (setAll data (local st))).
Proof.
  intros E Hne data. unfold setManualToken. rewrite E.
  assert (Ht : truthy (JStr t) = true).
  { simpl. apply negb_true_iff. apply String.eqb_neq.
    now apply trim_nonempty_source. }
  assert (Hl : (String.length (trim (strOf (JStr t))) =? 0)%nat = false).
  { simpl strOf. destruct (String.length (trim t) =? 0)%nat eqn:L; [| reflexivity].
    apply length_zero_iff in L. contradiction. }
  rewrite Ht, Hl. reflexivity.
Qed.

Lemma truthy_nonempty (s : string) : s <> "" -> truthy (JStr s) = true.
Proof. intros H. simpl. apply negb_true_iff. now apply String.eqb_neq. Qed.

(** X2.  A manual token that is accepted is the one the readers then find.
    After [setManualToken] with a token that is not blank, [getTokenStatus]
    reports a token; the token [getCapturedHeaders] returns is the trimmed
    one, unless the write went to the local area while the session area
    still holds a token, which then is the one read.  When the written area
    is the one read, the reported length is that of the trimmed token, the
    capture time is [now], and the device id is the payload's, or the one
    already in that area. *)
Theorem manual_token_round_trip (payload : JValue) (t : string) (now : Z)
    (sessionOk : bool) (st : Storage) :
  prop (jor payload (JObj [])) "token" = JStr t -> trim t <> "" ->
  let st' := snd (setManualToken payload now sessionOk st) in
  let deviceId := prop (jor payload (JObj [])) "deviceId" in
  let written := if sessionOk then session st else local st in
  prop (getCapturedHeaders st') "token"
  = (if sessionOk || negb (truthy (getKey (session st) TOKEN))
     then JStr (trim t) else getKey (session st) TOKEN)
  /\ prop (getTokenStatus st') "hasToken" = JBool true
  /\ (sessionOk || negb (truthy (getKey (session st) TOKEN)) = true ->
      prop (getTokenStatus st') "tokenLength" = JNum (Z.of_nat (String.length (trim t)))
      /\ prop (getTokenStatus st') "capturedAt" = (if now =? 0 then JNull else JNum now)
      /\ prop (getCapturedHeaders st') "deviceId"
         = jor (if truthy deviceId then deviceId else getKey written DEVICE_ID) JNull).
Proof.
  intros E Hne st' deviceId written. subst st' deviceId written.
  rewrite (setManualToken_store payload now sessionOk st t E Hne). cbn [snd].
  pose proof (truthy_nonempty _ Hne) as Ht.
  unfold getCapturedHeaders, getTokenStatus.
  destruct sessionOk; cbn [session local orb].
  - destruct (written_keys (JStr (trim t)) (prop (jor payload (JObj [])) "deviceId")
                (prop (jor payload (JObj [])) "language") now (session st))
      as (K1 & K2 & K3 & _).
    rewrite K1, Ht, K1, K2, K3. cbn [prop assoc String.eqb Ascii.eqb Bool.eqb lengthOf].
    unfold jor. rewrite Ht. repeat split.
    cbn [truthy]. now destruct (now =? 0).
  - destruct (written_keys (JStr (trim t)) (prop (jor payload (JObj [])) "deviceId")
                (prop (jor payload (JObj [])) "language") now (local st))
      as (K1 & K2 & K3 & _).
    destruct (truthy (getKey (session st) TOKEN)) eqn:Hs; cbn [negb].
    + cbn [prop assoc String.eqb Ascii.eqb Bool.eqb]. unfold jor. rewrite Hs.
      repeat split. all: try discriminate.
    + rewrite K1, Ht, K2, K3. cbn [prop assoc String.eqb Ascii.eqb Bool.eqb lengthOf].
      unfold jor. rewrite Ht. repeat split.
      cbn [truthy]. now destruct (now =? 0).
Qed.

Lemma manual_token_round_trip_witness :
  let st := mkStorage (<[TOKEN := JStr "old"]> (<[DEVICE_ID := JStr "dev-1"]> ∅)) ∅ in
  let st' := snd (setManualToken (JObj [("token", JStr "  abc ")]) 5 true st) in
  prop (getCapturedHeaders st') "token" = JStr "abc"
  /\ prop (getTokenStatus st') "tokenLength" = JNum 3
  /\ prop (getCapturedHeaders st') "deviceId" = JStr "dev-1".
Proof.
  intros st st'.
  destruct (manual_token_round_trip (JObj [("token", JStr "  abc ")]) "  abc " 5 true st
              eq_refl ltac:(discriminate)) as (A & _ & B).
  destruct (B eq_refl) as (B1 & _ & B3).
  repeat split; assumption.
Defined.

Lemma prop_ownFields (v : JValue) (k : string) : assoc k (ownFields v) = prop v k.
Proof. now destruct v. Qed.

Lemma strictEqNum_eq (v : JValue) (n : Z) : strictEqNum v n = true <-> v = JNum n.
Proof.
  destruct v; simpl; split; try discriminate.
  - intros H. apply Z.eqb_eq in H. now subst.
  - intros H. injection H as ->. apply Z.eqb_refl.
Qed.

(** The answer of [executeSubmitPrompt] to a 401 or 403. *)
Lemma executeSubmitPrompt_auth (S2N : string -> option Z) (payload fetched : JValue)
    (now : Z) (st : Storage) :
  truthy (prop (jor payload (JObj [])) "prompt") = true ->
  truthy (prop (getCapturedHeaders st) "token") = true ->
  truthy (prop fetched "success") = false ->
  prop fetched "status" = JNum 401 \/ prop fetched "status" = JNum 403 ->
  executeSubmitPrompt S2N payload fetched now st
  = (JObj (spread (ownFields fetched)
             [("error", JStr "AUTH_ERROR");
              ("message", JStr "Authentication failed. Please generate once manually to refresh token.")]),
     snd (clearToken st)).
Proof.
  intros Hp Ht Hs Hst. unfold executeSubmitPrompt. rewrite Hp, Ht.
  assert (exists fields, fetched = JObj fields) as [fields ->].
  { destruct fetched; try (destruct Hst; discriminate). now eexists. }
  rewrite Hs. cbn [negb andb]. destruct Hst as [-> | ->]; reflexivity.
Qed.

(** X3.  On a 401 or 403 answer of the service, [executeSubmitPrompt]
    reports AUTH_ERROR, keeping the status, success flag and data of the
    fetch result, and clears the stored token: no token is reported
    afterwards, the controller lease is untouched, and every later request
    is refused without changing the storage. *)
Theorem auth_error_drops_token (S2N : string -> option Z) (payload fetched : JValue)
    (now : Z) (st : Storage) :
  truthy (prop (jor payload (JObj [])) "prompt") = true ->
  truthy (prop (getCapturedHeaders st) "token") = true ->
  truthy (prop fetched "success") = false ->
  prop fetched "status" = JNum 401 \/ prop fetched "status" = JNum 403 ->
  let answer := fst (executeSubmitPrompt S2N payload fetched now st) in
  let st' := snd (executeSubmitPrompt S2N payload fetched now st) in
  prop answer "error" = JStr "AUTH_ERROR"
  /\ prop answer "status" = prop fetched "status"
  /\ prop answer "success" = prop fetched "success"
  /\ prop answer "data" = prop fetched "data"
  /\ prop (getTokenStatus st') "hasToken" = JBool false
  /\ leader st' = leader st
  /\ forall payload' fetched' now',
       prop (fst (executeSubmitPrompt S2N payload' fetched' now' st')) "success" = JBool false
       /\ snd (executeSubmitPrompt S2N payload' fetched' now' st') = st'.
Proof.
  intros Hp Ht Hs Hst answer st'. subst answer st'.
  rewrite (executeSubmitPrompt_auth S2N payload fetched now st Hp Ht Hs Hst).
  cbn [fst snd prop].
  assert (Hnd : NoDup (List.map fst
                  [("error", JStr "AUTH_ERROR");
                   ("message", JStr "Authentication failed. Please generate once manually to refresh token.")])).
  { simpl. apply NoDup_cons. split; [| apply NoDup_singleton].
    intros H. apply list_elem_of_singleton in H. discriminate. }
  rewrite !assoc_spread by exact Hnd. cbn [existsb List.map fst].
  change (String.eqb "error" "error") with true.
  change (String.eqb "status" "error") with false.
  change (String.eqb "status" "message") with false.
  change (String.eqb "success" "error") with false.
  change (String.eqb "success" "message") with false.
  change (String.eqb "data" "error") with false.
  change (String.eqb "data" "message") with false.
  cbn [orb]. rewrite !prop_ownFields.
  split; [reflexivity |]. split; [reflexivity |]. split; [reflexivity |].
  split; [reflexivity |]. split; [now rewrite cleared_status |].
  split; [apply cleared_leader |].
  intros payload' fetched' now'.
  destruct (cleared_refuses S2N st payload' fetched' now') as (D & _ & F).
  split; assumption.
Qed.

Lemma auth_error_drops_token_witness :
  let st := mkStorage (<[TOKEN := JStr "stale"]> ∅) (<[CONTROLLER_TAB := JNum 7]> ∅) in
  let payload := JObj [("prompt", JStr "a cat")] in
  let fetched := JObj [("success", JBool false); ("status", JNum 401); ("data", JNull)] in
  let out := executeSubmitPrompt (fun _ => None) payload fetched 5 st in
  prop (fst out) "error" = JStr "AUTH_ERROR"
  /\ prop (getTokenStatus (snd out)) "hasToken" = JBool false
  /\ leader (snd out) = JNum 7.
Proof.
  intros st payload fetched out.
  destruct (auth_error_drops_token (fun _ => None) payload fetched 5 st
              eq_refl eq_refl eq_refl (or_introl eq_refl)) as (A & _ & _ & _ & B & C & _).
  split; [exact A |]. split; [exact B | exact C].
Defined.

Ltac nodup_keys :=
  simpl;
  repeat (apply NoDup_cons; split;
          [ let H := fresh in
            intros H;
            repeat (apply elem_of_cons in H as [H | H]; [discriminate |]);
            now apply elem_of_nil in H
          | ]);
  apply NoDup_nil; exact I.

Lemma jor_truthy (a b : JValue) : truthy b = true -> truthy (jor a b) = true.
Proof. intros H. unfold jor. now destruct (truthy a) eqn:E. Qed.

(** The object [parse429Response] returns: its keys are distinct, none of
    them is a key of the fetch result, and [error] and [message] are set. *)
Lemma parse429_fields (S2N : string -> option Z) (data : JValue) (now : Z)
    (parsed : JValue) :
  parse429Response S2N data now = Some parsed ->
  exists fields,
    parsed = JObj fields
    /\ NoDup (List.map fst fields)
    /\ existsb (String.eqb "error") (List.map fst fields) = true
    /\ existsb (String.eqb "message") (List.map fst fields) = true
    /\ existsb (String.eqb "success") (List.map fst fields) = false
    /\ existsb (String.eqb "status") (List.map fst fields) = false
    /\ (assoc "error" fields = JStr "DAILY_LIMIT"
        \/ assoc "error" fields = JStr "CONCURRENT_LIMIT"
        \/ assoc "error" fields = JStr "RATE_LIMIT_UNKNOWN")
    /\ truthy (assoc "message" fields) = true.
Proof.
  unfold parse429Response.
  destruct (negb (truthy data)).
  { intros H. injection H as <-.
    eexists. split; [reflexivity |]. split; [nodup_keys |]. repeat split. auto. }
  destruct (isDailyLimit data).
  { cbv zeta. destruct (gtZero S2N _) as [k|]; [| discriminate].
    intros H. injection H as <-.
    eexists. split; [reflexivity |]. split; [nodup_keys |]. repeat split. auto. }
  destruct (isConcurrentLimit data) as [[]|]; [| | discriminate];
    intros H; injection H as <-;
    (eexists; split; [reflexivity |]; split; [nodup_keys |]; repeat split; [auto |];
     now apply jor_truthy).
Qed.

Lemma executeSubmitPrompt_429 (S2N : string -> option Z) (payload fetched : JValue)
    (now : Z) (st : Storage) :
  truthy (prop (jor payload (JObj [])) "prompt") = true ->
  truthy (prop (getCapturedHeaders st) "token") = true ->
  truthy (prop fetched "success") = false ->
  prop fetched "status" = JNum 429 ->
  executeSubmitPrompt S2N payload fetched now st
  = match parse429Response S2N (prop fetched "data") now with
    | Some parsed => (JObj (spread (ownFields fetched) (ownFields parsed)), st)
    | None => (caught NOT_PRIMITIVE, st)
    end.
Proof.
  intros Hp Ht Hs Hst. unfold executeSubmitPrompt. rewrite Hp, Ht.
  assert (exists fields, fetched = JObj fields) as [fields ->].
  { destruct fetched; try discriminate. now eexists. }
  rewrite Hs, Hst. reflexivity.
Qed.

(** X4.  On a 429 answer of the service, [executeSubmitPrompt] leaves the
    storage as it is and, when [parse429Response] returns, answers the fetch
    result with the fields of the classification over it: success and status
    are those of the fetch result, error is one of DAILY_LIMIT,
    CONCURRENT_LIMIT and RATE_LIMIT_UNKNOWN, and the message is the
    classifier's and is not empty.  When the classifier throws, the answer
    is the listener's error answer. *)
Theorem rate_limit_answer_is_classified (S2N : string -> option Z)
    (payload fetched : JValue) (now : Z) (st : Storage) :
  truthy (prop (jor payload (JObj [])) "prompt") = true ->
  truthy (prop (getCapturedHeaders st) "token") = true ->
  truthy (prop fetched "success") = false ->
  prop fetched "status" = JNum 429 ->
  let answer := fst (executeSubmitPrompt S2N payload fetched now st) in
  snd (executeSubmitPrompt S2N payload fetched now st) = st
  /\ match parse429Response S2N (prop fetched "data") now with
     | Some parsed =>
         prop answer "success" = prop fetched "success"
         /\ prop answer "status" = JNum 429
         /\ prop answer "error" = prop parsed "error"
         /\ (prop answer "error" = JStr "DAILY_LIMIT"
             \/ prop answer "error" = JStr "CONCURRENT_LIMIT"
             \/ prop answer "error" = JStr "RATE_LIMIT_UNKNOWN")
         /\ prop answer "message" = prop parsed "message"
         /\ truthy (prop answer "message") = true
     | None => answer = caught NOT_PRIMITIVE
     end.
Proof.
  intros Hp Ht Hs Hst answer. subst answer.
  rewrite (executeSubmitPrompt_429 S2N payload fetched now st Hp Ht Hs Hst).
  destruct (parse429Response S2N (prop fetched "data") now) as [parsed|] eqn:P;
    [| split; reflexivity].
  destruct (parse429_fields S2N (prop fetched "data") now parsed P)
    as (fields & -> & Hnd & K1 & K2 & K3 & K4 & Herr & Hmsg).
  cbn [fst snd prop ownFields].
  rewrite !assoc_spread by exact Hnd.
  rewrite K1, K2, K3, K4, !prop_ownFields.
  repeat split; assumption.
Qed.

Lemma rate_limit_answer_is_classified_witness :
  let st := mkStorage (<[TOKEN := JStr "token"]> ∅) ∅ in
  let fetched := JObj [("success", JBool false); ("status", JNum 429);
                       ("data", JStr "<html>Too Many Requests</html>")] in
  let out := executeSubmitPrompt (fun _ => None) (JObj [("prompt", JStr "a cat")])
               fetched 5 st in
  snd out = st /\ prop (fst out) "error" = JStr "RATE_LIMIT_UNKNOWN"
  /\ prop (fst out) "status" = JNum 429.
Proof.
  intros st fetched out.
  destruct (rate_limit_answer_is_classified (fun _ => None) (JObj [("prompt", JStr "a cat")])
              fetched 5 st eq_refl eq_refl eq_refl eq_refl) as (A & _ & B & C & _).
  split; [exact A |]. split; [exact C | exact B].
Defined.

(** The status [handleSubmitError] gives the item, by the error code. *)
Lemma handleSubmitError_verdict (now : Z) (item : Item) (result : JValue) (m : Machine) :
  isSubmitting (st m) = true ->
  let err := prop result "error" in
  let s := if strictEqStr err "CONCURRENT_LIMIT" || strictEqStr err "DAILY_LIMIT"
           then Queued
           else if strictEqStr err "RATE_LIMIT_UNKNOWN" && (retryCount item <? 3)
           then Queued
           else Error in
  exists msg,
    Core (updateFirst (id item) (setStatus s msg now)) m
         (handleSubmitError now item result m).
Proof.
  intros S err s. subst err s. unfold handleSubmitError.
  destruct (prop result "error") as [| | | |e| |];
    try (eexists; cbn [strictEqStr orb andb];
         apply core_ui; [assumption |];
         apply (core_updateItemStatus now (fun q => q)); [assumption | apply core_refl]).
  cbn [strictEqStr].
  destruct (String.eqb e "CONCURRENT_LIMIT") eqn:E1.
  { exists JNull. cbn [orb]. apply core_ui; [assumption |].
    apply core_withSt; [intros; reflexivity | intros; reflexivity |].
    apply (core_updateItemStatus now (fun q => q)); [assumption | apply core_refl]. }
  destruct (String.eqb e "DAILY_LIMIT") eqn:E2.
  { exists JNull. cbn [orb]. apply core_ui; [assumption |]. apply core_save.
    match goal with
    | |- Core _ m (updateItemStatus now ?x ?s ?msg (withSt ?g m)) =>
        destruct (core_updateItemStatus now (fun q => q) x s msg (withSt g m) (withSt g m))
          as (Q & B & P & I); [exact S | apply core_refl |]
    end.
    repeat split; assumption. }
  cbn [orb].
  destruct (String.eqb e "NO_TOKEN" || String.eqb e "TOKEN_STALE"
            || String.eqb e "AUTH_ERROR") eqn:E3.
  { assert (E4 : String.eqb e "RATE_LIMIT_UNKNOWN" = false).
    { destruct (String.eqb_spec e "RATE_LIMIT_UNKNOWN") as [-> | _]; [discriminate | reflexivity]. }
    rewrite E4. cbn [andb]. exists (JStr "Token needed").
    apply core_ui; [assumption |].
    match goal with
    | |- Core _ m (updateItemStatus now ?x ?s ?msg (withSt ?g m)) =>
        destruct (core_updateItemStatus now (fun q => q) x s msg (withSt g m) (withSt g m))
          as (Q & B & P & I); [exact S | apply core_refl |]
    end.
    repeat split; assumption. }
  destruct (String.eqb e "RATE_LIMIT_UNKNOWN").
  { cbn [andb]. destruct (retryCount item <? 3); eexists;
      (apply core_ui; [assumption |];
       apply (core_updateItemStatus now (fun q => q)); [assumption | apply core_refl]). }
  cbn [andb]. eexists. apply core_ui; [assumption |].
  apply (core_updateItemStatus now (fun q => q)); [assumption | apply core_refl].
Qed.

Lemma statusOf_updateFirst (x : string) (s : Status) (msg : JValue) (now : Z)
    (q : list Item) :
  option_map status (findById x (updateFirst x (setStatus s msg now) q))
  = option_map (fun _ => s) (findById x q).
Proof.
  rewrite findById_updateFirst by reflexivity. rewrite String.eqb_refl.
  now destruct (findById x q).
Qed.

(** The status of the item once its submission is answered with an object. *)
Lemma submitResolved_status (now : Z) (item : Item) (fields : list (string * JValue))
    (m : Machine) :
  isSubmitting (st m) = true -> NoDup (ids (queue (st m))) ->
  let err := assoc "error" fields in
  let m' := submitResolved now item (Responded (JObj fields)) m in
  statusOf (id item) m'
  = match statusOf (id item) m with
    | None => None
    | Some _ =>
        if truthy (assoc "success" fields) then None
        else if strictEqStr err "CONCURRENT_LIMIT" || strictEqStr err "DAILY_LIMIT"
        then Some Queued
        else if strictEqStr err "RATE_LIMIT_UNKNOWN" && (retryCount item <? 3)
        then Some Queued
        else Some Error
    end
  /\ isSubmitting (st m') = false
  /\ pending m' = pending m.
Proof.
  intros S Hnd err m'. subst err m'. unfold submitResolved, statusOf.
  cbn [prop withSt st queue isSubmitting setSubmitting pending].
  destruct (truthy (assoc "success" fields)).
  - assert (HC : Core (fun q => match findIndex (id item) q with
                                | Some index => spliceOne index q
                                | None => q
                                end) m
                   (updateUI now
                      (withSt (fun x => setActiveTaskCount (activeTaskCount x + 1) x)
                         (removeFromQueue now (id item) m)))).
    { apply core_ui; [assumption |].
      apply core_withSt; [intros; reflexivity | intros; reflexivity |].
      now apply core_removeFromQueue. }
    destruct HC as (Q & B & P & I). rewrite Q, P.
    split; [| split; reflexivity].
    destruct (findIndex (id item) (queue (st m))) as [index|] eqn:F.
    + rewrite (findIndex_splice _ _ _ Hnd F). now destruct (findById _ _).
    + now rewrite (findIndex_None _ _ F).
  - destruct (handleSubmitError_verdict now item (JObj fields) m S) as (msg & Q & B & P & I).
    cbn [prop] in Q. rewrite Q, P, statusOf_updateFirst.
    split; [| split; reflexivity].
    destruct (findById (id item) (queue (st m))); [| reflexivity].
    cbn [option_map].
    destruct (strictEqStr (assoc "error" fields) "CONCURRENT_LIMIT"
              || strictEqStr (assoc "error" fields) "DAILY_LIMIT"); [reflexivity |].
    now destruct (strictEqStr (assoc "error" fields) "RATE_LIMIT_UNKNOWN"
                  && (retryCount item <? 3)).
Qed.

Lemma executeSubmitPrompt_through (S2N : string -> option Z) (payload : JValue)
    (fields : list (string * JValue)) (now : Z) (st : Storage) :
  let fetched := JObj fields in
  truthy (prop (jor payload (JObj [])) "prompt") = true ->
  truthy (prop (getCapturedHeaders st) "token") = true ->
  truthy (prop fetched "success") = true
  \/ (strictEqNum (prop fetched "status") 429 = false
      /\ strictEqNum (prop fetched "status") 401 = false
      /\ strictEqNum (prop fetched "status") 403 = false) ->
  executeSubmitPrompt S2N payload fetched now st = (fetched, st).
Proof.
  intros fetched Hp Ht H. unfold executeSubmitPrompt. rewrite Hp, Ht. cbn [negb].
  subst fetched. cbv iota.
  destruct H as [-> | (-> & -> & ->)]; [reflexivity |].
  now rewrite !andb_false_r.
Qed.

Lemma executeInMainWorld_injected (tabId : option Z) (result : JValue) :
  noTab tabId = false -> executeInMainWorld tabId (injected result) = result.
Proof. intros H. unfold executeInMainWorld, injected. now rewrite H. Qed.

Lemma inv_in_flight (m : Machine) (item : Item) :
  Inv m -> pending m = [item] -> isSubmitting (st m) = true.
Proof.
  intros HI Hp. pose proof (inv_flight m HI) as H.
  destruct (isSubmitting (st m)); [reflexivity |]. rewrite Hp in H. discriminate.
Qed.

(** X5.  What becomes of the item in flight, by the response of the service,
    for an instance that is alone on its storage key, with a tab id, a
    prompt that is not empty and a stored token.  A rejected fetch: error.
    A success response: removed.  A 429: queued again, except that an
    unknown rate limit with three retries used, or a classifier that throws,
    gives error.  Any other failure: error.  An item the user has removed
    meanwhile stays removed.  Afterwards nothing is pending and
    [isSubmitting] is cleared; the background's storage changes only on 401
    and 403, where the token is cleared. *)
Theorem submission_outcome (S2N : string -> option Z) (tabId : option Z) (r : Response)
    (now now' : Z) (bg : Storage) (m : Machine) (item : Item) :
  Calm m -> pending m = [item] ->
  noTab tabId = false -> prompt item <> "" ->
  truthy (prop (getCapturedHeaders bg) "token") = true ->
  let out := Tab.submitAnswered S2N tabId (injected (submitInPage r)) now now' bg m in
  let data := match r with Answered _ _ (Parsed d) => d | _ => JObj [] end in
  let verdict :=
    match r with
    | Rejected _ => Some Error
    | Answered true _ _ => None
    | Answered false status _ =>
        if status =? 429 then
          match parse429Response S2N data now with
          | Some parsed =>
              if strictEqStr (prop parsed "error") "RATE_LIMIT_UNKNOWN"
                 && (3 <=? retryCount item)
              then Some Error else Some Queued
          | None => Some Error
          end
        else Some Error
    end in
  statusOf (id item) (snd out)
  = match statusOf (id item) m with None => None | Some _ => verdict end
  /\ isSubmitting (st (snd out)) = false
  /\ pending (snd out) = []
  /\ fst out = match r with
               | Answered false status _ =>
                   if (status =? 401) || (status =? 403) then snd (clearToken bg) else bg
               | _ => bg
               end.
Proof.
  intros HR Hpend Htab Hprompt Htoken out data verdict.
  pose proof (calm_Inv m HR) as HI.
  pose proof (inv_in_flight m item HI Hpend) as S.
  pose proof (inv_nodup m HI) as Hnd.
  assert (Hp : truthy (prop (jor (JObj [("prompt", JStr (prompt item)); ("options", options item)])
                                 (JObj [])) "prompt") = true).
  { cbn. apply negb_true_iff. now apply String.eqb_neq. }
  set (m0 := mkMachine (st m) (stored m) [] (issued m)).
  assert (Hres : forall fields,
            let m' := submitResolved now' item (Responded (JObj fields)) m0 in
            statusOf (id item) m'
            = match statusOf (id item) m with
              | None => None
              | Some _ =>
                  if truthy (assoc "success" fields) then None
                  else if strictEqStr (assoc "error" fields) "CONCURRENT_LIMIT"
                          || strictEqStr (assoc "error" fields) "DAILY_LIMIT"
                  then Some Queued
                  else if strictEqStr (assoc "error" fields) "RATE_LIMIT_UNKNOWN"
                          && (retryCount item <? 3)
                  then Some Queued
                  else Some Error
              end
            /\ isSubmitting (st m') = false /\ pending m' = []).
  { intros fields. exact (submitResolved_status now' item fields m0 S Hnd). }
  subst out. unfold Tab.submitAnswered. rewrite Hpend.
  rewrite (executeInMainWorld_injected tabId _ Htab). fold m0.
  destruct r as [message | ok status body].
  - (* fetch rejected *)
    cbn [submitInPage].
    rewrite executeSubmitPrompt_through; [| exact Hp | exact Htoken | right; repeat split].
    cbn [fst snd].
    destruct (Hres [("success", JBool false); ("error", JStr "NETWORK_ERROR");
                    ("message", JStr message)]) as (A & B & C).
    rewrite A. repeat split; try assumption.
  - destruct ok.
    + cbn [submitInPage].
      rewrite executeSubmitPrompt_through; [| exact Hp | exact Htoken | left; reflexivity].
      cbn [fst snd].
      match goal with
      | |- context [Responded (JObj ?f)] => destruct (Hres f) as (A & B & C)
      end.
      rewrite A. repeat split; try assumption.
    + subst verdict. cbv beta iota.
      set (fetched := submitInPage (Answered false status body)).
      assert (Hs : truthy (prop fetched "success") = false) by reflexivity.
      assert (Hst : prop fetched "status" = JNum status) by reflexivity.
      assert (Hd : prop fetched "data" = data) by (subst data; now destruct body).
      destruct (Z.eqb_spec status 429) as [E429 | N429].
      * (* rate limit *)
        assert (H1 : (status =? 401) = false) by (subst; reflexivity).
        assert (H3 : (status =? 403) = false) by (subst; reflexivity).
        rewrite H1, H3. cbn [orb].
        rewrite (executeSubmitPrompt_429 S2N _ fetched now bg Hp Htoken Hs)
          by (rewrite Hst; now subst).
        rewrite Hd.
        destruct (parse429Response S2N data now) as [parsed|] eqn:P.
        2:{ cbn [fst snd]. unfold caught.
            match goal with
            | |- context [Responded (JObj ?f)] => destruct (Hres f) as (A & B & C)
            end.
            rewrite A. split; [| repeat split; assumption].
            now destruct (statusOf (id item) m). }
        cbn [fst snd].
        destruct (parse429_fields S2N data now parsed P)
          as (fields & -> & Hnd' & K1 & K2 & K3 & K4 & Herr & _).
        cbn [ownFields prop].
        destruct (Hres (spread (ownFields fetched) fields)) as (A & B & C).
        rewrite A. split; [| repeat split; assumption].
        destruct (statusOf (id item) m); [| reflexivity].
        rewrite !assoc_spread by exact Hnd'. rewrite K1, K3, prop_ownFields, Hs.
        destruct Herr as [-> | [-> | ->]]; cbn [strictEqStr]; try reflexivity.
        change (String.eqb "RATE_LIMIT_UNKNOWN" "CONCURRENT_LIMIT") with false.
        change (String.eqb "RATE_LIMIT_UNKNOWN" "DAILY_LIMIT") with false.
        change (String.eqb "RATE_LIMIT_UNKNOWN" "RATE_LIMIT_UNKNOWN") with true.
        cbn [orb andb].
        destruct (Z.ltb_spec (retryCount item) 3); destruct (Z.leb_spec 3 (retryCount item));
          try lia; reflexivity.
      * destruct (Z.eqb_spec status 401) as [E401 | N401];
          [| destruct (Z.eqb_spec status 403) as [E403 | N403]]; cbn [orb].
        -- rewrite (executeSubmitPrompt_auth S2N _ fetched now bg Hp Htoken Hs)
             by (left; rewrite Hst; now subst).
           cbn [fst snd].
           match goal with
           | |- context [Responded (JObj ?f)] => destruct (Hres f) as (A & B & C)
           end.
           rewrite A. split; [| repeat split; assumption].
           destruct (statusOf (id item) m); [| reflexivity].
           rewrite !assoc_spread by nodup_keys. reflexivity.
        -- rewrite (executeSubmitPrompt_auth S2N _ fetched now bg Hp Htoken Hs)
             by (right; rewrite Hst; now subst).
           cbn [fst snd].
           match goal with
           | |- context [Responded (JObj ?f)] => destruct (Hres f) as (A & B & C)
           end.
           rewrite A. split; [| repeat split; assumption].
           destruct (statusOf (id item) m); [| reflexivity].
           rewrite !assoc_spread by nodup_keys. reflexivity.
        -- subst fetched. cbn [submitInPage].
           rewrite executeSubmitPrompt_through; [| exact Hp | exact Htoken |].
           2:{ right. cbn [prop assoc String.eqb Ascii.eqb Bool.eqb strictEqNum].
               repeat split; now apply Z.eqb_neq. }
           cbn [fst snd].
           match goal with
           | |- context [Responded (JObj ?f)] => destruct (Hres f) as (A & B & C)
           end.
           rewrite A. repeat split; try assumption.
Qed.

Lemma submission_outcome_witness :
  let a := mkItem "a" "first" (JObj []) Queued JNull 0 1 1 in
  let m := step 2000 EvTick
             (boot (Some (mkStored (Some [a]) None None None None)) 1000 true (Some 5) true) in
  let bg := mkStorage (<[TOKEN := JStr "token"]> ∅) ∅ in
  let out := Tab.submitAnswered (fun _ => None) (Some 7)
               (injected (submitInPage (Answered false 500 (Parsed (JObj [])))))
               2100 2200 bg m in
  statusOf "a" m = Some Sending /\ statusOf "a" (snd out) = Some Error /\ fst out = bg.
Proof.
  intros a m bg out.
  assert (R : Calm m).
  { apply calm_step; [| exact I | reflexivity]. apply calm_boot.
    vm_compute. apply NoDup_singleton. }
  destruct (submission_outcome (fun _ => None) (Some 7) (Answered false 500 (Parsed (JObj [])))
              2100 2200 bg m a R eq_refl eq_refl ltac:(discriminate) eq_refl)
    as (A & _ & _ & D).
  split; [reflexivity |]. split; [exact A | exact D].
Defined.

Lemma scanHeaders_snoc (headers : list Header) (h : Header) :
  scanHeaders (headers ++ [h]) = scanHeader (scanHeaders headers) h.
Proof. unfold scanHeaders. now rewrite fold_left_app. Qed.

(** X6.  The scan of the request headers picks, for each of the three header
    names, the value of the last header with that name, names compared
    without regard to letter case, and [null] when there is none. *)
Theorem scanHeaders_last_wins (headers : list Header) :
  let pick n :=
    match find (fun h => String.eqb (toLowerCase (name h)) n) (rev headers) with
    | Some h => value h
    | None => JNull
    end in
  scanHeaders headers
  = (pick "openai-sentinel-token", pick "oai-device-id", pick "oai-language").
Proof.
  intros pick. subst pick.
  induction headers as [|h headers IH] using rev_ind; [reflexivity |].
  rewrite scanHeaders_snoc, rev_unit, IH. cbn [find]. unfold scanHeader.
  destruct (String.eqb_spec (toLowerCase (name h)) "openai-sentinel-token") as [E1 | N1].
  { rewrite E1. reflexivity. }
  destruct (String.eqb_spec (toLowerCase (name h)) "oai-device-id") as [E2 | N2].
  { rewrite E2. reflexivity. }
  destruct (String.eqb_spec (toLowerCase (name h)) "oai-language") as [E3 | N3];
    reflexivity.
Qed.

Lemma capture_ignored (method : string) (requestHeaders : option (list Header))
    (now : Z) (sessionOk : bool) (st : Storage) :
  method <> "POST"
  \/ truthy (fst (fst (scanHeaders (default [] requestHeaders)))) = false ->
  onBeforeSendHeaders method requestHeaders now sessionOk st = (st, []).
Proof.
  intros H. unfold onBeforeSendHeaders.
  destruct (String.eqb_spec method "POST") as [-> | Hne]; [| reflexivity].
  destruct H as [H | H]; [congruence |]. cbn [negb].
  destruct (scanHeaders (default [] requestHeaders)) as [[s d] l].
  cbn [fst] in H. now rewrite H.
Qed.

(** X7.  The header listener ignores a request that is not a POST or has no
    sentinel token: nothing is stored and no tab is notified.  Otherwise a
    token is reported afterwards; the token read back is the captured one,
    unless the write went to the local area while the session area still
    holds a token; the tabs are notified of the capture only when the
    session write succeeded; the controller lease is untouched. *)
Theorem capture_round_trip (method : string) (requestHeaders : option (list Header))
    (now : Z) (sessionOk : bool) (st : Storage) :
  let sentinel := fst (fst (scanHeaders (default [] requestHeaders))) in
  let deviceId := snd (fst (scanHeaders (default [] requestHeaders))) in
  let out := onBeforeSendHeaders method requestHeaders now sessionOk st in
  let written := if sessionOk then session st else local st in
  (method <> "POST" \/ truthy sentinel = false -> out = (st, []))
  /\ (method = "POST" -> truthy sentinel = true ->
      prop (getCapturedHeaders (fst out)) "token"
      = (if sessionOk || negb (truthy (getKey (session st) TOKEN))
         then sentinel else getKey (session st) TOKEN)
      /\ prop (getTokenStatus (fst out)) "hasToken" = JBool true
      /\ (sessionOk || negb (truthy (getKey (session st) TOKEN)) = true ->
          prop (getCapturedHeaders (fst out)) "deviceId"
          = jor (if truthy deviceId then deviceId else getKey written DEVICE_ID) JNull)
      /\ snd out = (if sessionOk
                    then [JObj [("type", JStr "TOKEN_CAPTURED"); ("hasToken", JBool true)]]
                    else [])
      /\ leader (fst out) = leader st).
Proof.
  intros sentinel deviceId out written. subst sentinel deviceId out written.
  split; [apply capture_ignored |].
  intros -> Ht. unfold onBeforeSendHeaders. cbn [String.eqb Ascii.eqb Bool.eqb negb].
  change (String.eqb "POST" "POST") with true. cbn [negb].
  destruct (scanHeaders (default [] requestHeaders)) as [[s d] l].
  cbn [fst snd] in *. rewrite Ht.
  unfold getCapturedHeaders, getTokenStatus, leader.
  destruct sessionOk; cbn [fst snd session local orb].
  - destruct (written_keys s d l now (session st)) as (K1 & K2 & K3 & _).
    rewrite K1, Ht, K1, K3. cbn [prop assoc String.eqb Ascii.eqb Bool.eqb].
    unfold jor. rewrite Ht. repeat split.
  - destruct (written_keys s d l now (local st)) as (K1 & K2 & K3 & _ & K5 & _).
    rewrite K5.
    destruct (truthy (getKey (session st) TOKEN)) eqn:Hs; cbn [negb].
    + cbn [prop assoc String.eqb Ascii.eqb Bool.eqb]. unfold jor. rewrite Hs.
      repeat split. all: try discriminate.
    + rewrite K1, Ht, K3. cbn [prop assoc String.eqb Ascii.eqb Bool.eqb].
      unfold jor. rewrite Ht. repeat split.
Qed.

Lemma capture_round_trip_witness :
  let headers := [mkHeader "Accept" (JStr "application/json");
                  mkHeader "OpenAI-Sentinel-Token" (JStr "t1");
                  mkHeader "openai-sentinel-token" (JStr "t2")] in
  let st := mkStorage ∅ ∅ in
  let out := onBeforeSendHeaders "POST" (Some headers) 5 true st in
  onBeforeSendHeaders "GET" (Some headers) 5 true st = (st, [])
  /\ prop (getCapturedHeaders (fst out)) "token" = JStr "t2".
Proof.
  intros headers st out.
  destruct (capture_round_trip "GET" (Some headers) 5 true st) as [A _].
  destruct (capture_round_trip "POST" (Some headers) 5 true st) as [_ B].
  split.
  - apply A. left. discriminate.
  - destruct (B eq_refl eq_refl) as (B1 & _). exact B1.
Defined.

Lemma leader_claim (tabId : option Z) (now : Z) (st : Storage) :
  leader (claim tabId now st) = JNum (tabNum tabId)
  /\ getKey (local (claim tabId now st)) CONTROLLER_HEARTBEAT = JNum now
  /\ session (claim tabId now st) = session st.
Proof.
  unfold leader, claim. cbn [local session]. rewrite !getKey_setAll. repeat split.
Qed.

Lemma strictEqNum_refl (n : Z) : strictEqNum (JNum n) n = true.
Proof. apply Z.eqb_refl. Qed.

Lemma staleness_primitive (S2N : string -> option Z) (now : Z) (v : JValue) :
  isPrimitive v = true ->
  staleness S2N now (jor v (JNum 0)) = Some (stale S2N now (jor v (JNum 0))).
Proof.
  intros P. unfold stale, staleness.
  destruct (ToNumber_primitive S2N (jor v (JNum 0))) as [k ->]; [| reflexivity].
  unfold jor. now destruct (truthy v).
Qed.

(** What [registerController] answers and what it leaves in storage, when
    the stored heartbeat is not an object. *)
Lemma registerController_cases (S2N : string -> option Z) (tabExists : JValue -> bool)
    (tabId : option Z) (now : Z) (st : Storage) :
  noTab tabId = false ->
  isPrimitive (getKey (local st) CONTROLLER_HEARTBEAT) = true ->
  let takes := negb (truthy (leader st))
               || stale S2N now (jor (getKey (local st) CONTROLLER_HEARTBEAT) (JNum 0))
               || negb (tabExists (leader st)) in
  registerController S2N tabExists tabId now st
  = if takes
    then (JObj [("success", JBool true); ("isController", JBool true)], claim tabId now st)
    else if strictEqNum (leader st) (tabNum tabId)
    then (JObj [("success", JBool true); ("isController", JBool true)], st)
    else (JObj [("success", JBool true); ("isController", JBool false);
                ("controllerId", leader st)], st).
Proof.
  intros Ht P takes. subst takes. unfold registerController, leader.
  rewrite Ht, (staleness_primitive S2N now _ P).
  destruct (negb (truthy (getKey (local st) CONTROLLER_TAB))); [reflexivity |].
  cbn [orb].
  destruct (stale S2N now (jor (getKey (local st) CONTROLLER_HEARTBEAT) (JNum 0)));
    [reflexivity |].
  cbn [orb]. now destruct (tabExists (getKey (local st) CONTROLLER_TAB)).
Qed.

Lemma registerController_coherent (S2N : string -> option Z)
    (tabExists : JValue -> bool) (tabId : option Z) (now : Z) (st : Storage) :
  noTab tabId = false ->
  isPrimitive (getKey (local st) CONTROLLER_HEARTBEAT) = true ->
  let out := registerController S2N tabExists tabId now st in
  truthy (prop (fst out) "isController") = strictEqNum (leader (snd out)) (tabNum tabId)
  /\ (truthy (prop (fst out) "isController") = false ->
      snd out = st /\ prop (fst out) "controllerId" = leader st
      /\ truthy (leader st) = true /\ tabExists (leader st) = true)
  /\ (leader (snd out) = leader st \/ leader (snd out) = JNum (tabNum tabId))
  /\ session (snd out) = session st.
Proof.
  intros Ht P out. subst out.
  rewrite (registerController_cases S2N tabExists tabId now st Ht P).
  destruct (leader_claim tabId now st) as (L & _ & Ss).
  destruct (truthy (leader st)) eqn:T; cbn [negb orb].
  2:{ cbn [fst snd prop assoc String.eqb Ascii.eqb Bool.eqb truthy].
      rewrite L, strictEqNum_refl. repeat split; auto; intros; discriminate. }
  destruct (stale S2N now _); cbn [orb].
  { cbn [fst snd prop assoc String.eqb Ascii.eqb Bool.eqb truthy].
    rewrite L, strictEqNum_refl. repeat split; auto; intros; discriminate. }
  destruct (tabExists (leader st)) eqn:X; cbn [negb].
  2:{ cbn [fst snd prop assoc String.eqb Ascii.eqb Bool.eqb truthy].
      rewrite L, strictEqNum_refl. repeat split; auto; intros; discriminate. }
  destruct (strictEqNum (leader st) (tabNum tabId)) eqn:Q;
    cbn [fst snd prop assoc String.eqb Ascii.eqb Bool.eqb truthy]; rewrite ?Q;
    repeat split; auto; intros; discriminate.
Qed.

(** X8.  For a caller with a tab id and a stored heartbeat that is not an
    object, the answer of [registerController] agrees with the lease it
    leaves: the caller is told it is the controller exactly when the stored
    controller is then the caller.  When it is told it is not, nothing was
    written, the controller reported is the stored one, and that tab exists.
    The lease either stays with its holder or goes to the caller; the
    session area is untouched. *)
Theorem registerController_answer_matches_lease (S2N : string -> option Z)
    (tabExists : JValue -> bool) (tabId : option Z) (now : Z) (st : Storage) :
  noTab tabId = false ->
  isPrimitive (getKey (local st) CONTROLLER_HEARTBEAT) = true ->
  let out := registerController S2N tabExists tabId now st in
  truthy (prop (fst out) "isController") = strictEqNum (leader (snd out)) (tabNum tabId)
  /\ (truthy (prop (fst out) "isController") = false ->
      snd out = st /\ prop (fst out) "controllerId" = leader st
      /\ truthy (leader st) = true /\ tabExists (leader st) = true)
  /\ (leader (snd out) = leader st \/ leader (snd out) = JNum (tabNum tabId))
  /\ session (snd out) = session st.
Proof. exact (registerController_coherent S2N tabExists tabId now st). Qed.

Lemma registerController_answer_matches_lease_witness :
  let st := mkStorage ∅ (<[CONTROLLER_TAB := JNum 1]> (<[CONTROLLER_HEARTBEAT := JNum 15000]> ∅)) in
  let out := registerController (fun _ => None) (fun _ => true) (Some 2) 20000 st in
  truthy (prop (fst out) "isController") = false /\ leader (snd out) = JNum 1.
Proof.
  intros st out.
  destruct (registerController_answer_matches_lease (fun _ => None) (fun _ => true)
              (Some 2) 20000 st eq_refl eq_refl) as (A & B & _).
  subst out. split; [reflexivity |]. destruct (B eq_refl) as (-> & _). reflexivity.
Defined.

Lemma handleHeartbeat_cases (tabId : option Z) (now : Z) (st : Storage) :
  handleHeartbeat tabId now st
  = if noTab tabId then (JObj [("success", JBool false)], st)
    else if strictEqNum (leader st) (tabNum tabId)
    then (JObj [("success", JBool true); ("isController", JBool true)],
          mkStorage (session st) (setAll [(CONTROLLER_HEARTBEAT, JNum now)] (local st)))
    else (JObj [("success", JBool true); ("isController", JBool false)], st).
Proof. reflexivity. Qed.

Lemma heartbeat_effect (tabId : option Z) (now : Z) (st : Storage) :
  let out := handleHeartbeat tabId now st in
  leader (snd out) = leader st
  /\ session (snd out) = session st
  /\ truthy (prop (fst out) "isController")
     = negb (noTab tabId) && strictEqNum (leader st) (tabNum tabId)
  /\ getKey (local (snd out)) CONTROLLER_HEARTBEAT
     = (if negb (noTab tabId) && strictEqNum (leader st) (tabNum tabId)
        then JNum now else getKey (local st) CONTROLLER_HEARTBEAT).
Proof.
  intros out. subst out. rewrite handleHeartbeat_cases.
  destruct (noTab tabId); [repeat split |]. cbn [negb andb].
  destruct (strictEqNum (leader st) (tabNum tabId)); [| repeat split].
  cbn [fst snd]. unfold leader. cbn [local session]. rewrite !getKey_setAll.
  repeat split.
Qed.

Lemma stale_num (S2N : string -> option Z) (now h : Z) :
  stale S2N now (jor (JNum h) (JNum 0)) = (10000 <? now - h).
Proof.
  unfold stale, jor. cbn [truthy].
  destruct (Z.eqb_spec h 0) as [-> | _]; reflexivity.
Qed.

(** X9.  After a heartbeat of the controller a at time t, another tab b that
    registers at time t' takes the lease exactly when more than ten seconds
    have passed or the tab of a no longer exists; otherwise a stays the
    controller and nothing is written. *)
Theorem lease_lasts_ten_seconds (S2N : string -> option Z) (tabExists : JValue -> bool)
    (a b t t' : Z) (st : Storage) :
  a <> 0 -> b <> 0 -> a <> b -> leader st = JNum a ->
  let st1 := snd (handleHeartbeat (Some a) t st) in
  let out := registerController S2N tabExists (Some b) t' st1 in
  truthy (prop (fst out) "isController")
  = (10000 <? t' - t) || negb (tabExists (JNum a))
  /\ leader (snd out)
     = (if (10000 <? t' - t) || negb (tabExists (JNum a)) then JNum b else JNum a)
  /\ (truthy (prop (fst out) "isController") = false -> snd out = st1).
Proof.
  intros Ha Hb Hab Hl st1 out. subst out.
  destruct (heartbeat_effect (Some a) t st) as (L & _ & _ & H). fold st1 in L, H.
  assert (Hna : noTab (Some a) = false) by (now apply Z.eqb_neq).
  assert (Hnb : noTab (Some b) = false) by (now apply Z.eqb_neq).
  rewrite Hna, Hl in H. change (tabNum (Some a)) with a in H. cbn [negb andb] in H.
  rewrite strictEqNum_refl in H. rewrite Hl in L.
  rewrite (registerController_cases S2N tabExists (Some b) t' st1 Hnb)
    by (now rewrite H).
  rewrite L, H, stale_num. change (tabNum (Some b)) with b. cbn [truthy strictEqNum].
  assert (Ea : (a =? 0) = false) by (now apply Z.eqb_neq).
  assert (Eab : (a =? b) = false) by (now apply Z.eqb_neq).
  rewrite Ea, Eab. cbn [negb orb].
  destruct ((10000 <? t' - t) || negb (tabExists (JNum a))).
  - cbn [fst snd prop assoc String.eqb Ascii.eqb Bool.eqb truthy].
    destruct (leader_claim (Some b) t' st1) as (L' & _). rewrite L'.
    repeat split. discriminate.
  - cbn [fst snd prop assoc String.eqb Ascii.eqb Bool.eqb truthy]. rewrite L.
    repeat split.
Qed.

Lemma lease_lasts_ten_seconds_witness :
  let st := mkStorage ∅ (<[CONTROLLER_TAB := JNum 1]> ∅) in
  let st1 := snd (handleHeartbeat (Some 1) 5000 st) in
  leader (snd (registerController (fun _ => None) (fun _ => true) (Some 2) 15000 st1)) = JNum 1
  /\ leader (snd (registerController (fun _ => None) (fun _ => true) (Some 2) 15001 st1)) = JNum 2.
Proof.
  intros st st1. split.
  - destruct (lease_lasts_ten_seconds (fun _ => None) (fun _ => true) 1 2 5000 15000 st
                ltac:(lia) ltac:(lia) ltac:(lia) eq_refl) as (_ & B & _). exact B.
  - destruct (lease_lasts_ten_seconds (fun _ => None) (fun _ => true) 1 2 5000 15001 st
                ltac:(lia) ltac:(lia) ltac:(lia) eq_refl) as (_ & B & _). exact B.
Defined.

(** X10.  When the controller's tab is closed its lease is removed,
    controller and heartbeat both, and the next tab that registers becomes
    the controller with a fresh heartbeat; closing any other tab changes
    nothing. *)
Theorem closed_controller_is_replaced (S2N : string -> option Z)
    (tabExists : JValue -> bool) (a : Z) (tabId : option Z) (now : Z) (st : Storage) :
  leader st = JNum a -> noTab tabId = false ->
  let st1 := onTabRemoved a st in
  let out := registerController S2N tabExists tabId now st1 in
  leader st1 = JUndefined
  /\ getKey (local st1) CONTROLLER_HEARTBEAT = JUndefined
  /\ prop (fst out) "isController" = JBool true
  /\ leader (snd out) = JNum (tabNum tabId)
  /\ getKey (local (snd out)) CONTROLLER_HEARTBEAT = JNum now
  /\ forall c, c <> a -> onTabRemoved c st = st.
Proof.
  intros Hl Ht st1 out. subst out.
  assert (E : st1 = mkStorage (session st)
                      (removeAll [CONTROLLER_TAB; CONTROLLER_HEARTBEAT] (local st))).
  { subst st1. unfold onTabRemoved. unfold leader in Hl. rewrite Hl.
    now rewrite strictEqNum_refl. }
  assert (L1 : leader st1 = JUndefined).
  { rewrite E. unfold leader. cbn [local]. now rewrite getKey_removeAll. }
  assert (H1 : getKey (local st1) CONTROLLER_HEARTBEAT = JUndefined).
  { rewrite E. cbn [local]. now rewrite getKey_removeAll. }
  rewrite (registerController_cases S2N tabExists tabId now st1 Ht)
    by (now rewrite H1).
  rewrite L1.
  cbn [truthy negb orb fst snd prop assoc String.eqb Ascii.eqb Bool.eqb].
  destruct (leader_claim tabId now st1) as (L' & H' & _).
  repeat split; try assumption.
  intros c Hc. unfold onTabRemoved. unfold leader in Hl. rewrite Hl. cbn [strictEqNum].
  destruct (Z.eqb_spec a c); [congruence | reflexivity].
Qed.

Lemma closed_controller_is_replaced_witness :
  let st := mkStorage ∅ (<[CONTROLLER_TAB := JNum 1]> (<[CONTROLLER_HEARTBEAT := JNum 19000]> ∅)) in
  leader (snd (registerController (fun _ => None) (fun _ => true) (Some 2) 20000
                 (onTabRemoved 1 st))) = JNum 2
  /\ onTabRemoved 3 st = st.
Proof.
  intros st.
  destruct (closed_controller_is_replaced (fun _ => None) (fun _ => true) 1 (Some 2) 20000 st
              eq_refl eq_refl) as (_ & _ & _ & A & _ & B).
  split; [exact A | apply B; lia].
Defined.

(** ** Queue edits *)

Lemma map_updateFirst {A : Type} (f : Item -> A) (g : Item -> Item) (x : string)
    (q : list Item) :
  (forall i, f (g i) = f i) -> List.map f (updateFirst x g q) = List.map f q.
Proof.
  intros H. induction q as [|a q IH]; simpl; [reflexivity |].
  destruct (String.eqb (id a) x); simpl; [now rewrite H | now rewrite IH].
Qed.

(** A tick changes no field of an item but its status, its error message
    and its time of update. *)
Lemma ticked_map {A : Type} (f : Item -> A) (now : Z) (m m' : Machine) :
  (forall i, f (setStatus Sending JNull now i) = f i) ->
  Ticked now m m' -> List.map f (queue (st m')) = List.map f (queue (st m)).
Proof.
  intros H [(Q & _) | (item & _ & _ & Q & _)]; rewrite Q;
    [reflexivity | now apply map_updateFirst].
Qed.

Lemma ticked_ids (now : Z) (m m' : Machine) :
  Ticked now m m' -> ids (queue (st m')) = ids (queue (st m)).
Proof. apply (ticked_map id). reflexivity. Qed.

Lemma findIndex_app (x : string) (before after : list Item) :
  x ∉ ids before ->
  findIndex x (before ++ after) = option_map (fun n => (length before + n)%nat) (findIndex x after).
Proof.
  induction before as [|a before IH]; simpl; intros H.
  - now destruct (findIndex x after).
  - destruct (String.eqb_spec (id a) x) as [E | Hne].
    + exfalso. apply H. rewrite E. apply elem_of_cons. now left.
    + rewrite IH.
      * now destruct (findIndex x after).
      * intros Hin. apply H. apply elem_of_cons. now right.
Qed.

Lemma findIndex_here (x : string) (before : list Item) (i : Item) (after : list Item) :
  x ∉ ids before -> id i = x -> findIndex x (before ++ i :: after) = Some (length before).
Proof.
  intros H E. rewrite findIndex_app by assumption. simpl.
  destruct (String.eqb_spec (id i) x); [| contradiction]. simpl. f_equal. lia.
Qed.

Lemma findIndex_absent (x : string) (q : list Item) :
  x ∉ ids q -> findIndex x q = None.
Proof.
  induction q as [|a q IH]; simpl; intros H; [reflexivity |].
  destruct (String.eqb_spec (id a) x) as [E | Hne].
  - exfalso. apply H. rewrite E. apply elem_of_cons. now left.
  - rewrite IH; [reflexivity |]. intros Hin. apply H. apply elem_of_cons. now right.
Qed.

Lemma swap_adjacent_split (before : list Item) (a b : Item) (after : list Item) :
  swap (length before) (S (length before)) (before ++ a :: b :: after)
  = before ++ b :: a :: after.
Proof.
  unfold swap. induction before as [|c before IH]; [reflexivity |].
  simpl length. cbn [app].
  change ((c :: before ++ a :: b :: after) !! S (length before))
    with ((before ++ a :: b :: after) !! length before).
  change ((c :: before ++ a :: b :: after) !! S (S (length before)))
    with ((before ++ a :: b :: after) !! S (length before)).
  destruct ((before ++ a :: b :: after) !! length before) as [u|] eqn:E1.
  - destruct ((before ++ a :: b :: after) !! S (length before)) as [v|] eqn:E2.
    + simpl. f_equal. exact IH.
    + exfalso. rewrite lookup_app_r in E2 by lia.
      replace (S (length before) - length before)%nat with 1%nat in E2 by lia.
      discriminate.
  - exfalso. rewrite lookup_app_r in E1 by lia.
    replace (length before - length before)%nat with 0%nat in E1 by lia. discriminate.
Qed.

Lemma ids_split (q : list Item) (l1 : list string) (x y : string) (l2 : list string) :
  ids q = l1 ++ x :: y :: l2 ->
  exists before a b after,
    q = before ++ a :: b :: after /\ ids before = l1 /\ id a = x /\ id b = y
    /\ ids after = l2.
Proof.
  revert l1. induction q as [|c q IH]; intros l1 H.
  - destruct l1; discriminate.
  - destruct l1 as [|z l1]; simpl in H.
    + destruct q as [|d q]; [discriminate |]. simpl in H.
      injection H as Hx Hy Hr. exists [], c, d, q. repeat split; assumption.
    + injection H as Hz Hr. destruct (IH l1 Hr) as (before & a & b & after & -> & E1 & E2 & E3 & E4).
      exists (c :: before), a, b, after. simpl. rewrite Hz, E1. repeat split; assumption.
Qed.

Section Moves.

Variable now : Z.

Lemma moveUp_ids (x : string) (m : Machine) (before : list Item) (a b : Item)
    (after : list Item) :
  queue (st m) = before ++ a :: b :: after -> id b = x -> x ∉ ids (before ++ [a]) ->
  ids (queue (st (moveUp now x m))) = ids (before ++ b :: a :: after).
Proof.
  intros Hq Hb Hx. unfold moveUp.
  assert (F : findIndex x (queue (st m)) = Some (S (length before))).
  { rewrite Hq. change (before ++ a :: b :: after) with (before ++ [a] ++ b :: after).
    rewrite app_assoc, findIndex_here by assumption.
    rewrite length_app. simpl. f_equal. lia. }
  rewrite F. unfold Nat.ltb. cbn [Nat.leb].
  replace (S (length before) - 1)%nat with (length before) by lia.
  rewrite (ticked_ids now (saveQueue (withSt (fun s => setQueue (swap (length before) (S (length before)) (queue s)) s) m)))
    by (apply ticked_ui, ticked_refl).
  cbn [saveQueue withSt st setQueue queue]. now rewrite Hq, swap_adjacent_split.
Qed.

Lemma moveDown_ids (x : string) (m : Machine) (before : list Item) (a b : Item)
    (after : list Item) :
  queue (st m) = before ++ a :: b :: after -> id a = x -> x ∉ ids before ->
  ids (queue (st (moveDown now x m))) = ids (before ++ b :: a :: after).
Proof.
  intros Hq Ha Hx. unfold moveDown.
  assert (F : findIndex x (queue (st m)) = Some (length before)).
  { rewrite Hq. now apply findIndex_here. }
  rewrite F.
  assert (L : (length before <? length (queue (st m)) - 1)%nat = true).
  { apply Nat.ltb_lt. rewrite Hq, length_app. simpl. lia. }
  rewrite L. replace (length before + 1)%nat with (S (length before)) by lia.
  rewrite (ticked_ids now (saveQueue (withSt (fun s => setQueue (swap (length before) (S (length before)) (queue s)) s) m)))
    by (apply ticked_ui, ticked_refl).
  cbn [saveQueue withSt st setQueue queue]. now rewrite Hq, swap_adjacent_split.
Qed.

Lemma ids_app_cons (before : list Item) (a b : Item) (after : list Item) :
  ids (before ++ a :: b :: after) = ids before ++ id a :: id b :: ids after.
Proof. unfold ids. now rewrite map_app. Qed.

Lemma not_in_snoc (x : string) (before : list Item) (a : Item) :
  x ∉ ids (before ++ [a]) <-> (x ∉ ids before) /\ id a <> x.
Proof.
  unfold ids. rewrite map_app. simpl. split.
  - intros H. split.
    + intros Hin. apply H. apply elem_of_app. now left.
    + intros E. apply H. apply elem_of_app. right. rewrite E. apply list_elem_of_singleton. reflexivity.
  - intros [H1 H2] Hin. apply elem_of_app in Hin as [Hin | Hin]; [contradiction |].
    apply list_elem_of_singleton in Hin. congruence.
Qed.

Lemma moveUp_noop (x : string) (m : Machine) :
  findIndex x (queue (st m)) = None \/ findIndex x (queue (st m)) = Some 0%nat ->
  moveUp now x m = m.
Proof. intros [H | H]; unfold moveUp; now rewrite H. Qed.

Lemma moveDown_noop (x : string) (m : Machine) :
  findIndex x (queue (st m)) = None
  \/ findIndex x (queue (st m)) = Some (length (queue (st m)) - 1)%nat ->
  moveDown now x m = m.
Proof.
  intros [H | H]; unfold moveDown; rewrite H; [reflexivity |].
  now rewrite Nat.ltb_irrefl.
Qed.

(** X11.  [moveUp] swaps the item with the one before it and [moveDown] with
    the one after it, and each undoes the other: moving an item up and then
    down, or down and then up, gives the order back.  The item is the first
    one with the id. *)
Theorem queue_moves_swap_neighbours (x : string) (m : Machine) (before : list Item)
    (a b : Item) (after : list Item) :
  queue (st m) = before ++ a :: b :: after -> x ∉ ids before ->
  (id b = x -> id a <> x ->
   ids (queue (st (moveUp now x m))) = ids (before ++ b :: a :: after)
   /\ ids (queue (st (moveDown now x (moveUp now x m)))) = ids (queue (st m)))
  /\ (id a = x -> id b <> x ->
      ids (queue (st (moveDown now x m))) = ids (before ++ b :: a :: after)
      /\ ids (queue (st (moveUp now x (moveDown now x m)))) = ids (queue (st m))).
Proof.
  intros Hq Hx. split.
  - intros Hb Ha.
    assert (Hx' : x ∉ ids (before ++ [a])) by (apply not_in_snoc; now split).
    pose proof (moveUp_ids x m before a b after Hq Hb Hx') as U.
    split; [exact U |]. rewrite ids_app_cons in U.
    destruct (ids_split _ _ _ _ _ U) as (before' & b' & a' & after' & Hq' & E1 & E2 & E3 & E4).
    rewrite (moveDown_ids x _ before' b' a' after' Hq').
    + rewrite Hq, !ids_app_cons. congruence.
    + congruence.
    + now rewrite E1.
  - intros Ha Hb.
    pose proof (moveDown_ids x m before a b after Hq Ha Hx) as D.
    split; [exact D |]. rewrite ids_app_cons in D.
    destruct (ids_split _ _ _ _ _ D) as (before' & b' & a' & after' & Hq' & E1 & E2 & E3 & E4).
    rewrite (moveUp_ids x _ before' b' a' after' Hq').
    + rewrite Hq, !ids_app_cons. congruence.
    + congruence.
    + apply not_in_snoc. split; [now rewrite E1 | congruence].
Qed.

(** X12.  [moveUp] and [moveDown] change nothing, not even the stored value,
    for an id that is not in the queue; nor does [moveUp] for the first item
    or [moveDown] for the last. *)
Theorem queue_moves_stop_at_the_ends (x : string) (m : Machine) :
  (x ∉ ids (queue (st m)) -> moveUp now x m = m /\ moveDown now x m = m)
  /\ (forall i rest, queue (st m) = i :: rest -> id i = x -> moveUp now x m = m)
  /\ (forall before i, queue (st m) = before ++ [i] -> id i = x -> x ∉ ids before ->
      moveDown now x m = m).
Proof.
  split; [| split].
  - intros H. split; [apply moveUp_noop | apply moveDown_noop]; left;
      now apply findIndex_absent.
  - intros i rest Hq Hi. apply moveUp_noop. right. rewrite Hq. simpl.
    now destruct (String.eqb_spec (id i) x).
  - intros before i Hq Hi Hx. apply moveDown_noop. right. rewrite Hq.
    rewrite findIndex_here by assumption. rewrite length_app. simpl. f_equal. lia.
Qed.

End Moves.

Lemma queue_moves_swap_neighbours_witness :
  let a := mkItem "a" "first" (JObj []) Queued JNull 0 1 1 in
  let b := mkItem "b" "second" (JObj []) Queued JNull 0 2 2 in
  let m := boot (Some (mkStored (Some [a; b]) None None None None)) 1000 true (Some 5) true in
  ids (queue (st (moveUp 2000 "b" m))) = ["b"; "a"]
  /\ ids (queue (st (moveDown 2000 "b" (moveUp 2000 "b" m)))) = ["a"; "b"].
Proof.
  intros a b m.
  assert (Hn : "b" ∉ ids (@nil Item)) by (intros H; now apply elem_of_nil in H).
  assert (Hq : queue (st m) = [] ++ [a; b]) by (vm_compute; reflexivity).
  destruct (queue_moves_swap_neighbours 2000 "b" m [] a b [] Hq Hn) as [H _].
  exact (H eq_refl ltac:(discriminate)).
Defined.

Lemma queue_moves_stop_at_the_ends_witness :
  let a := mkItem "a" "first" (JObj []) Queued JNull 0 1 1 in
  let b := mkItem "b" "second" (JObj []) Queued JNull 0 2 2 in
  let m := boot (Some (mkStored (Some [a; b]) None None None None)) 1000 true (Some 5) true in
  moveUp 2000 "a" m = m /\ moveDown 2000 "b" m = m /\ moveUp 2000 "c" m = m.
Proof.
  intros a b m.
  destruct (queue_moves_stop_at_the_ends 2000 "a" m) as (_ & A & _).
  destruct (queue_moves_stop_at_the_ends 2000 "b" m) as (_ & _ & B).
  destruct (queue_moves_stop_at_the_ends 2000 "c" m) as (C & _).
  assert (Hq : queue (st m) = [a; b]) by (vm_compute; reflexivity).
  split; [exact (A a [b] Hq eq_refl) |]. split.
  - apply (B [a] b Hq eq_refl). vm_compute. intros X.
    apply list_elem_of_singleton in X. discriminate.
  - assert (Hc : "c" ∉ ids (queue (st m))).
    { vm_compute. intros X.
      repeat (apply elem_of_cons in X as [X | X]; [discriminate |]).
      now apply elem_of_nil in X. }
    exact (proj1 (C Hc)).
Defined.

Lemma spliceOne_here (before : list Item) (i : Item) (after : list Item) :
  spliceOne (length before) (before ++ i :: after) = before ++ after.
Proof. induction before as [|a before IH]; simpl; [reflexivity | now rewrite IH]. Qed.

Lemma removeFromQueue_absent (now : Z) (x : string) (m : Machine) :
  x ∉ ids (queue (st m)) -> removeFromQueue now x m = m.
Proof.
  intros H. unfold removeFromQueue, removeFromQueue_body.
  now rewrite findIndex_absent.
Qed.

(** X13.  [removeFromQueue] changes nothing for an id that is not in the
    queue.  Otherwise it takes out the first item with that id and keeps the
    others, in order, with their prompts and retry counts; if no later item
    has the id, the id is gone; and, in a valid context, the queue under the
    storage key is then the queue of [state]. *)
Theorem removeFromQueue_removes_first (now : Z) (x : string) (m : Machine) :
  (x ∉ ids (queue (st m)) -> removeFromQueue now x m = m)
  /\ (forall before i after,
        queue (st m) = before ++ i :: after -> id i = x -> x ∉ ids before ->
        let m' := removeFromQueue now x m in
        ids (queue (st m')) = ids (before ++ after)
        /\ List.map prompt (queue (st m')) = List.map prompt (before ++ after)
        /\ List.map retryCount (queue (st m')) = List.map retryCount (before ++ after)
        /\ (x ∉ ids after -> statusOf x m' = None)
        /\ (extensionInvalidated (st m) = false ->
            option_map sd_queue (stored m') = Some (Some (queue (st m'))))).
Proof.
  split; [apply removeFromQueue_absent |].
  intros before i after Hq Hi Hx m'. subst m'.
  assert (Fi : findIndex x (queue (st m)) = Some (length before))
    by (rewrite Hq; now apply findIndex_here).
  unfold removeFromQueue, removeFromQueue_body. rewrite Fi.
  set (m1 := saveQueue (withSt (fun s => setQueue (spliceOne (length before) (queue s)) s) m)).
  assert (Q1 : queue (st m1) = before ++ after).
  { subst m1. cbn [saveQueue withSt st setQueue queue]. rewrite Hq. apply spliceOne_here. }
  assert (T : Ticked now m1 (updateUI now m1)) by apply ui_ticked.
  assert (I : ids (queue (st (updateUI now m1))) = ids (before ++ after)).
  { now rewrite (ticked_ids now m1), Q1. }
  split; [exact I |]. split; [| split; [| split]].
  - rewrite (ticked_map prompt now m1) by (reflexivity || exact T). now rewrite Q1.
  - rewrite (ticked_map retryCount now m1) by (reflexivity || exact T). now rewrite Q1.
  - intros Ha. unfold statusOf.
    assert (N : findById x (queue (st (updateUI now m1))) = None).
    { apply findById_None. rewrite I. unfold ids. rewrite map_app.
      intros Hin. apply elem_of_app in Hin as [Hin | Hin]; contradiction. }
    now rewrite N.
  - intros V.
    assert (Sy : synced (updateUI now m1)) by (apply synced_ui, synced_save; exact V).
    destruct Sy as (_ & sd & E & Q & _). rewrite E. simpl. now rewrite Q.
Qed.

Lemma removeFromQueue_removes_first_witness :
  let a := mkItem "a" "first" (JObj []) Queued JNull 0 1 1 in
  let b := mkItem "b" "second" (JObj []) Queued JNull 0 2 2 in
  let m := boot (Some (mkStored (Some [a; b]) None None None None)) 1000 true (Some 5) true in
  ids (queue (st (removeFromQueue 2000 "a" m))) = ["b"]
  /\ removeFromQueue 2000 "c" m = m.
Proof.
  intros a b m.
  destruct (removeFromQueue_removes_first 2000 "a" m) as [_ H].
  destruct (removeFromQueue_removes_first 2000 "c" m) as [G _].
  assert (Hn : "a" ∉ ids (@nil Item)) by (intros X; now apply elem_of_nil in X).
  assert (Hq : queue (st m) = [] ++ [a; b]) by (vm_compute; reflexivity).
  destruct (H [] a [b] Hq eq_refl Hn) as (H1 & _).
  split; [exact H1 |]. apply G. vm_compute.
  intros X. repeat (apply elem_of_cons in X as [X | X]; [discriminate |]).
  now apply elem_of_nil in X.
Defined.

(** X14.  "Clear Errors" keeps the items that are not in error, in order,
    with their prompts; afterwards no item is in error, and a second click
    changes no id. *)
Theorem clearErrors_keeps_the_rest (now : Z) (m : Machine) :
  let keep := List.filter (fun i => negb (statusEqb (status i) Error)) (queue (st m)) in
  let m' := clearErrors_click now m in
  ids (queue (st m')) = ids keep
  /\ List.map prompt (queue (st m')) = List.map prompt keep
  /\ Forall (fun i => status i <> Error) (queue (st m'))
  /\ ids (queue (st (clearErrors_click now m'))) = ids (queue (st m')).
Proof.
  intros keep m'.
  set (m1 := saveQueue (withSt (fun s => setQueue
             (List.filter (fun i => negb (statusEqb (status i) Error)) (queue s)) s) m)).
  assert (E : m' = updateUI now m1) by reflexivity.
  assert (Q1 : queue (st m1) = keep) by reflexivity.
  assert (T : Ticked now m1 m') by (rewrite E; apply ui_ticked).
  assert (F : Forall (fun i => status i <> Error) (queue (st m'))).
  { assert (Fk : Forall (fun i => status i <> Error) keep).
    { apply Forall_forall. intros i Hi. apply list_elem_of_In, filter_In in Hi as [_ Hi].
      intros Es. rewrite Es in Hi. discriminate. }
    destruct T as [(Q & _) | (item & _ & _ & Q & _)]; rewrite Q, Q1; [exact Fk |].
    clear - Fk. induction keep as [|a keep IH]; simpl; [constructor |].
    apply Forall_cons in Fk as [Ha Fk].
    destruct (String.eqb (id a) (id item)); constructor; auto; discriminate. }
  split; [| split; [| split]].
  - now rewrite (ticked_ids now m1 m' T), Q1.
  - now rewrite (ticked_map prompt now m1 m' ltac:(reflexivity) T), Q1.
  - exact F.
  - set (m2 := saveQueue (withSt (fun s => setQueue
               (List.filter (fun i => negb (statusEqb (status i) Error)) (queue s)) s) m')).
    assert (E2 : clearErrors_click now m' = updateUI now m2) by reflexivity.
    rewrite E2, (ticked_ids now m2) by apply ui_ticked.
    cbn [m2 saveQueue withSt st setQueue queue]. f_equal.
    clear - F. induction (queue (st m')) as [|a q IH]; [reflexivity |].
    apply Forall_cons in F as [Ha F]. simpl.
    destruct (status a); try contradiction; simpl; now rewrite IH.
Qed.

(** X15.  [addToQueue] puts one item at the end of the queue and changes no
    other: its id is q_, the clock, _ and the random part; its prompt is the
    trimmed text; its creation time is the clock; its retry count is 0.  In
    a valid context the queue under the storage key is then the queue of
    [state]. *)
Theorem addToQueue_appends (now : Z) (text : string) (options : JValue) (rnd : string)
    (m : Machine) :
  let m' := addToQueue now text options rnd m in
  ids (queue (st m')) = ids (queue (st m)) ++ ["q_" +:+ pretty now +:+ "_" +:+ rnd]
  /\ List.map prompt (queue (st m')) = List.map prompt (queue (st m)) ++ [trim text]
  /\ List.map createdAt (queue (st m')) = List.map createdAt (queue (st m)) ++ [now]
  /\ List.map retryCount (queue (st m')) = List.map retryCount (queue (st m)) ++ [0]
  /\ issued m' = ("q_" +:+ pretty now +:+ "_" +:+ rnd) :: issued m
  /\ (extensionInvalidated (st m) = false ->
      option_map sd_queue (stored m') = Some (Some (queue (st m')))).
Proof.
  intros m'.
  set (m1 := saveQueue (push (newItem now text options rnd) m)).
  assert (T : Ticked now m1 m') by (apply ticked_cas, ticked_ui, ticked_refl).
  assert (Q1 : queue (st m1) = queue (st m) ++ [newItem now text options rnd])
    by reflexivity.
  split; [| split; [| split; [| split; [| split]]]].
  - rewrite (ticked_ids now m1 m' T), Q1. unfold ids. now rewrite map_app.
  - rewrite (ticked_map prompt now m1 m' ltac:(reflexivity) T), Q1. now rewrite map_app.
  - rewrite (ticked_map createdAt now m1 m' ltac:(reflexivity) T), Q1. now rewrite map_app.
  - rewrite (ticked_map retryCount now m1 m' ltac:(reflexivity) T), Q1. now rewrite map_app.
  - now rewrite (ticked_issued now m1 m' T).
  - intros V.
    assert (Sy : synced m') by (apply synced_cas, synced_ui, synced_save; exact V).
    destruct Sy as (_ & sd & E & Q & _). rewrite E. simpl. now rewrite Q.
Qed.

Lemma addToQueue_appends_witness :
  let m := boot None 1000 false None true in
  let m' := addToQueue 2000 "  a cat " JUndefined "r" m in
  List.map prompt (queue (st m')) = ["a cat"]
  /\ option_map sd_queue (stored m') = Some (Some (queue (st m'))).
Proof.
  intros m m'.
  destruct (addToQueue_appends 2000 "  a cat " JUndefined "r" m)
    as (_ & A & _ & _ & _ & B).
  split; [exact A | exact (B eq_refl)].
Defined.

Lemma existsb_keys (k : string) (fields : list (string * JValue)) :
  existsb (String.eqb k) (List.map fst fields) = false -> assoc k fields = JUndefined.
Proof.
  induction fields as [|[k' v] fields IH]; simpl; [reflexivity |].
  destruct (String.eqb k k'); [discriminate | exact IH].
Qed.

(** X16.  The options of a new item are the caller's over the defaults: a
    key the caller gives has the caller's value, even a falsy one; the four
    default keys otherwise have portrait, small, 300 and sy_8; any other key
    is absent.  Without options the item has exactly the four defaults. *)
Theorem newItem_options (now : Z) (text : string) (fields : list (string * JValue))
    (rnd : string) (k : string) :
  NoDup (List.map fst fields) ->
  let given := existsb (String.eqb k) (List.map fst fields) in
  prop (options (newItem now text (JObj fields) rnd)) k
  = (if given then assoc k fields
     else if String.eqb k "orientation" then JStr "portrait"
     else if String.eqb k "size" then JStr "small"
     else if String.eqb k "n_frames" then JNum 300
     else if String.eqb k "model" then JStr "sy_8"
     else JUndefined)
  /\ options (newItem now text JUndefined rnd)
     = JObj [("orientation", JStr "portrait"); ("size", JStr "small");
             ("n_frames", JNum 300); ("model", JStr "sy_8")].
Proof.
  intros Hnd given. subst given. split; [| reflexivity].
  unfold newItem. cbn [options prop ownFields].
  rewrite assoc_spread by exact Hnd.
  destruct (existsb (String.eqb k) (List.map fst fields)) eqn:E; [reflexivity |].
  cbn [assoc].
  destruct (String.eqb_spec k "orientation") as [-> | _].
  { unfold jor. now rewrite (existsb_keys _ _ E). }
  destruct (String.eqb_spec k "size") as [-> | _].
  { unfold jor. now rewrite (existsb_keys _ _ E). }
  destruct (String.eqb_spec k "n_frames") as [-> | _].
  { unfold jor. now rewrite (existsb_keys _ _ E). }
  destruct (String.eqb_spec k "model") as [-> | _].
  { unfold jor. now rewrite (existsb_keys _ _ E). }
  reflexivity.
Qed.

Lemma newItem_options_witness :
  prop (options (newItem 5 "x" (JObj [("orientation", JStr "")]) "r")) "orientation" = JStr ""
  /\ prop (options (newItem 5 "x" (JObj [("orientation", JStr "")]) "r")) "size" = JStr "small".
Proof.
  assert (Hnd : NoDup (List.map fst [("orientation", JStr "")])) by apply NoDup_singleton.
  split.
  - exact (proj1 (newItem_options 5 "x" [("orientation", JStr "")] "r" "orientation" Hnd)).
  - exact (proj1 (newItem_options 5 "x" [("orientation", JStr "")] "r" "size" Hnd)).
Defined.

(** ** Page load *)

(** After [loadQueue] a reset time that is still set lies ahead. *)
Lemma loadQueue_reset_ahead (now : Z) (m : Machine) :
  extensionInvalidated (st m) = false ->
  truthyTime (dailyLimitResetTime (st (loadQueue now m))) = true ->
  now < default 0 (dailyLimitResetTime (st (loadQueue now m))).
Proof.
  intros V. unfold loadQueue. rewrite V.
  destruct (default emptyStored (stored m)) as [q r p reason e].
  cbn [sd_queue sd_dailyLimitResetTime sd_isPaused sd_pauseReason sd_isAutomationEnabled].
  destruct r as [r|]; cbn [truthyTime];
    [destruct (Z.eqb_spec r 0) as [-> | Hr]; cbn [negb] |];
    cbn [saveQueue st setQueue setAutomationEnabled setPauseReason setPaused
         setDailyLimitResetTime dailyLimitResetTime pauseReason truthyTime andb];
    try discriminate.
  change (default 0 (Some r)) with r.
  assert (Hn : negb (r =? 0) = true) by (apply negb_true_iff; now apply Z.eqb_neq).
  rewrite Hn. cbn [andb].
  destruct (Z.leb_spec r now) as [L | L].
  - destruct (isDailyPause _); cbn; discriminate.
  - cbn [dailyLimitResetTime]. intros _. exact L.
Qed.


(** [updateUI] changes nothing while no expired reset time is waiting. *)
Lemma updateUI_not_due (now : Z) (m : Machine) :
  (truthyTime (dailyLimitResetTime (st m)) = true ->
   now < default 0 (dailyLimitResetTime (st m))) ->
  updateUI now m = m.
Proof.
  intros H. rewrite updateUI_eq.
  destruct (truthyTime (dailyLimitResetTime (st m))) eqn:T;
    [| now rewrite andb_false_r].
  specialize (H eq_refl).
  destruct (Z.ltb_spec 0 (default 0 (dailyLimitResetTime (st m)) - now)); [| lia].
  now destruct (isPaused (st m) && isDailyPause (pauseReason (st m)) && true).
Qed.

Lemma init_eq (now : Z) (hasToken : bool) (capturedAt : option Z) (controller : bool)
    (m : Machine) :
  init now hasToken capturedAt controller m
  = withSt (setController controller)
      (withSt (fun x => setLastTokenCapture capturedAt (setHasValidToken hasToken x))
         (loadQueue now (mkMachine initialState (stored m) [] (issued m)))).
Proof.
  unfold init.
  pose proof (loadQueue_reset_ahead now (mkMachine initialState (stored m) [] (issued m))
                eq_refl) as L.
  revert L. generalize (loadQueue now (mkMachine initialState (stored m) [] (issued m))).
  intros m1 L. apply updateUI_not_due. exact L.
Qed.


Lemma resetSending_fields (i : Item) :
  id (resetSending i) = id i /\ prompt (resetSending i) = prompt i
  /\ options (resetSending i) = options i /\ retryCount (resetSending i) = retryCount i
  /\ createdAt (resetSending i) = createdAt i.
Proof. unfold resetSending. now destruct (statusEqb (status i) Sending). Qed.



Lemma saveQueue_loadQueue (now : Z) (m : Machine) :
  extensionInvalidated (st m) = false ->
  let s := st m in
  let m' := loadQueue now (saveQueue m) in
  queue (st m') = List.map resetSending (queue s)
  /\ isAutomationEnabled (st m') = isAutomationEnabled s
  /\ (truthyTime (dailyLimitResetTime s) && (default 0 (dailyLimitResetTime s) <=? now) = false ->
      pauseReason s <> Some "" ->
      isPaused (st m') = isPaused s /\ pauseReason (st m') = pauseReason s
      /\ dailyLimitResetTime (st m')
         = (if truthyTime (dailyLimitResetTime s) then dailyLimitResetTime s else None)).
Proof.
  intros V s m'. subst s m'. unfold loadQueue.
  cbn [saveQueue st stored]. rewrite V.
  cbn [default from_option Datatypes.id sd_queue sd_dailyLimitResetTime
       sd_isPaused sd_pauseReason sd_isAutomationEnabled].
  set (r1 := if truthyTime (dailyLimitResetTime (st m))
             then dailyLimitResetTime (st m) else None).
  assert (R1 : truthyTime r1 = truthyTime (dailyLimitResetTime (st m))
               /\ (truthyTime (dailyLimitResetTime (st m)) = true ->
                   r1 = dailyLimitResetTime (st m))).
  { subst r1. destruct (truthyTime (dailyLimitResetTime (st m))) eqn:T; split; auto.
    discriminate. }
  destruct R1 as [R1 R2].
  cbn [st setQueue setAutomationEnabled setPauseReason setPaused setDailyLimitResetTime
       dailyLimitResetTime pauseReason queue isAutomationEnabled isPaused].
  rewrite R1.
  destruct (truthyTime (dailyLimitResetTime (st m))) eqn:T; cbn [andb].
  - rewrite (R2 eq_refl).
    destruct (default 0 (dailyLimitResetTime (st m)) <=? now) eqn:Le.
    + split; [now destruct (isDailyPause _) |]. split; [| discriminate].
      destruct (isAutomationEnabled (st m)); now destruct (isDailyPause _).
    + cbn [st queue isAutomationEnabled isPaused pauseReason dailyLimitResetTime].
      split; [reflexivity |]. split; [now destruct (isAutomationEnabled (st m)) |].
      intros _ Hr. split; [reflexivity |]. split; [| reflexivity].
      destruct (pauseReason (st m)) as [x|]; [| reflexivity].
      destruct (String.eqb_spec x ""); [congruence | reflexivity].
  - cbn [st queue isAutomationEnabled isPaused pauseReason dailyLimitResetTime].
    split; [reflexivity |]. split; [now destruct (isAutomationEnabled (st m)) |].
    intros _ Hr. split; [reflexivity |]. split; [| reflexivity].
    destruct (pauseReason (st m)) as [x|]; [| reflexivity].
    destruct (String.eqb_spec x ""); [congruence | reflexivity].
Qed.

Lemma map_resetSending_id (q : list Item) :
  Forall (fun i => status i <> Sending) q -> List.map resetSending q = q.
Proof.
  induction 1 as [|a q Ha _ IH]; [reflexivity |]. simpl. rewrite IH. f_equal.
  unfold resetSending. destruct (status a); try reflexivity. contradiction.
Qed.

Lemma loadQueue_saves (now : Z) (m : Machine) :
  extensionInvalidated (st m) = false ->
  exists m1, loadQueue now m = saveQueue m1
             /\ extensionInvalidated (st m1) = false.
Proof.
  intros V. unfold loadQueue. rewrite V. eexists. split; [reflexivity |].
  cbn [st].
  match goal with
  | |- context [if ?c then _ else _] => destruct c
  end;
  try match goal with
  | |- context [if isDailyPause ?r then _ else _] => destruct (isDailyPause r)
  end; exact V.
Qed.

(** X18.  What [saveQueue] writes is what [loadQueue] reads back: with no
    item sending, no expired reset time and a pause reason that is not the
    empty string, a load after a save gives the same queue, automation flag,
    pause flag, pause reason and reset time, and writes the same value
    again. *)
Theorem reload_restores_saved_state (now : Z) (m : Machine) :
  extensionInvalidated (st m) = false ->
  Forall (fun i => status i <> Sending) (queue (st m)) ->
  (forall r, dailyLimitResetTime (st m) = Some r -> r <> 0 /\ now < r) ->
  pauseReason (st m) <> Some "" ->
  let m' := loadQueue now (saveQueue m) in
  queue (st m') = queue (st m)
  /\ isAutomationEnabled (st m') = isAutomationEnabled (st m)
  /\ isPaused (st m') = isPaused (st m)
  /\ pauseReason (st m') = pauseReason (st m)
  /\ dailyLimitResetTime (st m') = dailyLimitResetTime (st m)
  /\ stored m' = stored (saveQueue m).
Proof.
  intros V Hq Hr Hp m'. subst m'.
  destruct (saveQueue_loadQueue now m V) as (Q & A & H).
  assert (Hc : truthyTime (dailyLimitResetTime (st m))
               && (default 0 (dailyLimitResetTime (st m)) <=? now) = false).
  { destruct (dailyLimitResetTime (st m)) as [r|] eqn:E; [| reflexivity].
    destruct (Hr r eq_refl) as [Hnz Hlt]. simpl.
    destruct (Z.leb_spec r now); [lia |]. now rewrite andb_false_r. }
  destruct (H Hc Hp) as (P & R & D). clear H.
  assert (T : (if truthyTime (dailyLimitResetTime (st m))
               then dailyLimitResetTime (st m) else None) = dailyLimitResetTime (st m)).
  { destruct (dailyLimitResetTime (st m)) as [r|] eqn:E; [| reflexivity].
    destruct (Hr r eq_refl) as [Hnz _]. simpl.
    destruct (Z.eqb_spec r 0); [contradiction | reflexivity]. }
  rewrite T in D. rewrite (map_resetSending_id _ Hq) in Q.
  destruct (loadQueue_saves now (saveQueue m) V) as (m1 & E & V1).
  revert Q A P R D. rewrite E. clear E. intros Q A P R D.
  repeat (split; [assumption |]).
  change (st (saveQueue m1)) with (st m1) in Q, A, P, R, D.
  cbn [saveQueue stored]. now rewrite V, V1, Q, A, P, R, D.
Qed.

Lemma reload_restores_saved_state_witness :
  let a := mkItem "a" "first" (JObj []) Queued JNull 0 1 1 in
  let m := boot (Some (mkStored (Some [a]) (Some 9000) (Some true) (Some "daily_limit")
                         (Some false))) 1000 true (Some 5) true in
  queue (st (loadQueue 2000 (saveQueue m))) = [a]
  /\ isPaused (st (loadQueue 2000 (saveQueue m))) = true
  /\ dailyLimitResetTime (st (loadQueue 2000 (saveQueue m))) = Some 9000.
Proof.
  intros a m.
  assert (Hq : Forall (fun i => status i <> Sending) (queue (st m))).
  { vm_compute. apply Forall_cons. split; [discriminate | apply Forall_nil_2]. }
  assert (Hr : forall r, dailyLimitResetTime (st m) = Some r -> r <> 0 /\ 2000 < r).
  { intros r E. vm_compute in E. injection E as <-. lia. }
  assert (Hp : pauseReason (st m) <> Some "") by (vm_compute; discriminate).
  assert (V : extensionInvalidated (st m) = false) by (vm_compute; reflexivity).
  destruct (reload_restores_saved_state 2000 m V Hq Hr Hp) as (A & _ & B & _ & C & _).
  split; [exact A |]. split; [exact B | exact C].
Defined.

(** ** The pause for the daily limit *)

Lemma cas_paused (now : Z) (m : Machine) :
  isPaused (st m) = true -> checkAndSubmit now m = m.
Proof.
  intros H. rewrite checkAndSubmit_eq. unfold firstFailingGuard. rewrite H.
  now destruct (negb (isAutomationEnabled (st m))).
Qed.

Lemma saved_fields (m : Machine) :
  extensionInvalidated (st m) = false ->
  exists sd, stored (saveQueue m) = Some sd
             /\ sd_isPaused sd = Some (isPaused (st m))
             /\ sd_pauseReason sd = pauseReason (st m)
             /\ sd_dailyLimitResetTime sd = dailyLimitResetTime (st m).
Proof.
  intros V. unfold saveQueue. cbn [stored]. rewrite V. eexists. repeat split.
Qed.

(** A tick after a save leaves the pause fields as saved. *)
Lemma cas_after_save (now : Z) (m : Machine) :
  extensionInvalidated (st m) = false ->
  let m2 := checkAndSubmit now (saveQueue m) in
  isPaused (st m2) = isPaused (st m) /\ pauseReason (st m2) = pauseReason (st m)
  /\ dailyLimitResetTime (st m2) = dailyLimitResetTime (st m)
  /\ exists sd, stored m2 = Some sd /\ sd_isPaused sd = Some (isPaused (st m))
                /\ sd_pauseReason sd = pauseReason (st m)
                /\ sd_dailyLimitResetTime sd = dailyLimitResetTime (st m).
Proof.
  intros V m2. subst m2. rewrite checkAndSubmit_eq.
  destruct (firstFailingGuard now (st (saveQueue m)));
    [| destruct (findQueued (queue (st (saveQueue m))))];
    cbn [started saveQueue st stored isPaused pauseReason dailyLimitResetTime
         extensionInvalidated setQueue setLastSubmitTime setSubmitting];
    rewrite V; repeat split; eexists; (split; [reflexivity |]); repeat split.
Qed.

(** X19.  A pause for the daily limit whose reset time has come is lifted by
    [updateUI], by the sweep and by [loadQueue]: pause flag, reason and
    reset time are cleared, in [state] and under the storage key.  Before
    the reset time, [updateUI], the sweep and [checkAndSubmit] change
    nothing. *)
Theorem expired_limit_is_cleared (now r : Z) (m : Machine) :
  extensionInvalidated (st m) = false ->
  isPaused (st m) = true -> pauseReason (st m) = Some "daily_limit" ->
  dailyLimitResetTime (st m) = Some r -> r <> 0 ->
  (r <= now ->
   forall m', m' = updateUI now m \/ m' = dailyLimitSweep now m
              \/ m' = loadQueue now (saveQueue m) ->
     isPaused (st m') = false /\ pauseReason (st m') = None
     /\ dailyLimitResetTime (st m') = None
     /\ exists sd, stored m' = Some sd /\ sd_isPaused sd = Some false
                   /\ sd_pauseReason sd = None /\ sd_dailyLimitResetTime sd = None)
  /\ (now < r -> updateUI now m = m /\ dailyLimitSweep now m = m
                 /\ checkAndSubmit now m = m).
Proof.
  intros V Hp Hd Hr Hnz. split.
  - intros Hle.
    assert (Hn : negb (r =? 0) = true) by (apply negb_true_iff; now apply Z.eqb_neq).
    assert (Hlt : (0 <? r - now) = false) by (apply Z.ltb_ge; lia).
    assert (Hleb : (r <=? now) = true) by (now apply Z.leb_le).
    intros m' [-> | [-> | ->]].
    + rewrite updateUI_eq, Hp, Hd, Hr. cbn [isDailyPause truthyTime andb].
      change (String.eqb "daily_limit" "daily_limit") with true. rewrite Hn.
      cbn [andb default from_option Datatypes.id]. rewrite Hlt.
      exact (cas_after_save now (withSt clearDailyLimit m) V).
    + unfold dailyLimitSweep. rewrite Hr. cbn [truthyTime default from_option Datatypes.id].
      rewrite Hn, Hleb. cbn [andb withSt st setDailyLimitResetTime pauseReason].
      rewrite Hd. cbn [isDailyPause].
      change (String.eqb "daily_limit" "daily_limit") with true. cbv iota.
      match goal with
      | |- context [checkAndSubmit now (saveQueue ?x)] =>
          pose proof (cas_after_save now x V) as C2
      end.
      cbv zeta in C2. revert C2.
      match goal with
      | |- context [checkAndSubmit now ?x] => generalize (checkAndSubmit now x)
      end.
      intros m3 (A & B & D & E).
      rewrite updateUI_running by exact A. auto.
    + unfold loadQueue. cbn [saveQueue st stored]. rewrite V.
      cbn [default from_option Datatypes.id sd_queue
        sd_dailyLimitResetTime sd_isPaused sd_pauseReason sd_isAutomationEnabled].
      rewrite Hr, Hd, Hp. cbn [truthyTime]. rewrite Hn.
      change (String.eqb "daily_limit" "") with false.
      cbn [st setQueue setAutomationEnabled setPauseReason setPaused setDailyLimitResetTime
           dailyLimitResetTime pauseReason default from_option Datatypes.id truthyTime].
      rewrite Hn, Hleb. cbn [andb isDailyPause].
      change (String.eqb "daily_limit" "daily_limit") with true. cbv iota.
      match goal with
      | |- isPaused (st (saveQueue ?x)) = _ /\ _ =>
          destruct (saved_fields x V) as (sd & E & A & B & C)
      end.
      repeat split. exists sd. split; [exact E |]. repeat split; assumption.
  - intros Hlt. split; [| split].
    + apply updateUI_not_due. rewrite Hr. intros _. exact Hlt.
    + unfold dailyLimitSweep. rewrite Hr. cbn [default from_option Datatypes.id].
      destruct (Z.leb_spec r now); [lia |]. now rewrite andb_false_r.
    + now apply cas_paused.
Qed.

Lemma quiet_ui (now : Z) (m : Machine) :
  dailyLimitResetTime (st m) = None -> updateUI now m = m.
Proof. intros H. apply updateUI_not_due. rewrite H. discriminate. Qed.

Ltac quiet :=
  repeat first
    [ rewrite quiet_ui by (cbn [withSt saveQueue push st dailyLimitResetTime setQueue
                                setAutomationEnabled setPaused setPauseReason
                                setHasValidToken setLastTokenCapture setActiveTaskCount
                                setLastPollTime setMainWorldReady setController];
                           assumption)
    | rewrite cas_paused by (cbn [withSt saveQueue push st isPaused setQueue
                                  setAutomationEnabled setPaused setPauseReason
                                  setHasValidToken setLastTokenCapture setActiveTaskCount
                                  setLastPollTime setMainWorldReady setController];
                             assumption) ].

Ltac shape :=
  unfold PausedNoReset; cbn;
  repeat match goal with
         | H : extensionInvalidated (st _) = false |- _ => rewrite !H
         end.

Ltac paused_done :=
  repeat split; try assumption; try reflexivity;
  try (eexists; split; [reflexivity |];
       cbn [sd_isPaused sd_pauseReason sd_dailyLimitResetTime]; repeat split; congruence);
  try (eexists; split; [eassumption |]; repeat split; assumption).

Lemma paused_step (now : Z) (e : Event) (m : Machine) :
  manualResume e = false -> undisturbed e = true ->
  PausedNoReset m -> PausedNoReset (step now e m).
Proof.
  intros He U (V & P & R & D & Pe & sd & E & SP & SR & SD).
  destruct e as [pr opts rnd|itemId|itemId|itemId| | | |hasToken| |hasToken capturedAt
                | | |activeCount|issue|answer| | | |newValue|newValue| |k o
                |hasToken capturedAt controller];
    try discriminate; cbn [step].
  - (* add *) unfold addToQueue. quiet. shape. paused_done.
  - (* remove *) unfold removeFromQueue, removeFromQueue_body.
    destruct (findIndex itemId (queue (st m))); [| shape; paused_done; eauto 10].
    quiet. shape. paused_done.
  - (* move up *) unfold moveUp.
    destruct (findIndex itemId (queue (st m))) as [index|];
      [destruct (0 <? index)%nat |]; quiet;
      shape; paused_done; eauto 10.
  - unfold moveDown.
    destruct (findIndex itemId (queue (st m))) as [index|];
      [destruct (index <? length (queue (st m)) - 1)%nat |]; quiet;
      shape; paused_done; eauto 10.
  - unfold clearErrors_click. quiet. shape. paused_done.
  - unfold onTokenCaptured. rewrite V. quiet. shape. paused_done; eauto 10.
  - unfold onTokenCleared. rewrite V. quiet. shape. paused_done; eauto 10.
  - unfold tokenStatusReceived. quiet. shape. paused_done; eauto 10.
  - unfold manualTokenAccepted. quiet. shape. paused_done; eauto 10.
  - unfold tokenClearedDone. quiet. shape. paused_done; eauto 10.
  - unfold pollSucceeded. quiet. shape. paused_done; eauto 10.
  - unfold pollFailed. destruct issue; quiet; shape; paused_done; eauto 10.
  - unfold heartbeatAnswered.
    destruct (negb answer && isController (st m));
      [| destruct (answer && negb (isController (st m)))];
      shape; paused_done; eauto 10.
  - unfold dailyLimitSweep. rewrite D. cbn [truthyTime andb].
    shape; paused_done; eauto 10.
  - quiet. shape; paused_done; eauto 10.
  - (* echo *) unfold onStorageChanged. rewrite V, E.
    cbn [default from_option Datatypes.id]. rewrite SP, SR.
    assert (Hm1 : forall b,
      extensionInvalidated (st (if negb (Bool.eqb b (isAutomationEnabled (st m)))
                    then (if b then checkAndSubmit now (withSt (setAutomationEnabled b) m)
                          else withSt (setAutomationEnabled b) m)
                    else m)) = false
      /\ isPaused (st (if negb (Bool.eqb b (isAutomationEnabled (st m)))
                    then (if b then checkAndSubmit now (withSt (setAutomationEnabled b) m)
                          else withSt (setAutomationEnabled b) m)
                    else m)) = true
      /\ dailyLimitResetTime (st (if negb (Bool.eqb b (isAutomationEnabled (st m)))
                    then (if b then checkAndSubmit now (withSt (setAutomationEnabled b) m)
                          else withSt (setAutomationEnabled b) m)
                    else m)) = None
      /\ pending (if negb (Bool.eqb b (isAutomationEnabled (st m)))
                    then (if b then checkAndSubmit now (withSt (setAutomationEnabled b) m)
                          else withSt (setAutomationEnabled b) m)
                    else m) = []
      /\ stored (if negb (Bool.eqb b (isAutomationEnabled (st m)))
                    then (if b then checkAndSubmit now (withSt (setAutomationEnabled b) m)
                          else withSt (setAutomationEnabled b) m)
                    else m) = Some sd).
    { intros b. destruct (negb (Bool.eqb b (isAutomationEnabled (st m)))); [| auto].
      destruct b; quiet; cbn; auto. }
    set (m1 := match sd_isAutomationEnabled sd with
               | Some b => _
               | None => m
               end).
    assert (H1 : extensionInvalidated (st m1) = false
                 /\ isPaused (st m1) = true /\ dailyLimitResetTime (st m1) = None
                 /\ pending m1 = [] /\ stored m1 = Some sd).
    { subst m1. destruct (sd_isAutomationEnabled sd) as [b|]; [apply Hm1 | auto]. }
    clearbody m1. destruct H1 as (V1 & P1 & D1 & Pe1 & E1).
    destruct (sd_queue sd) as [q|]; quiet;
      shape; paused_done; eauto 10.
  - (* resolve *) rewrite Pe. cbn [lookup].
    replace (@nil Item !! k) with (@None Item) by (now destruct k).
    shape; paused_done; eauto 10.
  - (* restart *) rewrite init_eq.
    assert (L : forall m0, extensionInvalidated (st m0) = false ->
              stored m0 = Some sd -> pending m0 = [] ->
              PausedNoReset (loadQueue now m0)).
    { intros m0 V0 E0 P0. unfold loadQueue. rewrite V0, E0.
      cbn [default from_option Datatypes.id]. rewrite SP, SR, SD.
      change (String.eqb "daily_limit" "") with false.
      cbn [truthyTime st setQueue setAutomationEnabled setPauseReason setPaused
           setDailyLimitResetTime dailyLimitResetTime andb].
      unfold PausedNoReset. cbn [saveQueue st stored pending isPaused pauseReason
           dailyLimitResetTime setQueue setAutomationEnabled setPauseReason setPaused
           setDailyLimitResetTime extensionInvalidated].
      rewrite V0.
      repeat split; try assumption. eexists. split; [reflexivity |]. repeat split. }
    specialize (L (mkMachine initialState (stored m) [] (issued m)) eq_refl E eq_refl).
    revert L. generalize (loadQueue now (mkMachine initialState (stored m) [] (issued m))).
    intros m1 (V1 & P1 & R1 & D1 & Pe1 & sd1 & E1 & X1 & X2 & X3).
    shape. paused_done; eauto 10.
Qed.

Lemma paused_run (trace : list (Z * Event)) (m : Machine) :
  PausedNoReset m ->
  Forall (fun ne => manualResume (snd ne) = false /\ undisturbed (snd ne) = true) trace ->
  PausedNoReset (run trace m).
Proof.
  revert m. induction trace as [|[now e] trace IH]; intros m HP HF; [exact HP |].
  apply Forall_cons in HF as [[He U] HF]. cbn [run fold_left fst snd].
  apply IH; [| exact HF]. now apply paused_step.
Qed.

Lemma daily_limit_without_reset (now : Z) (item : Item) (result : JValue) (m : Machine) :
  extensionInvalidated (st m) = false ->
  pending m = [] ->
  prop result "error" = JStr "DAILY_LIMIT" ->
  truthy (prop result "success") = false ->
  timeOf (prop result "resetTime") = None ->
  PausedNoReset (submitResolved now item (Responded result) m).
Proof.
  intros V Pe He Hs Ht. unfold submitResolved.
  destruct result as [| | | | | |fields]; try discriminate.
  rewrite Hs. unfold handleSubmitError. rewrite He. cbn [strictEqStr].
  change (String.eqb "DAILY_LIMIT" "CONCURRENT_LIMIT") with false.
  change (String.eqb "DAILY_LIMIT" "DAILY_LIMIT") with true. cbv iota.
  unfold updateItemStatus, updateItemStatus_body.
  cbn [withSt st queue setDailyLimitResetTime setPauseReason setPaused].
  destruct (findById (id item) (queue (st m))).
  - rewrite (quiet_ui now (saveQueue (withSt _ (withSt _ m)))) by exact Ht.
    rewrite quiet_ui by exact Ht.
    shape. repeat split; try assumption.
    eexists. split; [reflexivity |]. repeat split. exact Ht.
  - rewrite quiet_ui by exact Ht.
    shape. repeat split; try assumption.
    eexists. split; [reflexivity |]. repeat split. exact Ht.
Qed.

(** X20.  A DAILY_LIMIT answer with no reset time pauses the instance for
    good: it is paused for the daily limit with no reset time, in [state]
    and under the storage key, and stays so through every run of an instance
    left to itself that has no click on the automation toggle or on "Retry
    Now", page loads included; no tick, sweep or [updateUI] sends anything. *)
Theorem daily_limit_pause_without_reset_is_manual (now : Z) (item : Item)
    (result : JValue) (trace : list (Z * Event)) (m : Machine) :
  extensionInvalidated (st m) = false ->
  pending m = [item] ->
  prop result "error" = JStr "DAILY_LIMIT" ->
  truthy (prop result "success") = false ->
  prop result "resetTime" = JNull ->
  Forall (fun ne => manualResume (snd ne) = false /\ undisturbed (snd ne) = true) trace ->
  let m1 := step now (EvResolve 0 (Responded result)) m in
  PausedNoReset m1
  /\ PausedNoReset (run trace m1)
  /\ forall now', checkAndSubmit now' (run trace m1) = run trace m1
                  /\ dailyLimitSweep now' (run trace m1) = run trace m1
                  /\ updateUI now' (run trace m1) = run trace m1.
Proof.
  intros V Pe He Hs Hn HF m1.
  assert (Ht : timeOf (prop result "resetTime") = None) by (now rewrite Hn).
  assert (H1 : PausedNoReset m1).
  { subst m1. cbn [step]. rewrite Pe. cbn [lookup list_lookup delete list_delete].
    now apply daily_limit_without_reset. }
  pose proof (paused_run trace m1 H1 HF) as H2.
  split; [exact H1 |]. split; [exact H2 |].
  revert H2. generalize (run trace m1). intros m2 (_ & P & R & D & _).
  intros now'. split; [now apply cas_paused |]. split; [| now apply quiet_ui].
  unfold dailyLimitSweep. now rewrite D.
Qed.

Lemma daily_limit_pause_without_reset_is_manual_witness :
  let a := mkItem "a" "first" (JObj []) Queued JNull 0 1 1 in
  let m := step 2000 EvTick
             (boot (Some (mkStored (Some [a]) None None None None)) 1000 true (Some 5) true) in
  let answer :=
    fst (executeSubmitPrompt (fun _ => None)
           (JObj [("prompt", JStr "first"); ("options", JObj [])])
           (JObj [("success", JBool false); ("status", JNum 429);
                  ("data", JObj [("type", JStr "rate_limit_exhausted")])])
           2400 (mkStorage (<[TOKEN := JStr "token"]> ∅) ∅)) in
  let trace := [(30000, EvTick); (60000, EvSweep); (90000, EvPollOk 0);
                (120000, EvRestart true None true); (150000, EvTick)] in
  let m2 := run trace (step 2500 (EvResolve 0 (Responded answer)) m) in
  isPaused (st m2) = true /\ pending m2 = [] /\ checkAndSubmit 200000 m2 = m2.
Proof.
  intros a m answer trace m2.
  assert (HF : Forall (fun ne => manualResume (snd ne) = false
                                /\ undisturbed (snd ne) = true) trace).
  { repeat (apply Forall_cons; split; [split; reflexivity |]). apply Forall_nil_2. }
  assert (V : extensionInvalidated (st m) = false) by (vm_compute; reflexivity).
  assert (Pm : pending m = [a]) by (vm_compute; reflexivity).
  destruct (daily_limit_pause_without_reset_is_manual 2500 a answer trace m
              V Pm eq_refl eq_refl eq_refl HF) as (_ & (_ & P & _ & _ & Pe & _) & H).
  split; [exact P |]. split; [exact Pe |]. exact (proj1 (H 200000)).
Defined.

(** ** The popup's Clear *)

Lemma cas_empty (now : Z) (m : Machine) :
  queue (st m) = [] -> checkAndSubmit now m = m.
Proof.
  intros H. rewrite checkAndSubmit_eq, H.
  now destruct (firstFailingGuard now (st m)).
Qed.

Lemma ui_empty (now : Z) (m : Machine) :
  queue (st m) = [] ->
  queue (st (updateUI now m)) = [] /\ pending (updateUI now m) = pending m
  /\ isSubmitting (st (updateUI now m)) = isSubmitting (st m).
Proof.
  intros H. rewrite updateUI_eq.
  destruct (isPaused (st m) && isDailyPause (pauseReason (st m))
            && truthyTime (dailyLimitResetTime (st m))); [| auto].
  destruct (0 <? default 0 (dailyLimitResetTime (st m)) - now); [auto |].
  rewrite cas_empty by exact H. auto.
Qed.

Lemma clearSeen_core (now : Z) (m : Machine) :
  synced m ->
  queue (st (Popup.clearSeen now m)) = []
  /\ pending (Popup.clearSeen now m) = pending m
  /\ isSubmitting (st (Popup.clearSeen now m)) = isSubmitting (st m).
Proof.
  intros (V & sd & E & Q & P & R & A). unfold Popup.clearSeen, Popup.clearQueue.
  rewrite E. cbn [default from_option Datatypes.id]. unfold onStorageChanged.
  cbn [st]. rewrite V.
  cbn [default from_option Datatypes.id sd_isAutomationEnabled sd_isPaused sd_pauseReason
       sd_queue]. rewrite A, P. cbn [st isAutomationEnabled].
  rewrite Bool.eqb_reflx. cbn [negb].
  match goal with
  | |- context [updateUI now ?x] =>
      destruct (ui_empty now x eq_refl) as (U1 & U2 & U3); rewrite U1, U2, U3
  end.
  repeat split.
Qed.

(** X21.  The popup's "Clear" empties the queue of the content script
    through the storage listener, also while a submission is in flight: the
    call stays pending and [isSubmitting] stays set, and when the call ends,
    however it ends, the queue is still empty. *)
Theorem popup_clear_empties_queue (now : Z) (m : Machine) :
  Calm m ->
  let m1 := Popup.clearSeen now m in
  queue (st m1) = []
  /\ pending m1 = pending m
  /\ isSubmitting (st m1) = isSubmitting (st m)
  /\ forall now' k o, queue (st (step now' (EvResolve k o) m1)) = [].
Proof.
  intros HR m1. pose proof (calm_Inv m HR) as HI.
  destruct (clearSeen_core now m (inv_synced m HI)) as (Q & P & S).
  fold m1 in Q, P, S. split; [exact Q |]. split; [exact P |]. split; [exact S |].
  pose proof (inv_flight m HI) as Hfl.
  revert Q P S. generalize m1. clear m1. intros m1 Q P S.
  intros now' k o. cbn [step]. rewrite P.
  destruct (pending m !! k) as [p|] eqn:L; [| exact Q].
  destruct (isSubmitting (st m)) eqn:Sm; [| rewrite Hfl in L; discriminate].
  set (m0 := mkMachine (st m1) (stored m1) (delete k (pending m)) (issued m1)).
  destruct (submitResolved_core now' p o m0 S) as (_ & _ & _ & HR').
  apply resolved_shape in HR'. rename HR' into HQ.
  change (queue (st m0)) with (queue (st m1)) in HQ. rewrite Q in HQ.
  destruct HQ as [(s & msg & _ & ->) | ->]; reflexivity.
Qed.

Lemma popup_clear_empties_queue_witness :
  let a := mkItem "a" "first" (JObj []) Queued JNull 0 1 1 in
  let b := mkItem "b" "second" (JObj []) Queued JNull 0 2 2 in
  let m := step 2000 EvTick
             (boot (Some (mkStored (Some [a; b]) None None None None)) 1000 true (Some 5) true) in
  let m1 := Popup.clearSeen 2100 m in
  pending m = [a] /\ queue (st m1) = [] /\ pending m1 = [a]
  /\ queue (st (step 2500 (EvResolve 0 (Threw "port closed")) m1)) = [].
Proof.
  intros a b m m1.
  assert (R : Calm m).
  { apply calm_step; [| exact I | reflexivity]. apply calm_boot. vm_compute.
    apply NoDup_cons. split; [| apply NoDup_singleton].
    intros H. apply list_elem_of_singleton in H. discriminate. }
  destruct (popup_clear_empties_queue 2100 m R) as (A & B & _ & C).
  split; [reflexivity |]. split; [exact A |]. split; [exact B |]. apply C.
Defined.

(** ** Flags that ticks leave alone *)

Lemma cas_flags (now : Z) (m : Machine) :
  hasValidToken (st (checkAndSubmit now m)) = hasValidToken (st m)
  /\ lastTokenCapture (st (checkAndSubmit now m)) = lastTokenCapture (st m)
  /\ activeTaskCount (st (checkAndSubmit now m)) = activeTaskCount (st m)
  /\ lastPollTime (st (checkAndSubmit now m)) = lastPollTime (st m)
  /\ isController (st (checkAndSubmit now m)) = isController (st m)
  /\ mainWorldReady (st (checkAndSubmit now m)) = mainWorldReady (st m)
  /\ isAutomationEnabled (st (checkAndSubmit now m)) = isAutomationEnabled (st m).
Proof.
  rewrite checkAndSubmit_eq.
  destruct (firstFailingGuard now (st m)); [now repeat split |].
  destruct (findQueued (queue (st m))); now repeat split.
Qed.

Lemma ui_flags (now : Z) (m : Machine) :
  hasValidToken (st (updateUI now m)) = hasValidToken (st m)
  /\ lastTokenCapture (st (updateUI now m)) = lastTokenCapture (st m)
  /\ activeTaskCount (st (updateUI now m)) = activeTaskCount (st m)
  /\ lastPollTime (st (updateUI now m)) = lastPollTime (st m)
  /\ isController (st (updateUI now m)) = isController (st m)
  /\ mainWorldReady (st (updateUI now m)) = mainWorldReady (st m)
  /\ isAutomationEnabled (st (updateUI now m)) = isAutomationEnabled (st m).
Proof.
  rewrite updateUI_eq.
  destruct (isPaused (st m) && isDailyPause (pauseReason (st m))
            && truthyTime (dailyLimitResetTime (st m))); [| now repeat split].
  destruct (0 <? default 0 (dailyLimitResetTime (st m)) - now); [now repeat split |].
  apply (cas_flags now (saveQueue (withSt clearDailyLimit m))).
Qed.



(** ** Polling *)

Lemma activeTasks_filter (data active : list JValue) :
  activeTasks data = Some active ->
  active = List.filter (fun t => match isActiveTask t with
                                 | Some b => b
                                 | None => false
                                 end) data
  /\ Forall (fun t => isActiveTask t <> None) data.
Proof.
  revert active. induction data as [|t data IH]; intros active H.
  - injection H as <-. split; [reflexivity | constructor].
  - simpl in H. destruct (isActiveTask t) as [b|] eqn:E; [| discriminate].
    destruct (activeTasks data) as [r|]; [| discriminate].
    injection H as <-. destruct (IH r eq_refl) as [-> F].
    split; [| constructor; [congruence | exact F]].
    simpl. rewrite E. reflexivity.
Qed.

Lemma activeTasks_throws (data : list JValue) :
  activeTasks data = None <-> Exists (fun t => isActiveTask t = None) data.
Proof.
  induction data as [|t data IH]; simpl.
  - split; [discriminate | intros H; inversion H].
  - destruct (isActiveTask t) as [b|] eqn:E.
    + destruct (activeTasks data) as [r|].
      * split; [discriminate |]. intros H. apply Exists_cons in H as [H | H]; [congruence |].
        apply IH in H. discriminate.
      * split; [| reflexivity]. intros _. apply Exists_cons. right. now apply IH.
    + split; [| reflexivity]. intros _. apply Exists_cons. now left.
Qed.

(** X22.  The poll run in the page succeeds only for an OK response whose
    body is an array in which the status test of no task throws; the active
    count is then the number of tasks with status queued, processing or
    running, letter case ignored, and the total count is the length of the
    array.  A task whose status is truthy and not a string makes the poll
    fail; a response that is not OK gives the error "HTTP" and the status. *)
Theorem poll_counts_active_tasks (r : Response) :
  let result := pollInPage r in
  (truthy (prop result "success") = true ->
   exists status data active,
     r = Answered true status (Parsed (JArr data))
     /\ active = List.filter (fun t => match isActiveTask t with
                                       | Some b => b
                                       | None => false
                                       end) data
     /\ Forall (fun t => isActiveTask t <> None) data
     /\ prop result "activeCount" = JNum (Z.of_nat (length active))
     /\ prop result "totalCount" = JNum (Z.of_nat (length data))
     /\ prop result "tasks" = JArr data
     /\ (length active <= length data)%nat)
  /\ (forall status data,
        r = Answered true status (Parsed (JArr data)) ->
        Exists (fun t => isActiveTask t = None) data ->
        truthy (prop result "success") = false)
  /\ (forall status body,
        r = Answered false status body ->
        result = JObj [("success", JBool false); ("error", JStr ("HTTP " +:+ pretty status))]).
Proof.
  intros result. subst result. split; [| split].
  - destruct r as [message | ok status body]; [discriminate |].
    destruct ok; [| discriminate].
    destruct body as [data | message]; [| discriminate].
    destruct data as [| | | | |data|]; try discriminate.
    cbn [pollInPage negb].
    destruct (activeTasks data) as [active|] eqn:E; [| discriminate].
    intros _. destruct (activeTasks_filter data active E) as [Ha F].
    exists status, data, active. repeat split; try assumption.
    rewrite Ha. apply filter_length_le.
  - intros status data -> H. apply activeTasks_throws in H.
    cbn [pollInPage negb]. now rewrite H.
  - intros status body ->. reflexivity.
Qed.

Lemma poll_counts_active_tasks_witness :
  let data := [JObj [("status", JStr "Running")]; JObj [("status", JStr "succeeded")];
               JNull; JObj [("status", JStr "QUEUED")]] in
  prop (pollInPage (Answered true 200 (Parsed (JArr data)))) "activeCount" = JNum 2
  /\ truthy (prop (pollInPage (Answered true 200
                     (Parsed (JArr [JObj [("status", JNum 1)]])))) "success") = false.
Proof.
  intros data.
  destruct (poll_counts_active_tasks (Answered true 200 (Parsed (JArr data)))) as [A _].
  destruct (poll_counts_active_tasks
              (Answered true 200 (Parsed (JArr [JObj [("status", JNum 1)]])))) as (_ & B & _).
  split.
  - destruct (A eq_refl) as (status & data' & active & E & Ha & _ & Hc & _).
    injection E as _ <-. rewrite Hc, Ha. reflexivity.
  - apply (B 200 [JObj [("status", JNum 1)]] eq_refl).
    apply Exists_cons. left. reflexivity.
Defined.






Lemma heartbeatAnswered_flag (answer : bool) (m : Machine) :
  isController (st (heartbeatAnswered answer m)) = answer
  /\ queue (st (heartbeatAnswered answer m)) = queue (st m)
  /\ pending (heartbeatAnswered answer m) = pending m
  /\ stored (heartbeatAnswered answer m) = stored m.
Proof.
  unfold heartbeatAnswered.
  destruct answer, (isController (st m)) eqn:E; cbn; auto.
Qed.

(** X24.  After a registration and after a heartbeat, in a valid context and
    with a stored heartbeat that is not an object, the content script's
    controller flag says whether the lease in storage is its own; without a
    tab id it is not the controller and nothing is written.  A heartbeat
    never moves the lease, and neither call touches the queue or the pending
    submissions. *)
Theorem controller_flag_follows_storage (S2N : string -> option Z)
    (tabExists : JValue -> bool) (tabId : option Z) (now : Z) (bg : Storage)
    (m : Machine) :
  extensionInvalidated (st m) = false ->
  isPrimitive (getKey (local bg) CONTROLLER_HEARTBEAT) = true ->
  let r := Tab.registerAsController S2N tabId tabExists now bg m in
  let h := Tab.sendHeartbeat tabId now bg m in
  (noTab tabId = false ->
   isController (st (snd r)) = strictEqNum (leader (fst r)) (tabNum tabId)
   /\ isController (st (snd h)) = strictEqNum (leader (fst h)) (tabNum tabId))
  /\ (noTab tabId = true ->
      isController (st (snd r)) = false /\ isController (st (snd h)) = false
      /\ fst r = bg /\ fst h = bg)
  /\ leader (fst h) = leader bg
  /\ queue (st (snd h)) = queue (st m) /\ pending (snd h) = pending m
  /\ queue (st (snd r)) = queue (st m) /\ pending (snd r) = pending m.
Proof.
  intros V Hh r h. subst r h. unfold Tab.registerAsController, Tab.sendHeartbeat.
  rewrite V.
  destruct (registerController S2N tabExists tabId now bg) as [ra rb] eqn:ER.
  destruct (handleHeartbeat tabId now bg) as [ha hb] eqn:EH.
  cbn [fst snd withSt st isController setController queue pending].
  destruct (heartbeatAnswered_flag (truthy (prop ha "isController")) m) as (F & Q & P & _).
  rewrite F, Q, P.
  destruct (heartbeat_effect tabId now bg) as (L & _ & A & _).
  rewrite EH in L, A. cbn [fst snd] in L, A.
  split; [| split; [| repeat split; assumption]].
  - intros Ht.
    destruct (registerController_coherent S2N tabExists tabId now bg Ht Hh) as (C & _).
    rewrite ER in C. cbn [fst snd] in C.
    split; [exact C |]. rewrite A, Ht, L. reflexivity.
  - intros Ht. rewrite A, Ht. cbn [negb andb].
    unfold registerController in ER. rewrite Ht in ER. injection ER as <- <-.
    unfold handleHeartbeat in EH. rewrite Ht in EH. injection EH as <- <-.
    repeat split.
Qed.

Lemma manualTokenAccepted_fields (now : Z) (m : Machine) :
  hasValidToken (st (manualTokenAccepted now m)) = true
  /\ lastTokenCapture (st (manualTokenAccepted now m)) = Some now.
Proof.
  unfold manualTokenAccepted.
  set (m1 := withSt (fun x => setLastTokenCapture (Some now) (setHasValidToken true x)) m).
  destruct (ui_flags now m1) as (A & B & _).
  destruct (cas_flags now (updateUI now m1)) as (A' & B' & _).
  rewrite A', B', A, B. split; reflexivity.
Qed.

(** X25.  Setting a token from the panel: a text of white space only changes
    nothing, in the content script and in the background.  Any other text
    marks the token valid, sets the capture time to the clock and stores the
    trimmed text, which is the token then used unless the write went to the
    local area while the session area holds a token; the controller lease is
    untouched. *)
Theorem set_token_from_panel (text : string) (now now' : Z) (sessionOk : bool)
    (bg : Storage) (m : Machine) :
  let out := Tab.setManualToken text now now' sessionOk bg m in
  (allSpace text = true -> out = (bg, m))
  /\ (allSpace text = false ->
      hasValidToken (st (snd out)) = true
      /\ lastTokenCapture (st (snd out)) = Some now'
      /\ prop (getCapturedHeaders (fst out)) "token"
         = (if sessionOk || negb (truthy (getKey (session bg) TOKEN))
            then JStr (trim text) else getKey (session bg) TOKEN)
      /\ prop (getTokenStatus (fst out)) "hasToken" = JBool true
      /\ leader (fst out) = leader bg).
Proof.
  intros out. subst out. unfold Tab.setManualToken. split.
  - intros H. destruct (String.eqb_spec text ""); [reflexivity |].
    rewrite setManualToken_invalid; [reflexivity |].
    intros t E. cbn in E. injection E as <-. rewrite trim_idem.
    now apply trim_nil_iff.
  - intros H.
    assert (Hne : trim text <> "").
    { intros E. apply trim_nil_iff in E. congruence. }
    assert (Hne' : trim (trim text) <> "") by (now rewrite trim_idem).
    destruct (String.eqb_spec text "") as [-> | _]; [discriminate |].
    rewrite (setManualToken_store (JObj [("token", JStr (trim text))]) now sessionOk bg
               (trim text) eq_refl Hne').
    cbn [prop assoc String.eqb Ascii.eqb Bool.eqb truthy fst snd jor].
    change (String.eqb "success" "success") with true. cbv iota.
    cbn [fst snd truthy].
    destruct (manualTokenAccepted_fields now' m) as (A & B).
    split; [exact A |]. split; [exact B |].
    rewrite trim_idem.
    pose proof (truthy_nonempty _ Hne) as Ht.
    unfold getCapturedHeaders, getTokenStatus, leader.
    change (truthy JUndefined) with false. cbv iota.
    destruct sessionOk; cbn [session local orb app].
    + rewrite !getKey_setAll. cbn [List.map fst existsb rev app assoc].
      change (String.eqb TOKEN TOKEN) with true.
      change (String.eqb TOKEN TOKEN_CAPTURED_AT) with false.
      cbn [orb]. rewrite Ht.
      rewrite !getKey_setAll. cbn [List.map fst existsb rev app assoc].
      change (String.eqb TOKEN TOKEN) with true.
      change (String.eqb TOKEN TOKEN_CAPTURED_AT) with false.
      cbn [orb prop assoc]. unfold jor. rewrite Ht. repeat split.
    + destruct (truthy (getKey (session bg) TOKEN)) eqn:Hs; cbn [negb].
      * cbn [prop assoc]. unfold jor.
        change (String.eqb "token" "success") with false.
        change (String.eqb "token" "token") with true.
        change (String.eqb "hasToken" "success") with false.
        change (String.eqb "hasToken" "hasToken") with true.
        cbv iota. rewrite Hs. rewrite !getKey_setAll. repeat split.
      * rewrite !getKey_setAll. cbn [List.map fst existsb rev app assoc].
        change (String.eqb TOKEN TOKEN) with true.
        change (String.eqb TOKEN TOKEN_CAPTURED_AT) with false.
        cbn [orb]. rewrite Ht. cbn [prop assoc]. unfold jor.
        change (String.eqb "token" "success") with false.
        change (String.eqb "token" "token") with true.
        change (String.eqb "hasToken" "success") with false.
        change (String.eqb "hasToken" "hasToken") with true.
        cbv iota. rewrite Ht. repeat split.
Qed.

Lemma set_token_from_panel_witness :
  let m := boot None 1000 false None true in
  let bg := mkStorage ∅ ∅ in
  Tab.setManualToken "   " 5 6 true bg m = (bg, m)
  /\ hasValidToken (st (snd (Tab.setManualToken " abc " 5 6 true bg m))) = true
  /\ prop (getCapturedHeaders (fst (Tab.setManualToken " abc " 5 6 true bg m))) "token"
     = JStr "abc".
Proof.
  intros m bg.
  destruct (set_token_from_panel "   " 5 6 true bg m) as [A _].
  destruct (set_token_from_panel " abc " 5 6 true bg m) as [_ B].
  split; [exact (A eq_refl) |].
  destruct (B eq_refl) as (B1 & _ & B3 & _). split; [exact B1 | exact B3].
Defined.

(** ** Utilities *)

Lemma length_append (s t : string) :
  String.length (s +:+ t) = (String.length s + String.length t)%nat.
Proof. induction s as [|c s IH]; [reflexivity |]. app_norm. simpl. now rewrite IH. Qed.

Lemma substring_split (n : nat) (s : string) :
  (n <= String.length s)%nat ->
  exists rest, s = String.substring 0 n s +:+ rest
               /\ String.length (String.substring 0 n s) = n.
Proof.
  revert s. induction n as [|n IH]; intros s H.
  - exists s. destruct s; split; reflexivity.
  - destruct s as [|c s]; [simpl in H; lia |].
    destruct (IH s ltac:(simpl in H; lia)) as (rest & E & L).
    exists rest. simpl. app_norm. split; [now rewrite <- E | now rewrite L].
Qed.

Lemma substring_append (s t : string) :
  String.substring 0 (String.length s) (s +:+ t) = s.
Proof.
  induction s as [|c s IH]; [now destruct t |]. app_norm. simpl. now rewrite IH.
Qed.

(** [truncatePrompt] keeps a prompt of at most 80 characters and cuts a
    longer one to its first 80 characters and three dots; cutting twice is
    cutting once. *)
Theorem truncatePrompt_preview (p : string) :
  (String.length (truncatePrompt p) <= 83)%nat
  /\ ((String.length p <= 80)%nat -> truncatePrompt p = p)
  /\ ((80 < String.length p)%nat ->
      exists head rest,
        p = head +:+ rest /\ String.length head = 80%nat /\ rest <> ""
        /\ truncatePrompt p = head +:+ "...")
  /\ truncatePrompt (truncatePrompt p) = truncatePrompt p.
Proof.
  unfold truncatePrompt, PROMPT_PREVIEW_LENGTH.
  destruct (Nat.leb_spec (String.length p) 80) as [H | H].
  - split; [lia |]. split; [reflexivity |]. split; [lia |].
    destruct (Nat.leb_spec (String.length p) 80); [reflexivity | lia].
  - destruct (substring_split 80 p ltac:(lia)) as (rest & E & L).
    set (head := String.substring 0 80 p) in *.
    assert (Hl : String.length (head +:+ "...") = 83%nat)
      by (rewrite length_append, L; reflexivity).
    split; [lia |]. split; [lia |]. split.
    + intros _. exists head, rest. repeat split; try assumption.
      intros ->. rewrite append_nil_r in E. rewrite E in H. lia.
    + destruct (Nat.leb_spec (String.length (head +:+ "...")) 80); [lia |].
      rewrite <- L at 1. now rewrite substring_append.
Qed.

Lemma truncatePrompt_preview_witness :
  truncatePrompt "a short prompt" = "a short prompt".
Proof.
  destruct (truncatePrompt_preview "a short prompt") as (_ & H & _).
  apply H. simpl. lia.
Defined.



(** ** What one handler run does to the items *)

Lemma ticked_items (now : Z) (m m' : Machine) :
  NoDup (ids (queue (st m))) -> Ticked now m m' ->
  (forall j, j ∈ queue (st m') ->
     exists i, i ∈ queue (st m)
               /\ (j = i \/ (status i = Queued /\ j = setStatus Sending JNull now i)))
  /\ (forall p, p ∈ pending m' ->
        p ∈ pending m \/ (p ∈ queue (st m) /\ status p = Queued)).
Proof.
  intros Hnd [(Q & _ & P & _) | (item & F & _ & Q & _ & P & _)].
  - rewrite Q, P. split; [intros j Hj; exists j; auto | auto].
  - destruct (findQueued_spec _ _ F) as [Hin Hst]. split.
    + intros j Hj. rewrite Q in Hj.
      destruct (updateFirst_mem (id item) (setStatus Sending JNull now) (queue (st m)) j
                  ltac:(intros; reflexivity) Hnd Hj) as [[Hj' _] | (i & Hi & Hid & ->)].
      * exists j. auto.
      * exists i. split; [exact Hi |]. right. split; [| reflexivity].
        pose proof (findById_unique (id item) _ i Hnd Hi Hid) as F1.
        pose proof (findById_unique (id item) _ item Hnd Hin eq_refl) as F2.
        congruence.
    + intros p Hp. rewrite P in Hp. apply elem_of_app in Hp as [Hp | Hp]; [now left |].
      apply list_elem_of_singleton in Hp as ->. right. now split.
Qed.

Lemma tick_events_ticked (now : Z) (e : Event) (m : Machine) :
  synced m ->
  match e with
  | EvToggle | EvRetryNow | EvTokenCaptured _ | EvTokenCleared | EvTokenStatus _ _
  | EvManualToken | EvTokenClearedDone | EvPollOk _ | EvPollFail _ | EvHeartbeat _
  | EvSweep | EvTick | EvStorageEcho => Ticked now m (step now e m)
  | _ => True
  end.
Proof.
  intros Sy.
  destruct e as [pr opts rnd|itemId|itemId|itemId| | | |hasToken| |hasToken capturedAt
                | | |activeCount|issue|answer| | | |newValue|newValue| |k o
                |hasToken capturedAt controller];
    try exact I; cbn [step].
  - unfold toggleAutomation_click.
    destruct (isPaused (st m) && isDailyPause (pauseReason (st m)));
      try destruct (isAutomationEnabled _); tick.
  - unfold retryNow_click; tick.
  - unfold onTokenCaptured; rewrite (proj1 Sy); tick.
  - unfold onTokenCleared; rewrite (proj1 Sy); tick.
  - unfold tokenStatusReceived; tick.
  - unfold manualTokenAccepted; tick.
  - unfold tokenClearedDone; tick.
  - unfold pollSucceeded; tick.
  - unfold pollFailed; destruct issue; tick.
  - unfold heartbeatAnswered;
      destruct (negb answer && isController (st m));
      try destruct (answer && negb (isController (st m))); tick.
  - unfold dailyLimitSweep;
      destruct (truthyTime (dailyLimitResetTime (st m))
                && (default 0 (dailyLimitResetTime (st m)) <=? now));
      try destruct (isDailyPause _); tick.
  - tick.
  - destruct Sy as (V & sd & E & Q & P & R & A).
    assert (Heq : onStorageChanged now (stored m) m
                  = updateUI now
                      (withSt (setQueue (queue (st m)))
                         (withSt (fun x => setPauseReason (pauseReason (st m))
                                             (setPaused (isPaused (st m)) x)) m))).
    { unfold onStorageChanged. rewrite V, E. simpl. rewrite A, P, Q, R.
      now rewrite Bool.eqb_reflx. }
    rewrite Heq. apply ticked_ui. left. repeat split.
Qed.

Lemma queue_events_edit (now : Z) (e : Event) (m : Machine) :
  NoDup (ids (queue (st m))) ->
  match e with
  | EvRemove _ | EvMoveUp _ | EvMoveDown _ | EvClearErrors =>
      exists q', (forall j, j ∈ q' -> j ∈ queue (st m))
                 /\ NoDup (ids q')
                 /\ Ticked now (saveQueue (withSt (setQueue q') m)) (step now e m)
  | _ => True
  end.
Proof.
  intros Hnd.
  assert (Hsame : exists q', (forall j, j ∈ q' -> j ∈ queue (st m))
                 /\ NoDup (ids q')
                 /\ Ticked now (saveQueue (withSt (setQueue q') m)) m).
  { exists (queue (st m)). split; [auto |]. split; [exact Hnd |]. left. repeat split. }
  destruct e as [pr opts rnd|itemId|itemId|itemId| | | |hasToken| |hasToken capturedAt
                | | |activeCount|issue|answer| | | |newValue|newValue| |k o
                |hasToken capturedAt controller];
    try exact I; cbn [step].
  - unfold removeFromQueue, removeFromQueue_body.
    destruct (findIndex itemId (queue (st m))) as [index|]; [| exact Hsame].
    exists (spliceOne index (queue (st m))).
    split; [intros j; apply spliceOne_sub |]. split; [now apply spliceOne_NoDup |].
    apply ticked_ui, ticked_refl.
  - unfold moveUp.
    destruct (findIndex itemId (queue (st m))) as [[|n]|];
      unfold Nat.ltb; cbn [Nat.leb]; try exact Hsame.
    replace (S n - 1)%nat with n by lia.
    pose proof (swap_adjacent_perm n (queue (st m))) as Hp.
    exists (swap n (S n) (queue (st m))).
    split; [intros j; now rewrite Hp |]. split; [now rewrite (perm_ids _ _ Hp) |].
    apply ticked_ui, ticked_refl.
  - unfold moveDown.
    destruct (findIndex itemId (queue (st m))) as [n|];
      [destruct (n <? length (queue (st m)) - 1)%nat |]; try exact Hsame.
    replace (n + 1)%nat with (S n) by lia.
    pose proof (swap_adjacent_perm n (queue (st m))) as Hp.
    exists (swap n (S n) (queue (st m))).
    split; [intros j; now rewrite Hp |]. split; [now rewrite (perm_ids _ _ Hp) |].
    apply ticked_ui, ticked_refl.
  - unfold clearErrors_click.
    exists (List.filter (fun i => negb (statusEqb (status i) Error)) (queue (st m))).
    split; [intros j; apply filter_sub |]. split; [now apply filter_NoDup |].
    apply ticked_ui, ticked_refl.
Qed.

Lemma step_items (now : Z) (e : Event) (m : Machine) :
  Inv m -> enabled now e m -> undisturbed e = true ->
  (forall j, j ∈ queue (st (step now e m)) ->
     (exists i, i ∈ queue (st m) /\ ItemStep now i j)
     \/ (exists pr opts rnd, e = EvAdd pr opts rnd
                             /\ ItemStep now (newItem now pr opts rnd) j))
  /\ (forall p, p ∈ pending (step now e m) ->
        p ∈ pending m \/ (p ∈ queue (st m) /\ status p = Queued)
        \/ (exists pr opts rnd, e = EvAdd pr opts rnd /\ p = newItem now pr opts rnd)).
Proof.
  intros HI He U.
  pose proof (inv_nodup m HI) as Hnd.
  assert (Htick : Ticked now m (step now e m) ->
    (forall j, j ∈ queue (st (step now e m)) ->
       (exists i, i ∈ queue (st m) /\ ItemStep now i j)
       \/ (exists pr opts rnd, e = EvAdd pr opts rnd
                               /\ ItemStep now (newItem now pr opts rnd) j))
    /\ (forall p, p ∈ pending (step now e m) ->
          p ∈ pending m \/ (p ∈ queue (st m) /\ status p = Queued)
          \/ (exists pr opts rnd, e = EvAdd pr opts rnd /\ p = newItem now pr opts rnd))).
  { intros T. destruct (ticked_items now m _ Hnd T) as [A B]. split.
    - intros j Hj. left. destruct (A j Hj) as (i & Hi & [-> | [Hs ->]]);
        exists i; split; try assumption; [apply item_kept | now apply item_sent].
    - intros p Hp. destruct (B p Hp) as [H | H]; auto. }
  assert (Hedit : (exists q', (forall j, j ∈ q' -> j ∈ queue (st m))
                 /\ NoDup (ids q')
                 /\ Ticked now (saveQueue (withSt (setQueue q') m)) (step now e m)) ->
    (forall j, j ∈ queue (st (step now e m)) ->
       (exists i, i ∈ queue (st m) /\ ItemStep now i j)
       \/ (exists pr opts rnd, e = EvAdd pr opts rnd
                               /\ ItemStep now (newItem now pr opts rnd) j))
    /\ (forall p, p ∈ pending (step now e m) ->
          p ∈ pending m \/ (p ∈ queue (st m) /\ status p = Queued)
          \/ (exists pr opts rnd, e = EvAdd pr opts rnd /\ p = newItem now pr opts rnd))).
  { intros (q' & Hsub & Hnd' & T).
    destruct (ticked_items now (saveQueue (withSt (setQueue q') m)) _ Hnd' T) as [A B]. split.
    - intros j Hj. left. destruct (A j Hj) as (i & Hi & [-> | [Hs ->]]);
        exists i; (split; [apply Hsub, Hi |]); [apply item_kept | now apply item_sent].
    - intros p Hp. destruct (B p Hp) as [H | [H1 H2]]; [now left |].
      right. left. split; [apply Hsub, H1 | exact H2]. }
  pose proof (tick_events_ticked now e m (inv_synced m HI)) as HT.
  pose proof (queue_events_edit now e m Hnd) as HQ.
  destruct e as [pr opts rnd|itemId|itemId|itemId| | | |hasToken| |hasToken capturedAt
                | | |activeCount|issue|answer| | | |newValue|newValue| |k o
                |hasToken capturedAt controller];
    try discriminate U;
    try (apply Htick; exact HT); try (apply Hedit; exact HQ); clear Htick Hedit HT HQ.
  - (* add *)
    cbn [step enabled] in *. unfold addToQueue.
    set (item := newItem now pr opts rnd).
    pose proof (Inv_push m HI item He eq_refl) as HI1.
    assert (T : Ticked now (saveQueue (push item m))
                  (checkAndSubmit now (updateUI now (saveQueue (push item m)))))
      by (apply ticked_cas, ticked_ui, ticked_refl).
    destruct (ticked_items now _ _ (inv_nodup _ HI1) T) as [A B]. split.
    + intros j Hj. destruct (A j Hj) as (i & Hi & Hij).
      cbn [saveQueue push st queue setQueue] in Hi.
      apply elem_of_app in Hi as [Hi | Hi].
      * left. exists i. split; [exact Hi |].
        destruct Hij as [-> | [Hs ->]]; [apply item_kept | now apply item_sent].
      * apply list_elem_of_singleton in Hi as ->. right. exists pr, opts, rnd.
        split; [reflexivity |].
        destruct Hij as [-> | [Hs ->]]; [apply item_kept | now apply item_sent].
    + intros p Hp. destruct (B p Hp) as [H | [H1 H2]]; [now left |].
      cbn [saveQueue push st queue setQueue] in H1.
      apply elem_of_app in H1 as [H1 | H1]; [right; left; now split |].
      apply list_elem_of_singleton in H1 as ->. right. right. now exists pr, opts, rnd.
  - (* resolve *)
    cbn [step].
    destruct (pending m !! k) as [p|] eqn:L.
    2:{ split; [intros j Hj; left; exists j; split; [exact Hj | apply item_kept] | auto]. }
    pose proof HI as [_ Hiss Hpi Hsy Hfl Hse Hal].
    destruct (isSubmitting (st m)) eqn:S; [| rewrite Hfl in L; discriminate].
    destruct Hfl as [p0 Hp]. rewrite Hp in L |- *.
    destruct k; [| discriminate]. simpl in L. injection L as ->. simpl delete.
    set (m0 := mkMachine (st m) (stored m) [] (issued m)).
    assert (Hpin : p ∈ pending m) by (rewrite Hp; apply list_elem_of_singleton; reflexivity).
    destruct (submitResolved_core now p o m0 S) as (_ & P' & _ & HQ).
    apply resolved_shape in HQ.
    change (pending m0) with (@nil Item) in P'.
    change (queue (st m0)) with (queue (st m)) in HQ.
    split.
    + intros j Hj. left. destruct HQ as [(s & msg & Hs & Q) | Q]; rewrite Q in Hj.
      * destruct (updateFirst_mem (id p) (setStatus s msg now) (queue (st m)) j
                    ltac:(intros; reflexivity) Hnd Hj) as [[Hj' _] | (i & Hi & Hid & ->)].
        -- exists j. split; [exact Hj' | apply item_kept].
        -- exists i. split; [exact Hi |]. apply item_answered; [| exact Hs].
           now destruct (Hal p i Hpin Hi Hid).
      * exists j. split; [| apply item_kept].
        destruct (findIndex (id p) (queue (st m))); [eapply spliceOne_sub, Hj | exact Hj].
    + intros q Hq. rewrite P' in Hq. now apply elem_of_nil in Hq.
  - (* restart *)
    cbn [step]. rewrite init_eq.
    set (m0 := mkMachine initialState (stored m) [] (issued m)).
    destruct (loadQueue_core now m0 eq_refl) as (Q & _ & P & _ & _).
    change (pending m0) with (@nil Item) in P.
    assert (Hq : storedQueue (stored m0) = queue (st m)).
    { destruct (inv_synced m HI) as (_ & sd & E & Q' & _). unfold storedQueue.
      change (stored m0) with (stored m). rewrite E. simpl. now rewrite Q'. }
    rewrite Hq in Q. revert Q P. generalize (loadQueue now m0). intros m1 Q P.
    cbn [withSt st queue pending setController setLastTokenCapture setHasValidToken].
    rewrite Q, P. split.
    + intros j Hj. left. apply list_elem_of_In, in_map_iff in Hj as (i & <- & Hi).
      exists i. split; [now apply list_elem_of_In |].
      destruct (status i) eqn:Si; try (unfold resetSending; rewrite Si; apply item_kept).
      now apply item_reset.
    + intros p Hp. now apply elem_of_nil in Hp.
Qed.

Lemma itemStep_fields (now : Z) (i j : Item) :
  ItemStep now i j ->
  id j = id i /\ prompt j = prompt i /\ options j = options i
  /\ createdAt j = createdAt i /\ retryCount i <= retryCount j.
Proof.
  intros [| Hs | s msg Hs Hq | Hs]; cbn; repeat split; try lia.
  - destruct (statusEqb s Error); lia.
  - apply resetSending_fields.
  - apply resetSending_fields.
  - apply resetSending_fields.
  - apply resetSending_fields.
  - destruct (resetSending_fields i) as (_ & _ & _ & -> & _). lia.
Qed.

Lemma itemStep_retryOk (now : Z) (i j : Item) :
  ItemStep now i j -> retryOk i -> retryOk j.
Proof.
  unfold retryOk. intros [| Hs | s msg Hs [-> | ->] | Hs] H; cbn.
  - exact H.
  - now rewrite Hs in H.
  - now rewrite Hs in H.
  - rewrite Hs in H. cbn in H. lia.
  - unfold resetSending. rewrite Hs in *. exact H.
Qed.

Lemma step_retryOk (now : Z) (e : Event) (m : Machine) :
  Inv m -> enabled now e m -> undisturbed e = true ->
  Forall retryOk (queue (st m)) -> Forall (fun p => retryCount p = 0) (pending m) ->
  Forall retryOk (queue (st (step now e m)))
  /\ Forall (fun p => retryCount p = 0) (pending (step now e m)).
Proof.
  intros HI He U HQ HP. rewrite Forall_forall in HQ, HP.
  destruct (step_items now e m HI He U) as [A B]. split; apply Forall_forall.
  - intros j Hj. destruct (A j Hj) as [(i & Hi & S) | (pr & opts & rnd & _ & S)].
    + eapply itemStep_retryOk; [exact S | now apply HQ].
    + eapply itemStep_retryOk; [exact S | reflexivity].
  - intros p Hp. destruct (B p Hp) as [H | [[H1 H2] | (pr & opts & rnd & _ & ->)]].
    + now apply HP.
    + specialize (HQ p H1). unfold retryOk in HQ. now rewrite H2 in HQ.
    + reflexivity.
Qed.

Lemma steps_retryOk (m m' : Machine) :
  CalmSteps m m' -> Inv m ->
  Forall retryOk (queue (st m)) -> Forall (fun p => retryCount p = 0) (pending m) ->
  Forall retryOk (queue (st m')) /\ Forall (fun p => retryCount p = 0) (pending m').
Proof.
  induction 1 as [m | m now e m' He U _ IH]; intros HI HQ HP; [now split |].
  destruct (step_retryOk now e m HI He U HQ HP) as [HQ' HP'].
  apply IH; [now apply step_good | exact HQ' | exact HP'].
Qed.

Lemma boot_queue (sd : option StoredData) (now : Z) (hasToken : bool)
    (capturedAt : option Z) (controller : bool) :
  queue (st (boot sd now hasToken capturedAt controller))
  = List.map resetSending (storedQueue sd)
  /\ pending (boot sd now hasToken capturedAt controller) = [].
Proof.
  unfold boot. rewrite init_eq.
  cbn [stored issued].
  destruct (loadQueue_core now (mkMachine initialState sd [] (ids (storedQueue sd))) eq_refl)
    as (Q & _ & P & _).
  cbn [stored pending] in Q, P.
  revert Q P. generalize (loadQueue now (mkMachine initialState sd [] (ids (storedQueue sd)))).
  intros m1 Q P.
  cbn [withSt st queue pending setController setLastTokenCapture setHasValidToken].
  now split.
Qed.

(** X27.  In every run of an instance left to itself, from a page load over
    a stored queue whose retry counts are 1 for items in error and 0 for the
    others, the retry count of an item is 1 if it is in error and 0
    otherwise, so never above 1, and an item in flight has retry count 0.
    The test [retryCount < 3] of the unknown rate limit therefore always
    passes: such an answer queues the item again. *)
Theorem retry_count_never_exceeds_one (sd : option StoredData) (now : Z) (hasToken : bool)
    (capturedAt : option Z) (controller : bool) (m : Machine) :
  NoDup (ids (storedQueue sd)) ->
  Forall retryOk (storedQueue sd) ->
  CalmSteps (boot sd now hasToken capturedAt controller) m ->
  Forall retryOk (queue (st m))
  /\ Forall (fun i => 0 <= retryCount i <= 1) (queue (st m))
  /\ Forall (fun p => retryCount p = 0) (pending m)
  /\ forall now' p result i,
       pending m = [p] -> prop result "error" = JStr "RATE_LIMIT_UNKNOWN" ->
       findById (id p) (queue (st m)) = Some i ->
       findById (id p) (queue (st (handleSubmitError now' p result m)))
       = Some (setStatus Queued JNull now' i).
Proof.
  intros Hnd HQ HS.
  pose proof (boot_Inv sd now hasToken capturedAt controller Hnd) as HI.
  destruct (boot_queue sd now hasToken capturedAt controller) as [Q P].
  assert (HQ0 : Forall retryOk (queue (st (boot sd now hasToken capturedAt controller)))).
  { rewrite Q. apply Forall_forall. intros j Hj.
    apply list_elem_of_In, in_map_iff in Hj as (i & <- & Hi).
    rewrite Forall_forall in HQ. specialize (HQ i ltac:(now apply list_elem_of_In)).
    unfold retryOk, resetSending in *.
    destruct (status i) eqn:E; cbn in *; rewrite ?E; cbn; exact HQ. }
  assert (HP0 : Forall (fun p => retryCount p = 0)
                  (pending (boot sd now hasToken capturedAt controller))).
  { rewrite P. constructor. }
  destruct (steps_retryOk _ _ HS HI HQ0 HP0) as [HQ' HP'].
  pose proof (steps_Inv _ _ HS HI) as HI'.
  split; [exact HQ' |]. split; [| split; [exact HP' |]].
  - eapply Forall_impl; [exact HQ' |]. intros i Hi. unfold retryOk in Hi.
    destruct (statusEqb (status i) Error); lia.
  - intros now' p result i Hp He Hf.
    assert (S : isSubmitting (st m) = true) by (now apply (inv_in_flight m p)).
    assert (Hr : retryCount p < 3).
    { rewrite Forall_forall in HP'. rewrite (HP' p); [lia |].
      rewrite Hp. apply list_elem_of_singleton. reflexivity. }
    exact (proj1 (rate_limit_unknown_requeue now' p i result m S He Hr Hf)).
Qed.

Lemma steps_absent (m m' : Machine) (y : string) :
  CalmSteps m m' -> Inv m -> y ∈ issued m -> findById y (queue (st m)) = None ->
  findById y (queue (st m')) = None.
Proof.
  intros HS HI Hy N.
  destruct (steps_settled m m' y HS HI Hy) as [H _].
  unfold statusOf in H. rewrite N in H. specialize (H eq_refl).
  now destruct (findById y (queue (st m'))).
Qed.

Lemma steps_fields (m m' : Machine) :
  CalmSteps m m' -> Inv m ->
  forall i j, i ∈ queue (st m) -> j ∈ queue (st m') -> id j = id i ->
    prompt j = prompt i /\ options j = options i /\ createdAt j = createdAt i
    /\ retryCount i <= retryCount j.
Proof.
  induction 1 as [m | m now e m' He U HS IH]; intros HI i j Hi Hj E.
  - assert (j = i).
    { pose proof (findById_unique (id i) _ i (inv_nodup m HI) Hi eq_refl) as F1.
      pose proof (findById_unique (id i) _ j (inv_nodup m HI) Hj E) as F2. congruence. }
    subst. repeat split; lia.
  - destruct (step_good now e m HI He U) as (HI1 & _ & Hiss).
    assert (Hy : id i ∈ issued m) by (now apply (inv_issued m HI)).
    destruct (findById (id i) (queue (st (step now e m)))) as [i1|] eqn:F.
    + apply findById_In in F as [Hi1 E1].
      destruct (step_items now e m HI He U) as [A _].
      destruct (A i1 Hi1) as [(i0 & Hi0 & S) | (pr & opts & rnd & -> & S)].
      * destruct (itemStep_fields now i0 i1 S) as (Eid & Ep & Eo & Ec & Er).
        assert (i0 = i).
        { pose proof (findById_unique (id i) _ i (inv_nodup m HI) Hi eq_refl) as F1.
          pose proof (findById_unique (id i) _ i0 (inv_nodup m HI) Hi0 ltac:(congruence)) as F2.
          congruence. }
        subst i0.
        destruct (IH HI1 i1 j Hi1 Hj ltac:(congruence)) as (Gp & Go & Gc & Gr).
        repeat split; try congruence. lia.
      * exfalso. destruct (itemStep_fields now _ i1 S) as (Eid & _).
        cbn [enabled] in He. apply He. unfold newId.
        change (id (newItem now "" JUndefined rnd)) with (id (newItem now pr opts rnd)).
        rewrite <- Eid, E1. exact Hy.
    + exfalso.
      pose proof (steps_absent _ _ (id i) HS HI1 (Hiss _ Hy) F) as N.
      apply findById_None in N. apply N. rewrite <- E. now apply elem_of_ids.
Qed.

(** X28.  Along every run of an instance left to itself an item keeps its
    prompt, its options and its creation time for as long as it is in the
    queue, and its retry count never goes down. *)
Theorem queued_prompt_never_changes (m m' : Machine) (i j : Item) :
  Calm m -> CalmSteps m m' ->
  i ∈ queue (st m) -> j ∈ queue (st m') -> id j = id i ->
  prompt j = prompt i /\ options j = options i /\ createdAt j = createdAt i
  /\ retryCount i <= retryCount j.
Proof.
  intros HR HS. apply (steps_fields m m' HS (calm_Inv m HR)).
Qed.

(** [getTokenStatus] and [getCapturedHeaders] read the same area. *)
Lemma status_agrees_with_headers (st : Storage) :
  truthy (prop (getTokenStatus st) "hasToken")
  = truthy (prop (getCapturedHeaders st) "token").
Proof.
  unfold getTokenStatus, getCapturedHeaders.
  cbn [prop assoc String.eqb Ascii.eqb Bool.eqb].
  change (String.eqb "hasToken" "success") with false.
  change (String.eqb "hasToken" "hasToken") with true.
  change (String.eqb "token" "success") with false.
  change (String.eqb "token" "token") with true. cbv iota.
  set (area := if truthy (getKey (session st) TOKEN) then session st else local st).
  unfold jor. destruct (truthy (getKey area TOKEN)) eqn:E; [now rewrite E | reflexivity].
Qed.

Lemma tokenStatusReceived_fields (now : Z) (hasToken : bool) (capturedAt : option Z)
    (m : Machine) :
  hasValidToken (st (tokenStatusReceived now hasToken capturedAt m)) = hasToken
  /\ lastTokenCapture (st (tokenStatusReceived now hasToken capturedAt m)) = capturedAt.
Proof.
  unfold tokenStatusReceived.
  match goal with
  | |- context [updateUI now ?x] => destruct (ui_flags now x) as (A & B & _)
  end.
  rewrite A, B. split; reflexivity.
Qed.

(** X29.  In a valid context [checkTokenStatus] sets the token flag to
    whether the background holds a token, the same test by which
    [executeSubmitPrompt] refuses: when the flag is false every submission
    would be refused.  After [clearToken] the flag is false and the capture
    time unset, a later status check leaves it false, and [checkAndSubmit]
    sends nothing. *)
Theorem token_flag_follows_background (S2N : string -> option Z) (now' now'' : Z)
    (bg : Storage) (m : Machine) :
  extensionInvalidated (st m) = false ->
  let m1 := Tab.checkTokenStatus now' bg m in
  let out := Tab.clearToken now' bg m in
  hasValidToken (st m1) = truthy (prop (getCapturedHeaders bg) "token")
  /\ (hasValidToken (st m1) = false ->
      forall payload fetched now,
        prop (fst (executeSubmitPrompt S2N payload fetched now bg)) "success" = JBool false
        /\ snd (executeSubmitPrompt S2N payload fetched now bg) = bg)
  /\ hasValidToken (st (snd out)) = false
  /\ lastTokenCapture (st (snd out)) = None
  /\ hasValidToken (st (Tab.checkTokenStatus now'' (fst out) (snd out))) = false
  /\ checkAndSubmit now'' (snd out) = snd out.
Proof.
  intros V m1 out. subst m1 out. unfold Tab.checkTokenStatus, Tab.clearToken.
  cbn [fst snd].
  assert (V' : extensionInvalidated (st (tokenClearedDone now' m)) = false).
  { unfold tokenClearedDone. now rewrite flag_ui. }
  rewrite V, V'.
  destruct (tokenStatusReceived_fields now' (truthy (prop (getTokenStatus bg) "hasToken"))
              (timeOf (prop (getTokenStatus bg) "capturedAt")) m) as (A & _).
  rewrite A, status_agrees_with_headers.
  split; [reflexivity |]. split.
  { intros H payload fetched now. unfold executeSubmitPrompt. rewrite H.
    destruct (negb (truthy (prop (jor payload (JObj [])) "prompt"))); split; reflexivity. }
  assert (C : hasValidToken (st (tokenClearedDone now' m)) = false
              /\ lastTokenCapture (st (tokenClearedDone now' m)) = None).
  { unfold tokenClearedDone.
    match goal with
    | |- context [updateUI now' ?x] => destruct (ui_flags now' x) as (A1 & B1 & _)
    end.
    rewrite A1, B1. split; reflexivity. }
  destruct C as [C1 C2].
  split; [exact C1 |]. split; [exact C2 |]. split.
  - destruct (tokenStatusReceived_fields now''
                (truthy (prop (getTokenStatus (snd (clearToken bg))) "hasToken"))
                (timeOf (prop (getTokenStatus (snd (clearToken bg))) "capturedAt"))
                (tokenClearedDone now' m)) as (A2 & _).
    rewrite A2, cleared_status. reflexivity.
  - revert C1. generalize (tokenClearedDone now' m). intros m2 C1.
    rewrite checkAndSubmit_eq. unfold firstFailingGuard. rewrite C1. cbn [negb].
    destruct (negb (isAutomationEnabled (st m2))); [reflexivity |].
    destruct (isPaused (st m2)); [reflexivity |].
    now destruct (isSubmitting (st m2)).
Qed.

Lemma token_flag_follows_background_witness :
  let bg := mkStorage ∅ (<[TOKEN := JStr "t"]> ∅) in
  let m := boot None 1000 false None true in
  hasValidToken (st (Tab.checkTokenStatus 2000 bg m)) = true
  /\ hasValidToken (st (Tab.checkTokenStatus 2000 (mkStorage ∅ ∅) m)) = false
  /\ prop (fst (executeSubmitPrompt (fun _ => None) (JObj [("prompt", JStr "p")]) JNull 5
                  (mkStorage ∅ ∅))) "success" = JBool false.
Proof.
  intros bg m.
  assert (V : extensionInvalidated (st m) = false) by (vm_compute; reflexivity).
  destruct (token_flag_follows_background (fun _ => None) 2000 3000 bg m V) as (A & _).
  destruct (token_flag_follows_background (fun _ => None) 2000 3000 (mkStorage ∅ ∅) m V)
    as (B & C & _).
  split; [exact A |]. split; [exact B |].
  exact (proj1 (C B (JObj [("prompt", JStr "p")]) JNull 5)).
Defined.


Lemma expired_limit_is_cleared_witness :
  let a := mkItem "a" "first" (JObj []) Queued JNull 0 1 1 in
  let m := boot (Some (mkStored (Some [a]) (Some 9000) (Some true) (Some "daily_limit") None))
             1000 true (Some 5) true in
  isPaused (st (dailyLimitSweep 9000 m)) = false
  /\ dailyLimitResetTime (st (dailyLimitSweep 9000 m)) = None
  /\ dailyLimitSweep 8999 m = m.
Proof.
  intros a m.
  assert (V : extensionInvalidated (st m) = false) by (vm_compute; reflexivity).
  assert (P : isPaused (st m) = true) by (vm_compute; reflexivity).
  assert (R : pauseReason (st m) = Some "daily_limit") by (vm_compute; reflexivity).
  assert (D : dailyLimitResetTime (st m) = Some 9000) by (vm_compute; reflexivity).
  destruct (expired_limit_is_cleared 9000 9000 m V P R D ltac:(lia)) as [A _].
  destruct (expired_limit_is_cleared 8999 9000 m V P R D ltac:(lia)) as [_ B].
  destruct (A ltac:(lia) (dailyLimitSweep 9000 m) (or_intror (or_introl eq_refl)))
    as (A1 & _ & A3 & _).
  split; [exact A1 |]. split; [exact A3 |].
  exact (proj1 (proj2 (B ltac:(lia)))).
Defined.


Lemma controller_flag_follows_storage_witness :
  let bg := mkStorage ∅ (<[CONTROLLER_TAB := JNum 1]> (<[CONTROLLER_HEARTBEAT := JNum 19000]> ∅)) in
  let m := boot None 1000 true None true in
  isController (st (snd (Tab.sendHeartbeat (Some 2) 20000 bg m))) = false
  /\ isController (st (snd (Tab.registerAsController (fun _ => None) (Some 2)
                              (fun _ => false) 20000 bg m))) = true.
Proof.
  intros bg m.
  assert (V : extensionInvalidated (st m) = false) by (vm_compute; reflexivity).
  destruct (controller_flag_follows_storage (fun _ => None) (fun _ => false) (Some 2)
              20000 bg m V eq_refl) as (A & _).
  destruct (A eq_refl) as [R H]. split; [exact H | exact R].
Defined.

Lemma retry_count_never_exceeds_one_witness :
  let a := mkItem "a" "first" (JObj []) Error (JStr "HTTP 500") 1 1 1 in
  let b := mkItem "b" "second" (JObj []) Queued JNull 0 2 2 in
  let sd := Some (mkStored (Some [a; b]) None None None None) in
  let m := step 2000 EvTick (boot sd 1000 true (Some 5) true) in
  List.map status (queue (st m)) = [Error; Sending]
  /\ Forall (fun i => 0 <= retryCount i <= 1) (queue (st m))
  /\ Forall (fun p => retryCount p = 0) (pending m).
Proof.
  intros a b sd m.
  assert (Hnd : NoDup (ids (storedQueue sd))).
  { vm_compute. apply NoDup_cons. split; [| apply NoDup_singleton].
    intros H. apply list_elem_of_singleton in H. discriminate. }
  assert (HQ : Forall retryOk (storedQueue sd)).
  { repeat (apply Forall_cons; split; [reflexivity |]). apply Forall_nil_2. }
  assert (HS : CalmSteps (boot sd 1000 true (Some 5) true) m).
  { apply (calm_cons _ 2000 EvTick); [exact I | reflexivity | apply calm_nil]. }
  destruct (retry_count_never_exceeds_one sd 1000 true (Some 5) true m Hnd HQ HS)
    as (_ & A & B & _).
  split; [vm_compute; reflexivity |]. split; [exact A | exact B].
Defined.

Lemma queued_prompt_never_changes_witness :
  let a := mkItem "a" "first" (JObj []) Queued JNull 0 1 1 in
  let j := mkItem "a" "first" (JObj []) Sending JNull 0 1 2000 in
  let m := boot (Some (mkStored (Some [a]) None None None None)) 1000 true (Some 5) true in
  queue (st (step 2000 EvTick m)) = [j] /\ prompt j = prompt a /\ createdAt j = createdAt a.
Proof.
  intros a j m.
  assert (R : Calm m).
  { apply calm_boot. vm_compute. apply NoDup_singleton. }
  assert (HS : CalmSteps m (step 2000 EvTick m)).
  { apply (calm_cons _ 2000 EvTick); [exact I | reflexivity | apply calm_nil]. }
  assert (Hi : a ∈ queue (st m)).
  { apply list_elem_of_In. vm_compute. left. reflexivity. }
  assert (Hj : j ∈ queue (st (step 2000 EvTick m))).
  { apply list_elem_of_In. vm_compute. left. reflexivity. }
  destruct (queued_prompt_never_changes m (step 2000 EvTick m) a j R HS Hi Hj eq_refl)
    as (A & _ & C & _).
  split; [vm_compute; reflexivity |]. split; [exact A | exact C].
Defined.
